(** * Json2Database: the JSON to MDB converter of [backend/json2mdb.py]

    A shallow embedding of [JsonToMdbConverter], of the parts of the
    Python library it calls ([json.dumps], [json.loads],
    [datetime.fromisoformat], [dict]) and of the script of
    [backend/main.py], followed by the properties of the loader, the
    schema inferrer, the type normalizer, the writer and the script. *)

From Stdlib Require Import ZArith NArith Ascii String List Lia.
From Stdlib Require Import DecimalN DecimalPos DecimalFacts.
From stdpp Require Import base numbers strings list gmap.

Local Open Scope N_scope.

(** ** Python values *)

(** A Python [str] is a sequence of Unicode code points. *)
Definition pystr := list N.

(** A literal of the source, as code points. *)
Definition str (s : string) : pystr := map N_of_ascii (list_ascii_of_string s).

(** A text written with [']  where it has a double quote. *)
Definition qstr (s : string) : pystr :=
  map (fun c => if c =? 39 then 34 else c) (str s).

(** [datetime.datetime]: the fields of the constructor; [tz] is the UTC
    offset in microseconds of an aware value. *)
Record datetime := mk_datetime {
  year : N; month : N; day : N;
  hour : N; minute : N; second : N; microsecond : N;
  tz : option Z
}.

(** A Python [float].  A finite float is kept as the decimal expansion
    that [float.__repr__] prints for it: the digits [d1 ... dn] (values 0
    to 9) and the position [decpt] of the decimal point, the float being
    [0.d1...dn * 10^decpt]. *)
Inductive pyfloat :=
| FNaN
| FInf (neg : bool)
| FDec (neg : bool) (digits : list N) (decpt : Z).

(** What [json.load] can build, and [datetime] which the converter also
    tests for.  A [dict] keeps its insertion order. *)
#[warnings="-register-all"]
Inductive value :=
| VNone
| VBool (b : bool)
| VInt (n : Z)
| VFloat (f : pyfloat)
| VStr (s : pystr)
| VDatetime (d : datetime)
| VList (l : list value)
| VDict (d : list (pystr * value)).

Definition dict (V : Type) := list (pystr * V).

#[global] Instance datetime_eq_dec : EqDecision datetime.
Proof. solve_decision. Defined.
#[global] Instance pyfloat_eq_dec : EqDecision pyfloat.
Proof. solve_decision. Defined.

(** ** Exceptions and results *)

Inductive exn :=
| RuntimeError (msg : string)
| TypeError
| AttributeError
| KeyError
| FileNotFoundError
| OdbcError
| JSONDecodeError
| ValueError
| UnicodeDecodeError.

Inductive result (A : Type) :=
| Ok (a : A)
| Err (e : exn).
Arguments Ok {A} a.
Arguments Err {A} e.

Definition bind {A B} (r : result A) (k : A -> result B) : result B :=
  match r with
  | Ok a => k a
  | Err e => Err e
  end.

Notation "'let*' p ':=' r 'in' k" := (bind r (fun p => k))
  (at level 10, p pattern, r at level 100, k at level 200).

Section MapR.

Context {A B : Type} (f : A -> result B).

Fixpoint mapR (l : list A) : result (list B) :=
  match l with
  | [] => Ok []
  | a :: l' => let* b := f a in let* bs := mapR l' in Ok (b :: bs)
  end.

End MapR.

(** ** dict operations *)

Section Dict.

Context {V : Type}.

(** [d.get(k)] *)
Fixpoint dict_get (k : pystr) (d : dict V) : option V :=
  match d with
  | [] => None
  | (k', v) :: d' => if decide (k = k') then Some v else dict_get k d'
  end.

(** [k in d] *)
Definition dict_in (k : pystr) (d : dict V) : bool :=
  match dict_get k d with Some _ => true | None => false end.

(** [d[k] = v]: an existing key keeps its place, a new key goes last. *)
Fixpoint dict_set (k : pystr) (v : V) (d : dict V) : dict V :=
  match d with
  | [] => [(k, v)]
  | (k', v') :: d' =>
      if decide (k = k') then (k', v) :: d' else (k', v') :: dict_set k v d'
  end.

(** [d.keys()] *)
Definition keys (d : dict V) : list pystr := map fst d.

End Dict.

(** ** The schema inferrer: [_infer_type] and [_is_datetime] *)

Inductive coltype := YESNO | INTEGER | DOUBLE | DATETIME | TEXT255.

#[global] Instance coltype_eq_dec : EqDecision coltype.
Proof. solve_decision. Defined.

(** The text the source returns for each type. *)
Definition coltype_sql (t : coltype) : string :=
  match t with
  | YESNO => "YESNO"
  | INTEGER => "INTEGER"
  | DOUBLE => "DOUBLE"
  | DATETIME => "DATETIME"
  | TEXT255 => "TEXT(255)"
  end.

(** [isinstance(value, bool)] *)
Definition isinstance_bool (v : value) : bool :=
  match v with VBool _ => true | _ => false end.

(** [isinstance(value, int)]: [bool] is a subclass of [int]. *)
Definition isinstance_int (v : value) : bool :=
  match v with VBool _ | VInt _ => true | _ => false end.

Definition isinstance_float (v : value) : bool :=
  match v with VFloat _ => true | _ => false end.

Definition isinstance_str (v : value) : bool :=
  match v with VStr _ => true | _ => false end.

Definition isinstance_datetime (v : value) : bool :=
  match v with VDatetime _ => true | _ => false end.

(** *** [datetime.fromisoformat]

    The library function, for the format it documents (Python 3.7 to
    3.10): [YYYY-MM-DD[*HH[:MM[:SS[.fff[fff]]]][+HH:MM[:SS[.ffffff]]]]],
    where [*] is any one character, followed by the range checks of the
    [datetime] constructor. *)

Definition is_digit (c : N) : bool := (48 <=? c) && (c <=? 57).

(** Exactly [n] decimal digits. *)
Fixpoint parse_digits (n : nat) (s : pystr) (acc : N) : option (N * pystr) :=
  match n with
  | O => Some (acc, s)
  | S n' =>
      match s with
      | c :: s' =>
          if is_digit c then parse_digits n' s' (10 * acc + (c - 48)) else None
      | [] => None
      end
  end.

(** [.fff] or [.ffffff], up to the end of the text. *)
Definition parse_ff (s : pystr) : option N :=
  match s with
  | [] => Some 0
  | c :: f =>
      if c =? 46 then
        if decide (length f = 3%nat) then
          match parse_digits 3 f 0 with Some (us, _) => Some (us * 1000) | None => None end
        else if decide (length f = 6%nat) then
          match parse_digits 6 f 0 with Some (us, _) => Some us | None => None end
        else None
      else None
  end.

(** [HH[:MM[:SS[.fff[fff]]]]], up to the end of the text. *)
Definition parse_hh_mm_ss_ff (s : pystr) : option (N * N * N * N) :=
  match parse_digits 2 s 0 with
  | None => None
  | Some (h, []) => Some (h, 0, 0, 0)
  | Some (h, c1 :: s1) =>
      if c1 =? 58 then
        match parse_digits 2 s1 0 with
        | None => None
        | Some (m, []) => Some (h, m, 0, 0)
        | Some (m, c2 :: s2) =>
            if c2 =? 58 then
              match parse_digits 2 s2 0 with
              | None => None
              | Some (sec, s3) =>
                  match parse_ff s3 with
                  | Some us => Some (h, m, sec, us)
                  | None => None
                  end
              end
            else None
        end
      else None
  end.

(** The text up to the first [+] or [-], the sign found and what follows. *)
Fixpoint split_tz (s : pystr) : pystr * option (bool * pystr) :=
  match s with
  | [] => ([], None)
  | c :: s' =>
      if c =? 43 then ([], Some (false, s'))
      else if c =? 45 then ([], Some (true, s'))
      else let '(t, z) := split_tz s' in (c :: t, z)
  end.

(** [+HH:MM], [+HH:MM:SS] or [+HH:MM:SS.ffffff], as microseconds; the
    offset of a [timezone] is strictly between -24 and 24 hours. *)
Definition parse_tz (neg : bool) (s : pystr) : option Z :=
  if decide (length s = 5%nat \/ length s = 8%nat \/ length s = 15%nat) then
    match parse_hh_mm_ss_ff s with
    | Some (h, m, sec, us) =>
        let off := ((h * 3600 + m * 60 + sec) * 1000000 + us)%N in
        if off <? 86400000000 then
          Some (if neg then (- Z.of_N off)%Z else Z.of_N off)
        else None
    | None => None
    end
  else None.

Definition is_leap (y : N) : bool :=
  (y mod 4 =? 0) && (negb (y mod 100 =? 0) || (y mod 400 =? 0)).

Definition days_in_month (y m : N) : N :=
  if m =? 2 then (if is_leap y then 29 else 28)
  else if (m =? 4) || (m =? 6) || (m =? 9) || (m =? 11) then 30
  else 31.

(** The range checks of [datetime(...)]. *)
Definition datetime_new (y mo d h mi s us : N) (z : option Z) : option datetime :=
  if (1 <=? y) && (y <=? 9999) && (1 <=? mo) && (mo <=? 12)
     && (1 <=? d) && (d <=? days_in_month y mo)
     && (h <? 24) && (mi <? 60) && (s <? 60) && (us <? 1000000)
  then Some (mk_datetime y mo d h mi s us z)
  else None.

Definition parse_isoformat_date (s : pystr) : option (N * N * N * pystr) :=
  match parse_digits 4 s 0 with
  | Some (y, c1 :: s1) =>
      if c1 =? 45 then
        match parse_digits 2 s1 0 with
        | Some (mo, c2 :: s2) =>
            if c2 =? 45 then
              match parse_digits 2 s2 0 with
              | Some (d, rest) => Some (y, mo, d, rest)
              | None => None
              end
            else None
        | _ => None
        end
      else None
  | _ => None
  end.

(** [datetime.fromisoformat(s)]; [None] stands for [ValueError]. *)
Definition fromisoformat (s : pystr) : option datetime :=
  match parse_isoformat_date s with
  | None => None
  | Some (y, mo, d, []) => datetime_new y mo d 0 0 0 0 None
  | Some (y, mo, d, _ :: tstr) =>
      let '(t, z) := split_tz tstr in
      match parse_hh_mm_ss_ff t with
      | None => None
      | Some (h, mi, sec, us) =>
          match z with
          | None => datetime_new y mo d h mi sec us None
          | Some (neg, zs) =>
              match parse_tz neg zs with
              | Some off => datetime_new y mo d h mi sec us (Some off)
              | None => None
              end
          end
      end
  end.

(** [value.replace("Z", "+00:00")]: every [Z] of the text is replaced. *)
Definition replace_Z (s : pystr) : pystr :=
  flat_map (fun c => if c =? 90 then str "+00:00" else [c]) s.

Definition _is_datetime (v : value) : bool :=
  if isinstance_datetime v then true
  else match v with
       | VStr s =>
           match fromisoformat (replace_Z s) with
           | Some _ => true
           | None => false
           end
       | _ => false
       end.

Definition _infer_type (v : value) : coltype :=
  if isinstance_bool v then YESNO
  else if isinstance_int v then INTEGER
  else if isinstance_float v then DOUBLE
  else if _is_datetime v then DATETIME
  else TEXT255.

(** ** [json.dumps(value, ensure_ascii=False)]

    The encoder of the library with its default separators [", "] and
    [": "] and [allow_nan=True]. *)

(** The decimal digits of a natural number, most significant first. *)
Fixpoint uint_digits (u : Decimal.uint) : list N :=
  match u with
  | Decimal.Nil => []
  | Decimal.D0 u => 0 :: uint_digits u
  | Decimal.D1 u => 1 :: uint_digits u
  | Decimal.D2 u => 2 :: uint_digits u
  | Decimal.D3 u => 3 :: uint_digits u
  | Decimal.D4 u => 4 :: uint_digits u
  | Decimal.D5 u => 5 :: uint_digits u
  | Decimal.D6 u => 6 :: uint_digits u
  | Decimal.D7 u => 7 :: uint_digits u
  | Decimal.D8 u => 8 :: uint_digits u
  | Decimal.D9 u => 9 :: uint_digits u
  end.

Definition digit_char (d : N) : N := 48 + d.
Definition digit_chars (ds : list N) : pystr := map digit_char ds.

(** [str(n)] for [n >= 0]. *)
Definition nat_repr (n : N) : pystr := digit_chars (uint_digits (N.to_uint n)).

(** [int.__repr__] *)
Definition int_repr (n : Z) : pystr :=
  (if (n <? 0)%Z then [45] else []) ++ nat_repr (Z.abs_N n).

(** [float.__repr__], format code [r]: the exponent form is used when
    [decpt <= -4] or [decpt > 16], and the fixed form always shows a
    fractional part. *)
Definition float_fixed (ds : list N) (decpt : Z) : pystr :=
  if (decpt <=? 0)%Z then
    [48; 46] ++ repeat 48 (Z.to_nat (- decpt)) ++ digit_chars ds
  else if (decpt <? Z.of_nat (length ds))%Z then
    digit_chars (take (Z.to_nat decpt) ds) ++ [46] ++ digit_chars (drop (Z.to_nat decpt) ds)
  else
    digit_chars ds ++ repeat 48 (Z.to_nat decpt - length ds) ++ [46; 48].

Definition exp_repr (e : Z) : pystr :=
  (if (e <? 0)%Z then [45] else [43])
  ++ (if (Z.abs e <? 10)%Z then [48] else []) ++ nat_repr (Z.abs_N e).

Definition float_exp (ds : list N) (decpt : Z) : pystr :=
  match ds with
  | [] => []
  | d :: ds' =>
      [digit_char d]
      ++ (match ds' with [] => [] | _ => 46 :: digit_chars ds' end)
      ++ [101] ++ exp_repr (decpt - 1)
  end.

Definition float_repr (f : pyfloat) : pystr :=
  match f with
  | FNaN => str "NaN"
  | FInf false => str "Infinity"
  | FInf true => str "-Infinity"
  | FDec neg ds decpt =>
      (if neg then [45] else [])
      ++ (if (decpt <=? -4)%Z || (16 <? decpt)%Z
          then float_exp ds decpt else float_fixed ds decpt)
  end.

Definition hex_char (n : N) : N := if n <? 10 then 48 + n else 87 + n.

(** [ESCAPE_DCT] of the encoder: quote, backslash and the control
    characters are escaped, every other code point is kept. *)
Definition escape_char (c : N) : pystr :=
  if c =? 34 then [92; 34]
  else if c =? 92 then [92; 92]
  else if c =? 10 then [92; 110]
  else if c =? 13 then [92; 114]
  else if c =? 9 then [92; 116]
  else if c =? 8 then [92; 98]
  else if c =? 12 then [92; 102]
  else if c <? 32 then [92; 117; 48; 48; hex_char (c / 16); hex_char (c mod 16)]
  else [c].

Definition encode_basestring (s : pystr) : pystr :=
  [34] ++ flat_map escape_char s ++ [34].

(** [sep.join(items)] *)
Fixpoint join (sep : pystr) (items : list pystr) : pystr :=
  match items with
  | [] => []
  | [x] => x
  | x :: rest => x ++ sep ++ join sep rest
  end.

(** The text of a value the encoder accepts. *)
Fixpoint encode (v : value) : pystr :=
  match v with
  | VNone => str "null"
  | VBool true => str "true"
  | VBool false => str "false"
  | VInt n => int_repr n
  | VFloat f => float_repr f
  | VStr s => encode_basestring s
  | VDatetime _ => []
  | VList l => [91] ++ join (str ", ") (map encode l) ++ [93]
  | VDict d =>
      [123]
      ++ join (str ", ")
           (map (fun kv => encode_basestring (fst kv) ++ str ": " ++ encode (snd kv)) d)
      ++ [125]
  end.

(** The encoder has no case for [datetime], at any depth. *)
Fixpoint serializable (v : value) : bool :=
  match v with
  | VDatetime _ => false
  | VList l => forallb serializable l
  | VDict d => forallb (fun kv => serializable (snd kv)) d
  | _ => true
  end.

(** [json.dumps(v, ensure_ascii=False)]; it raises [TypeError] ("Object of
    type datetime is not JSON serializable") and returns nothing when a
    [datetime] occurs in [v]. *)
Definition dumps (v : value) : result pystr :=
  if serializable v then Ok (encode v) else Err TypeError.

(** ** [json.loads]

    The decoder of the library.  [allow_nan] says whether the constants
    [NaN], [Infinity] and [-Infinity] are read: the library reads them,
    the JSON grammar (RFC 8259) has no such values. *)

Definition is_ws (c : N) : bool :=
  (c =? 32) || (c =? 9) || (c =? 10) || (c =? 13).

Fixpoint skip_ws (s : pystr) : pystr :=
  match s with
  | c :: s' => if is_ws c then skip_ws s' else s
  | [] => []
  end.

Fixpoint starts_with (p s : pystr) : option pystr :=
  match p, s with
  | [], _ => Some s
  | a :: p', b :: s' => if a =? b then starts_with p' s' else None
  | _ :: _, [] => None
  end.

Definition hex_val (c : N) : option N :=
  if (48 <=? c) && (c <=? 57) then Some (c - 48)
  else if (97 <=? c) && (c <=? 102) then Some (c - 87)
  else if (65 <=? c) && (c <=? 70) then Some (c - 55)
  else None.

(** [_decode_uXXXX] *)
Definition hex4 (a b c d : N) : option N :=
  match hex_val a, hex_val b, hex_val c, hex_val d with
  | Some x, Some y, Some z, Some w => Some (((x * 16 + y) * 16 + z) * 16 + w)
  | _, _, _, _ => None
  end.

(** [BACKSLASH] of the decoder. *)
Definition unescape (e : N) : option N :=
  if (e =? 34) || (e =? 92) || (e =? 47) then Some e
  else if e =? 98 then Some 8
  else if e =? 102 then Some 12
  else if e =? 110 then Some 10
  else if e =? 114 then Some 13
  else if e =? 116 then Some 9
  else None.

(** [scanstring(s, end, strict=True)], from just after the opening quote:
    the text read and what follows the closing quote. *)
Fixpoint scanstring (s : pystr) : option (pystr * pystr) :=
  match s with
  | [] => None
  | c :: s1 =>
      if c =? 34 then Some ([], s1)
      else if c =? 92 then
        match s1 with
        | [] => None
        | e :: s2 =>
            if e =? 117 then
              match s2 with
              | x1 :: x2 :: x3 :: x4 :: s3 =>
                  match hex4 x1 x2 x3 x4 with
                  | None => None
                  | Some uni =>
                      match s3 with
                      | b1 :: b2 :: y1 :: y2 :: y3 :: y4 :: s4 =>
                          if (55296 <=? uni) && (uni <=? 56319) && (b1 =? 92) && (b2 =? 117) then
                            match hex4 y1 y2 y3 y4 with
                            | None => None
                            | Some uni2 =>
                                if (56320 <=? uni2) && (uni2 <=? 57343) then
                                  match scanstring s4 with
                                  | Some (t, r) =>
                                      Some (65536 + N.lor (N.shiftl (uni - 55296) 10) (uni2 - 56320) :: t, r)
                                  | None => None
                                  end
                                else
                                  match scanstring s3 with
                                  | Some (t, r) => Some (uni :: t, r)
                                  | None => None
                                  end
                            end
                          else
                            match scanstring s3 with
                            | Some (t, r) => Some (uni :: t, r)
                            | None => None
                            end
                      | _ =>
                          match scanstring s3 with
                          | Some (t, r) => Some (uni :: t, r)
                          | None => None
                          end
                      end
                  end
              | _ => None
              end
            else
              match unescape e with
              | None => None
              | Some ch =>
                  match scanstring s2 with
                  | Some (t, r) => Some (ch :: t, r)
                  | None => None
                  end
              end
        end
      else if c <? 32 then None
      else
        match scanstring s1 with
        | Some (t, r) => Some (c :: t, r)
        | None => None
        end
  end.

(** *** Numbers

    [NUMBER_RE]: an optional minus sign, then [0] or a digit sequence that
    does not start with [0]; then, each optional, a point with one or
    more digits and an exponent [e] or [E] with an optional sign and one
    or more digits. *)

Fixpoint scan_digits (s : pystr) : list N * pystr :=
  match s with
  | c :: s' =>
      if is_digit c then let '(ds, r) := scan_digits s' in (c - 48 :: ds, r)
      else ([], s)
  | [] => ([], [])
  end.

Definition digit_uint (d : N) (u : Decimal.uint) : Decimal.uint :=
  if d =? 0 then Decimal.D0 u else if d =? 1 then Decimal.D1 u
  else if d =? 2 then Decimal.D2 u else if d =? 3 then Decimal.D3 u
  else if d =? 4 then Decimal.D4 u else if d =? 5 then Decimal.D5 u
  else if d =? 6 then Decimal.D6 u else if d =? 7 then Decimal.D7 u
  else if d =? 8 then Decimal.D8 u else Decimal.D9 u.

(** The number a digit sequence writes. *)
Definition digits_value (ds : list N) : N :=
  N.of_uint (foldr digit_uint Decimal.Nil ds).

Definition scan_int_part (s : pystr) : option (list N * pystr) :=
  match s with
  | c :: s' =>
      if c =? 48 then Some ([0], s')
      else if is_digit c then
        let '(ds, r) := scan_digits s' in Some (c - 48 :: ds, r)
      else None
  | [] => None
  end.

Definition scan_frac (s : pystr) : option (list N * pystr) :=
  match s with
  | c :: s' =>
      if c =? 46 then
        match scan_digits s' with
        | ([], _) => None
        | (ds, r) => Some (ds, r)
        end
      else None
  | [] => None
  end.

Definition scan_sign (s : pystr) : bool * pystr :=
  match s with
  | c :: s' => if c =? 45 then (true, s') else if c =? 43 then (false, s') else (false, s)
  | [] => (false, s)
  end.

Definition scan_exp (s : pystr) : option (Z * pystr) :=
  match s with
  | c :: s' =>
      if (c =? 101) || (c =? 69) then
        let '(neg, s2) := scan_sign s' in
        match scan_digits s2 with
        | ([], _) => None
        | (ds, r) =>
            Some (if neg then (- Z.of_N (digits_value ds))%Z else Z.of_N (digits_value ds), r)
        end
      else None
  | [] => None
  end.

(** *** [float(literal)]

    The digits of the literal without the zeros in front and behind, and
    the place of the decimal point.  A literal past the largest double is
    read as an infinity and one below half the smallest as zero, as the
    library rounds; within the range the digits are kept as written (the
    library keeps the nearest double, which is the literal itself when
    the literal is the [repr] of a double). *)

Fixpoint strip_leading (ds : list N) (dp : Z) : list N * Z :=
  match ds with
  | d :: ds' => if d =? 0 then strip_leading ds' (dp - 1) else (ds, dp)
  | [] => ([], dp)
  end.

Fixpoint strip_zeros (ds : list N) : list N :=
  match ds with
  | d :: ds' => if d =? 0 then strip_zeros ds' else ds
  | [] => []
  end.

Definition strip_trailing (ds : list N) : list N := rev (strip_zeros (rev ds)).

(** [0.ds * 10^dp >= 2^1024 - 2^970]: the literal rounds to an infinity. *)
Definition overflows (ds : list N) (dp : Z) : bool :=
  let n := Z.of_nat (length ds) in
  let D := Z.of_N (digits_value ds) in
  let T := (2 ^ 1024 - 2 ^ 970)%Z in
  if (dp <=? n)%Z then (T * 10 ^ (n - dp) <=? D)%Z
  else (T <=? D * 10 ^ (dp - n))%Z.

(** [0.ds * 10^dp <= 2^-1075]: the literal rounds to zero. *)
Definition underflows (ds : list N) (dp : Z) : bool :=
  let n := Z.of_nat (length ds) in
  let D := Z.of_N (digits_value ds) in
  if (dp <=? n)%Z then (D * 2 ^ 1075 <=? 10 ^ (n - dp))%Z
  else false.

Definition float_of_literal (neg : bool) (ids fds : list N) (e : Z) : pyfloat :=
  let '(ds, dp) := strip_leading (ids ++ fds) (Z.of_nat (length ids) + e) in
  match strip_trailing ds with
  | [] => FDec neg [0] 1
  | d :: ds' =>
      if overflows (d :: ds') dp then FInf neg
      else if underflows (d :: ds') dp then FDec neg [0] 1
      else FDec neg (d :: ds') dp
  end.

(** A number without its sign. *)
Definition scan_unsigned (neg : bool) (s0 : pystr) : option (value * pystr) :=
  match scan_int_part s0 with
  | None => None
  | Some (ids, r1) =>
      match scan_frac r1 with
      | None =>
          match scan_exp r1 with
          | None =>
              Some (VInt (if neg then (- Z.of_N (digits_value ids)) else Z.of_N (digits_value ids))%Z, r1)
          | Some (e, r3) => Some (VFloat (float_of_literal neg ids [] e), r3)
          end
      | Some (fds, r2) =>
          match scan_exp r2 with
          | None => Some (VFloat (float_of_literal neg ids fds 0), r2)
          | Some (e, r3) => Some (VFloat (float_of_literal neg ids fds e), r3)
          end
      end
  end.

(** An integer when the literal has neither a fraction nor an exponent,
    a float otherwise. *)
Definition scan_number (s : pystr) : option (value * pystr) :=
  match s with
  | c :: s' => if c =? 45 then scan_unsigned true s' else scan_unsigned false s
  | [] => None
  end.

(** *** Values *)

(** [dict(pairs)]: a key read again takes the later value, at the place
    of the first. *)
Definition dict_of_pairs (pairs : list (pystr * value)) : list (pystr * value) :=
  fold_left (fun d kv => dict_set (fst kv) (snd kv) d) pairs [].

Fixpoint scan_once (allow_nan : bool) (fuel : nat) (s : pystr) : option (value * pystr) :=
  match fuel with
  | O => None
  | S fuel' =>
      match s with
      | [] => None
      | c :: s1 =>
          if c =? 34 then
            match scanstring s1 with
            | Some (t, r) => Some (VStr t, r)
            | None => None
            end
          else if c =? 123 then
            match skip_ws s1 with
            | c2 :: s2 =>
                if c2 =? 125 then Some (VDict [], s2)
                else if c2 =? 34 then
                  match object_loop allow_nan fuel' s2 with
                  | Some (pairs, r) => Some (VDict (dict_of_pairs pairs), r)
                  | None => None
                  end
                else None
            | [] => None
            end
          else if c =? 91 then
            match skip_ws s1 with
            | c2 :: s2 =>
                if c2 =? 93 then Some (VList [], s2)
                else
                  match array_loop allow_nan fuel' (c2 :: s2) with
                  | Some (vs, r) => Some (VList vs, r)
                  | None => None
                  end
            | [] => None
            end
          else
            match starts_with (str "null") s, starts_with (str "true") s,
                  starts_with (str "false") s with
            | Some r, _, _ => Some (VNone, r)
            | _, Some r, _ => Some (VBool true, r)
            | _, _, Some r => Some (VBool false, r)
            | None, None, None =>
                match scan_number s with
                | Some res => Some res
                | None =>
                    if allow_nan then
                      match starts_with (str "NaN") s, starts_with (str "Infinity") s,
                            starts_with (str "-Infinity") s with
                      | Some r, _, _ => Some (VFloat FNaN, r)
                      | _, Some r, _ => Some (VFloat (FInf false), r)
                      | _, _, Some r => Some (VFloat (FInf true), r)
                      | None, None, None => None
                      end
                    else None
                end
            end
      end
  end

(** The loop of [JSONArray], at a value. *)
with array_loop (allow_nan : bool) (fuel : nat) (s : pystr) : option (list value * pystr) :=
  match fuel with
  | O => None
  | S fuel' =>
      match scan_once allow_nan fuel' s with
      | None => None
      | Some (v, r) =>
          match skip_ws r with
          | c :: r1 =>
              if c =? 93 then Some ([v], r1)
              else if c =? 44 then
                match array_loop allow_nan fuel' (skip_ws r1) with
                | Some (vs, r2) => Some (v :: vs, r2)
                | None => None
                end
              else None
          | [] => None
          end
      end
  end

(** The loop of [JSONObject], just after the opening quote of a key. *)
with object_loop (allow_nan : bool) (fuel : nat) (s : pystr)
  : option (list (pystr * value) * pystr) :=
  match fuel with
  | O => None
  | S fuel' =>
      match scanstring s with
      | None => None
      | Some (k, r) =>
          match skip_ws r with
          | c :: r1 =>
              if c =? 58 then
                match scan_once allow_nan fuel' (skip_ws r1) with
                | None => None
                | Some (v, r2) =>
                    match skip_ws r2 with
                    | c2 :: r3 =>
                        if c2 =? 125 then Some ([(k, v)], r3)
                        else if c2 =? 44 then
                          match skip_ws r3 with
                          | c3 :: r4 =>
                              if c3 =? 34 then
                                match object_loop allow_nan fuel' r4 with
                                | Some (kvs, r5) => Some ((k, v) :: kvs, r5)
                                | None => None
                                end
                              else None
                          | [] => None
                          end
                        else None
                    | [] => None
                    end
                end
              else None
          | [] => None
          end
      end
  end.

Definition starts_with_bom (s : pystr) : bool :=
  match s with
  | c :: _ => c =? 65279
  | [] => false
  end.

(** [JSONDecoder.decode]: one value, white space around it and nothing
    else; the text may not start with a byte order mark.  The fuel is
    more than the calls a text of that length needs: more fuel changes
    nothing (lemma [decode_fuel]). *)
Definition decode (allow_nan : bool) (s : pystr) : option value :=
  if starts_with_bom s then None
  else
    match scan_once allow_nan (2 * length s + 2) (skip_ws s) with
    | Some (v, r) => match skip_ws r with [] => Some v | _ :: _ => None end
    | None => None
    end.

(** [json.loads(s)]; [None] stands for [JSONDecodeError].  This is the
    decoder with no limit on the digits of an integer literal; [json_load]
    below has the limit. *)
Definition loads (s : pystr) : option value := decode true s.

(** The texts of the JSON grammar. *)
Definition valid_json (s : pystr) : bool :=
  match decode false s with Some _ => true | None => false end.

(** *** [json.load] as the interpreter runs it

    The decoder converts an integer literal with [int], which refuses a
    literal of more digits than its limit (4300 unless the interpreter is
    told otherwise) with a [ValueError]; [loads] above is the decoder
    without that limit.  The error comes where the decoder stands: a
    literal too long raises before a mistake further on is seen, and a
    mistake before it raises [JSONDecodeError]. *)

Definition int_max_str_digits : nat := 4300.

(** What a call of the decoder gives: a value and the rest of the text,
    [JSONDecodeError], or the [ValueError] of [int]. *)
Inductive outcome (A : Type) :=
| Got (a : A)
| Malformed
| TooManyDigits.
Arguments Got {A} a.
Arguments Malformed {A}.
Arguments TooManyDigits {A}.

(** The digits of the integer part of a number literal. *)
Definition int_part_digits (s : pystr) : nat :=
  match s with
  | c :: s' =>
      match scan_int_part (if c =? 45 then s' else s) with
      | Some (ids, _) => length ids
      | None => O
      end
  | [] => O
  end.

Definition scan_number_checked (s : pystr) : outcome (value * pystr) :=
  match scan_number s with
  | Some (VInt n, r) =>
      if (int_max_str_digits <? int_part_digits s)%nat then TooManyDigits
      else Got (VInt n, r)
  | Some res => Got res
  | None => Malformed
  end.

Fixpoint scan_checked (fuel : nat) (s : pystr) : outcome (value * pystr) :=
  match fuel with
  | O => Malformed
  | S fuel' =>
      match s with
      | [] => Malformed
      | c :: s1 =>
          if c =? 34 then
            match scanstring s1 with
            | Some (t, r) => Got (VStr t, r)
            | None => Malformed
            end
          else if c =? 123 then
            match skip_ws s1 with
            | c2 :: s2 =>
                if c2 =? 125 then Got (VDict [], s2)
                else if c2 =? 34 then
                  match object_checked fuel' s2 with
                  | Got (pairs, r) => Got (VDict (dict_of_pairs pairs), r)
                  | Malformed => Malformed
                  | TooManyDigits => TooManyDigits
                  end
                else Malformed
            | [] => Malformed
            end
          else if c =? 91 then
            match skip_ws s1 with
            | c2 :: s2 =>
                if c2 =? 93 then Got (VList [], s2)
                else
                  match array_checked fuel' (c2 :: s2) with
                  | Got (vs, r) => Got (VList vs, r)
                  | Malformed => Malformed
                  | TooManyDigits => TooManyDigits
                  end
            | [] => Malformed
            end
          else
            match starts_with (str "null") s, starts_with (str "true") s,
                  starts_with (str "false") s with
            | Some r, _, _ => Got (VNone, r)
            | _, Some r, _ => Got (VBool true, r)
            | _, _, Some r => Got (VBool false, r)
            | None, None, None =>
                match scan_number_checked s with
                | Got res => Got res
                | TooManyDigits => TooManyDigits
                | Malformed =>
                    match starts_with (str "NaN") s, starts_with (str "Infinity") s,
                          starts_with (str "-Infinity") s with
                    | Some r, _, _ => Got (VFloat FNaN, r)
                    | _, Some r, _ => Got (VFloat (FInf false), r)
                    | _, _, Some r => Got (VFloat (FInf true), r)
                    | None, None, None => Malformed
                    end
                end
            end
      end
  end

with array_checked (fuel : nat) (s : pystr) : outcome (list value * pystr) :=
  match fuel with
  | O => Malformed
  | S fuel' =>
      match scan_checked fuel' s with
      | Malformed => Malformed
      | TooManyDigits => TooManyDigits
      | Got (v, r) =>
          match skip_ws r with
          | c :: r1 =>
              if c =? 93 then Got ([v], r1)
              else if c =? 44 then
                match array_checked fuel' (skip_ws r1) with
                | Got (vs, r2) => Got (v :: vs, r2)
                | Malformed => Malformed
                | TooManyDigits => TooManyDigits
                end
              else Malformed
          | [] => Malformed
          end
      end
  end

with object_checked (fuel : nat) (s : pystr) : outcome (list (pystr * value) * pystr) :=
  match fuel with
  | O => Malformed
  | S fuel' =>
      match scanstring s with
      | None => Malformed
      | Some (k, r) =>
          match skip_ws r with
          | c :: r1 =>
              if c =? 58 then
                match scan_checked fuel' (skip_ws r1) with
                | Malformed => Malformed
                | TooManyDigits => TooManyDigits
                | Got (v, r2) =>
                    match skip_ws r2 with
                    | c2 :: r3 =>
                        if c2 =? 125 then Got ([(k, v)], r3)
                        else if c2 =? 44 then
                          match skip_ws r3 with
                          | c3 :: r4 =>
                              if c3 =? 34 then
                                match object_checked fuel' r4 with
                                | Got (kvs, r5) => Got ((k, v) :: kvs, r5)
                                | Malformed => Malformed
                                | TooManyDigits => TooManyDigits
                                end
                              else Malformed
                          | [] => Malformed
                          end
                        else Malformed
                    | [] => Malformed
                    end
                end
              else Malformed
          | [] => Malformed
          end
      end
  end.

(** [json.load] on the text of a file: [JSONDecodeError] or [ValueError]
    when it raises.  The fuel is that of [decode]. *)
Definition json_load (text : pystr) : result value :=
  if starts_with_bom text then Err JSONDecodeError
  else
    match scan_checked (2 * length text + 2) (skip_ws text) with
    | Got (v, r) => match skip_ws r with [] => Ok v | _ :: _ => Err JSONDecodeError end
    | Malformed => Err JSONDecodeError
    | TooManyDigits => Err ValueError
    end.

(** *** Reading a file as text

    [open(path, "r", encoding="utf-8")] and [read]: the bytes of the file
    decoded as UTF-8, strictly, and every line ending turned into a line
    feed.  A file is its bytes, numbers below 256. *)

Definition is_continuation (b : N) : bool := (128 <=? b) && (b <=? 191).

(** [bytes.decode("utf-8")]; [None] stands for [UnicodeDecodeError].  The
    shortest form only, no surrogate and nothing past U+10FFFF. *)
Fixpoint utf8_decode (bs : list N) : option pystr :=
  match bs with
  | [] => Some []
  | b0 :: r0 =>
      if b0 <? 128 then
        match utf8_decode r0 with Some t => Some (b0 :: t) | None => None end
      else if (194 <=? b0) && (b0 <=? 223) then
        match r0 with
        | b1 :: r1 =>
            if is_continuation b1 then
              match utf8_decode r1 with
              | Some t => Some ((b0 - 192) * 64 + (b1 - 128) :: t)
              | None => None
              end
            else None
        | [] => None
        end
      else if (224 <=? b0) && (b0 <=? 239) then
        match r0 with
        | b1 :: b2 :: r2 =>
            if is_continuation b1 && is_continuation b2
               && (negb (b0 =? 224) || (160 <=? b1))
               && (negb (b0 =? 237) || (b1 <=? 159))
            then
              match utf8_decode r2 with
              | Some t => Some (((b0 - 224) * 64 + (b1 - 128)) * 64 + (b2 - 128) :: t)
              | None => None
              end
            else None
        | _ => None
        end
      else if (240 <=? b0) && (b0 <=? 244) then
        match r0 with
        | b1 :: b2 :: b3 :: r3 =>
            if is_continuation b1 && is_continuation b2 && is_continuation b3
               && (negb (b0 =? 240) || (144 <=? b1))
               && (negb (b0 =? 244) || (b1 <=? 143))
            then
              match utf8_decode r3 with
              | Some t =>
                  Some ((((b0 - 240) * 64 + (b1 - 128)) * 64 + (b2 - 128)) * 64
                        + (b3 - 128) :: t)
              | None => None
              end
            else None
        | _ => None
        end
      else None
  end.

(** The text mode of [open]: a carriage return, with the line feed after
    it if there is one, is read as a line feed. *)
Fixpoint universal_newlines (s : pystr) : pystr :=
  match s with
  | [] => []
  | c :: s1 =>
      if c =? 13 then
        10 :: match s1 with
              | [] => []
              | c2 :: s2 => if c2 =? 10 then universal_newlines s2 else universal_newlines s1
              end
      else c :: universal_newlines s1
  end.

Definition read_text (bytes : pystr) : option pystr :=
  match utf8_decode bytes with
  | Some t => Some (universal_newlines t)
  | None => None
  end.

(** [json.load(f)] on a file of these bytes. *)
Definition read_document (bytes : pystr) : result value :=
  match read_text bytes with
  | Some text => json_load text
  | None => Err UnicodeDecodeError
  end.

(** ** Dynamic operations of the source on values *)

(** [not v] is [negb (truthy v)]. *)
Definition truthy (v : value) : bool :=
  match v with
  | VNone => false
  | VBool b => b
  | VInt n => negb (n =? 0)%Z
  | VFloat (FDec _ ds _) => negb (bool_decide (ds = [0]))
  | VFloat _ => true
  | VStr s => negb (bool_decide (s = []))
  | VDatetime _ => true
  | VList l => match l with [] => false | _ => true end
  | VDict d => match d with [] => false | _ => true end
  end.

(** [v.get(key, default)]: only a [dict] has the method. *)
Definition py_get (v : value) (key : pystr) (default : value) : result value :=
  match v with
  | VDict d => Ok (match dict_get key d with Some x => x | None => default end)
  | _ => Err AttributeError
  end.

(** [v.items()] *)
Definition py_items (v : value) : result (list (pystr * value)) :=
  match v with
  | VDict d => Ok d
  | _ => Err AttributeError
  end.

(** [for x in v]: a list gives its elements, a dict its keys and a text
    its characters; nothing else is iterable. *)
Definition py_iter (v : value) : result (list value) :=
  match v with
  | VList l => Ok l
  | VDict d => Ok (map VStr (keys d))
  | VStr s => Ok (map (fun c => VStr [c]) s)
  | _ => Err TypeError
  end.

Definition is_prefix (p s : pystr) : bool :=
  match starts_with p s with Some _ => true | None => false end.

Fixpoint is_substring (p s : pystr) : bool :=
  match s with
  | [] => is_prefix p []
  | _ :: s' => is_prefix p s || is_substring p s'
  end.

(** [key in v] for a text [key]: a key of a dict, an element of a list,
    a part of a text; [TypeError] on a value that is no container. *)
Definition py_contains (key : pystr) (v : value) : result bool :=
  match v with
  | VDict d => Ok (dict_in key d)
  | VList l =>
      Ok (existsb (fun x => match x with VStr s => bool_decide (s = key) | _ => false end) l)
  | VStr s => Ok (is_substring key s)
  | _ => Err TypeError
  end.

(** [v[key]] for a text [key]: only a dict is indexed by a text. *)
Definition py_getitem (v : value) (key : pystr) : result value :=
  match v with
  | VDict d => match dict_get key d with Some x => Ok x | None => Err KeyError end
  | _ => Err TypeError
  end.

(** ** [JsonToMdbConverter] *)

Definition schema := dict coltype.

(** [_extract_schema]: the body of the inner loop, one field of a record. *)
Definition schema_field (sch : schema) (kv : pystr * value) : schema :=
  if decide (fst kv = str "__metadata") then sch
  else if dict_in (fst kv) sch then sch
  else dict_set (fst kv) (_infer_type (snd kv)) sch.

Fixpoint schema_loop (sch : schema) (records : list value) : result schema :=
  match records with
  | [] => Ok sch
  | record :: rest =>
      let* fields := py_items record in
      schema_loop (fold_left schema_field fields sch) rest
  end.

Definition _extract_schema (records : list value) : result schema :=
  schema_loop [] records.

(** [isinstance(value, (str, int, float, bool, datetime))] *)
Definition isinstance_scalar (v : value) : bool :=
  isinstance_str v || isinstance_int v || isinstance_float v
  || isinstance_bool v || isinstance_datetime v.

Definition convert_value (v : value) : result value :=
  match v with
  | VNone => Ok VNone
  | _ =>
      if isinstance_scalar v then Ok v
      else let* t := dumps v in Ok (VStr t)
  end.

Definition _normalize_record (record : value) (sch : schema) : result (list value) :=
  mapR (fun field => let* v := py_get record field VNone in convert_value v) (keys sch).

(** The fields of the object. *)
Record converter := mk_converter {
  json_path : string;
  mdb_path : string;
  template_path : option string;
  org_schema : schema;
  comm_schema : schema;
  org_records : list value;
  comm_records : list value
}.

(** [__init__] *)
Definition new_converter (json_path mdb_path : string) (template_path : option string)
  : converter :=
  mk_converter json_path mdb_path template_path [] [] [] [].

(** The loop of [_load_json]: one top-level record. *)
Definition split_step (acc : list value * list value) (org : value)
  : result (list value * list value) :=
  let* fields := py_items org in
  let org_copy :=
    VDict (List.filter (fun kv => negb (bool_decide (fst kv = str "Communications"))) fields) in
  let org_list := fst acc ++ [org_copy] in
  match dict_get (str "Communications") fields with
  | None => Ok (org_list, snd acc)
  | Some comms =>
      let* has := py_contains (str "results") comms in
      if has then
        let* res := py_getitem comms (str "results") in
        let* children := py_iter res in
        Ok (org_list, snd acc ++ children)
      else Ok (org_list, snd acc)
  end.

Fixpoint split_loop (acc : list value * list value) (data : list value)
  : result (list value * list value) :=
  match data with
  | [] => Ok acc
  | org :: rest => let* acc' := split_step acc org in split_loop acc' rest
  end.

(** *** The file system and the database driver

    A state is the converter object and the files by path, each file its
    bytes (a text of ASCII characters is its own bytes).  The driver
    ([pyodbc] and the Access engine behind it) is a parameter: whether it
    opens a file, and the file a statement leaves, if it accepts it. *)

Record state := mk_state {
  self : converter;
  files : gmap string pystr
}.

Record odbc := mk_odbc {
  odbc_connect : option pystr -> option string;
  odbc_execute : pystr -> pystr -> option pystr;
  odbc_executemany : pystr -> list (list value) -> pystr -> option pystr
}.

(** A method: it returns or raises, and leaves a state either way. *)
Definition M (A : Type) := state -> result A * state.

Definition ret {A} (a : A) : M A := fun st => (Ok a, st).
Definition raise {A} (e : exn) : M A := fun st => (Err e, st).
Definition lift {A} (r : result A) : M A := fun st => (r, st).
Definition bindM {A B} (m : M A) (k : A -> M B) : M B :=
  fun st =>
    match m st with
    | (Ok a, st') => k a st'
    | (Err e, st') => (Err e, st')
    end.

Notation "'let!' p ':=' m 'in' k" := (bindM m (fun p => k))
  (at level 10, p pattern, m at level 100, k at level 200).
Notation "m ';;' k" := (bindM m (fun _ => k))
  (at level 100, k at level 200, right associativity).

Definition get_self : M converter := fun st => (Ok (self st), st).
Definition set_self (f : converter -> converter) : M unit :=
  fun st => (Ok tt, mk_state (f (self st)) (files st)).
Definition get_files : M (gmap string pystr) := fun st => (Ok (files st), st).
Definition set_files (f : gmap string pystr -> gmap string pystr) : M unit :=
  fun st => (Ok tt, mk_state (self st) (f (files st))).

(** [open(path, encoding="utf-8")] and [json.load], with the two
    exceptions the source turns into [RuntimeError]; what else the
    reading raises goes on as it is. *)
Definition read_json (path : string) : M value :=
  let! fs := get_files in
  match fs !! path with
  | None => raise (RuntimeError ("JSON file not found: " +:+ path))
  | Some bytes =>
      match read_document bytes with
      | Ok full_data => ret full_data
      | Err JSONDecodeError => raise (RuntimeError ("Invalid JSON format in " +:+ path))
      | Err e => raise e
      end
  end.

Definition set_org_schema (s : schema) (c : converter) : converter :=
  mk_converter (json_path c) (mdb_path c) (template_path c)
    s (comm_schema c) (org_records c) (comm_records c).
Definition set_comm_schema (s : schema) (c : converter) : converter :=
  mk_converter (json_path c) (mdb_path c) (template_path c)
    (org_schema c) s (org_records c) (comm_records c).
Definition set_org_records (l : list value) (c : converter) : converter :=
  mk_converter (json_path c) (mdb_path c) (template_path c)
    (org_schema c) (comm_schema c) l (comm_records c).
Definition set_comm_records (l : list value) (c : converter) : converter :=
  mk_converter (json_path c) (mdb_path c) (template_path c)
    (org_schema c) (comm_schema c) (org_records c) l.

Definition _load_json : M unit :=
  let! c := get_self in
  let! full_data := read_json (json_path c) in
  let! d := lift (py_get full_data (str "d") (VDict [])) in
  let! data := lift (py_get d (str "results") (VList [])) in
  if negb (truthy data) then raise (RuntimeError "No 'results' found in JSON")
  else
    let! orgs := lift (py_iter data) in
    let! lists := lift (split_loop ([], []) orgs) in
    let! os := lift (_extract_schema (fst lists)) in
    set_self (set_org_schema os) ;;
    let! cs := lift (_extract_schema (snd lists)) in
    set_self (set_comm_schema cs) ;;
    set_self (set_org_records (fst lists)) ;;
    set_self (set_comm_records (snd lists)).

(** [if self.template_path]: [None] and the empty text are false. *)
Definition template_given (t : option string) : option string :=
  match t with
  | Some EmptyString => None
  | other => other
  end.

(** [os.path.exists], [os.remove] and [shutil.copy] on the files. *)
Definition _create_mdb : M unit :=
  let! c := get_self in
  let! fs := get_files in
  (match fs !! mdb_path c with
   | Some _ => set_files (delete (mdb_path c))
   | None => ret tt
   end) ;;
  match template_given (template_path c) with
  | Some t =>
      let! fs' := get_files in
      match fs' !! t with
      | Some content => set_files (insert (mdb_path c) content)
      | None => raise FileNotFoundError
      end
  | None => raise (RuntimeError "MDB template path not provided — cannot create file.")
  end.

Definition build_table_sql (table_name : pystr) (sch : schema) : pystr :=
  str "CREATE TABLE " ++ table_name ++ str " ("
  ++ join (str ", ")
       (map (fun col => str "[" ++ fst col ++ str "] " ++ str (coltype_sql (snd col))) sch)
  ++ str ");".

Definition insert_sql (table_name : pystr) (sch : schema) : pystr :=
  str "INSERT INTO " ++ table_name ++ str " ("
  ++ join (str ", ") (map (fun f => str "[" ++ f ++ str "]") (keys sch))
  ++ str ") VALUES ("
  ++ join (str ", ") (map (fun _ => str "?") (keys sch))
  ++ str ");".

Section Store.

Variable driver : odbc.

(** A connection is the path of the file it is open on. *)
Definition _connect_mdb : M string :=
  let! c := get_self in
  let! fs := get_files in
  match odbc_connect driver (fs !! mdb_path c) with
  | None => ret (mdb_path c)
  | Some e => raise (RuntimeError ("Failed to connect to MDB: " +:+ e))
  end.

Definition cursor_execute (conn : string) (sql : pystr) : M unit :=
  let! fs := get_files in
  match fs !! conn with
  | Some db =>
      match odbc_execute driver sql db with
      | Some db' => set_files (insert conn db')
      | None => raise OdbcError
      end
  | None => raise OdbcError
  end.

Definition cursor_executemany (conn : string) (sql : pystr) (rows : list (list value))
  : M unit :=
  let! fs := get_files in
  match fs !! conn with
  | Some db =>
      match odbc_executemany driver sql rows db with
      | Some db' => set_files (insert conn db')
      | None => raise OdbcError
      end
  | None => raise OdbcError
  end.

Definition _create_tables (conn : string) : M unit :=
  let! c := get_self in
  cursor_execute conn (build_table_sql (str "Organizations") (org_schema c)) ;;
  cursor_execute conn (build_table_sql (str "Communications") (comm_schema c)).

Definition _insert_records (conn : string) (table_name : pystr) (sch : schema)
    (records : list value) : M unit :=
  let! normalized := lift (mapR (fun record => _normalize_record record sch) records) in
  cursor_executemany conn (insert_sql table_name sch) normalized.

Definition _insert_data (conn : string) : M unit :=
  let! c := get_self in
  _insert_records conn (str "Organizations") (org_schema c) (org_records c) ;;
  _insert_records conn (str "Communications") (comm_schema c) (comm_records c).

(** The run.  What it prints is not part of the state. *)
Definition convert : M unit :=
  _load_json ;;
  _create_mdb ;;
  let! conn := _connect_mdb in
  _create_tables conn ;;
  _insert_data conn.

End Store.

(** * [create_mdb_from_json] of [backend/main.py]

    The script that came before the class: the same input, two tables
    with fixed columns, and every failure told on the console.  The state
    is the files by path and the lines printed. *)

Record world := mk_world {
  disk : gmap string pystr;
  stdout : list pystr
}.

Definition print (line : pystr) (w : world) : world :=
  mk_world (disk w) (stdout w ++ [line]).

Definition set_db (path : string) (db : pystr) (w : world) : world :=
  mk_world (<[path := db]> (disk w)) (stdout w).

(** [len(v)] *)
Definition py_len (v : value) : result nat :=
  match v with
  | VStr s => Ok (length s)
  | VList l => Ok (length l)
  | VDict d => Ok (length d)
  | _ => Err TypeError
  end.

(** The answer of the driver to a request: the database as the request
    leaves it, or a [pyodbc.Error] with its [args[0]] and its text. *)
Inductive answer :=
| Done (db : pystr)
| Refused (sqlstate text : pystr).

(** The driver as the script uses it: it connects to a path that may
    have no file. *)
Record access := mk_access {
  access_connect : option pystr -> answer;
  access_execute : pystr -> pystr -> answer;
  access_executemany : pystr -> list (list value) -> pystr -> answer
}.

(** A literal between triple quotes: a line break, the lines, and the
    indentation of the closing quotes. *)
Definition literal (lines : list string) : pystr :=
  [10] ++ concat (map (fun l => str l ++ [10]) lines) ++ str "        ".

Definition create_organizations : pystr :=
  literal
    ["            CREATE TABLE Organizations (";
     "                [Id] TEXT(255) PRIMARY KEY,";
     "                [Name] TEXT(255),";
     "                [Language] TEXT(255),";
     "                [ManagedBy] TEXT(255),";
     "                [CoName] TEXT(255),";
     "                [HouseNumber] TEXT(255),";
     "                [Street] TEXT(255),";
     "                [Street2] TEXT(255),";
     "                [Street3] TEXT(255),";
     "                [Street4] TEXT(255),";
     "                [Street5] TEXT(255),";
     "                [District] TEXT(255),";
     "                [Building] TEXT(255)";
     "            );"].

Definition create_communications : pystr :=
  literal
    ["            CREATE TABLE Communications (";
     "                [OrgId] TEXT(255),";
     "                [SequenceNumber] TEXT(255),";
     "                [Type] TEXT(255),";
     "                [Data] TEXT(255),";
     "                [Owner] TEXT(255),";
     "                [DoNotUse] YESNO,";
     "                [Official] YESNO,";
     "                [StdRecipient] YESNO,";
     "                [BrSeqNumber] TEXT(255)";
     "            );"].

Definition insert_organizations_query : pystr :=
  literal
    ["            INSERT INTO Organizations ";
     "            ([Id], [Name], [Language], [ManagedBy], [CoName], [HouseNumber], ";
     "            [Street], [Street2], [Street3], [Street4], [Street5], [District], [Building])";
     "            VALUES (?, ?, ?, ?, ?, ?, ?, ?, ?, ?, ?, ?, ?);"].

Definition insert_communications_query : pystr :=
  literal
    ["            INSERT INTO Communications ";
     "            ([OrgId], [SequenceNumber], [Type], [Data], [Owner], [DoNotUse], ";
     "            [Official], [StdRecipient], [BrSeqNumber])";
     "            VALUES (?, ?, ?, ?, ?, ?, ?, ?, ?);"].

Definition organization_fields : list pystr :=
  map str ["Id"; "Name"; "Language"; "ManagedBy"; "CoName"; "HouseNumber"; "Street";
           "Street2"; "Street3"; "Street4"; "Street5"; "District"; "Building"]%string.

Definition communication_fields : list pystr :=
  map str ["OrgId"; "SequenceNumber"; "Type"; "Data"; "Owner"; "DoNotUse"; "Official";
           "StdRecipient"; "BrSeqNumber"]%string.

(** The tuple of an organization: [org.get(field)] for each field. *)
Definition organization_row (org : value) : result (list value) :=
  mapR (fun field => py_get org field VNone) organization_fields.

(** The tuple of a communication, with its four placeholders. *)
Definition communication_row (comm : value) : result (list value) :=
  let* fields := mapR (fun field => py_get comm field VNone) communication_fields in
  Ok (fields ++ [VNone; VNone; VNone; VNone]).

(** Step 2, one organization. *)
Definition extract_step (acc : list (list value) * list (list value)) (org : value)
  : result (list (list value) * list (list value)) :=
  let* row := organization_row org in
  let organizations_data := fst acc ++ [row] in
  let* has_comms := py_contains (str "Communications") org in
  let* has_results :=
    if has_comms then
      let* comms := py_getitem org (str "Communications") in
      py_contains (str "results") comms
    else Ok false in
  if has_results then
    let* comms := py_getitem org (str "Communications") in
    let* res := py_getitem comms (str "results") in
    let* children := py_iter res in
    let* rows := mapR communication_row children in
    Ok (organizations_data, snd acc ++ rows)
  else Ok (organizations_data, snd acc).

Fixpoint extract_loop (acc : list (list value) * list (list value)) (data : list value)
  : result (list (list value) * list (list value)) :=
  match data with
  | [] => Ok acc
  | org :: rest => let* acc' := extract_step acc org in extract_loop acc' rest
  end.

(** The handler of [pyodbc.Error]. *)
Definition report (sqlstate text : pystr) (w : world) : world :=
  print text (print (str "An ODBC error occurred: " ++ sqlstate) w).

Section Script.

Variable driver : access.

(** Steps 4 to 9: the [try] block; it returns whatever the driver does. *)
Definition write_mdb (mdb_filename : string)
    (organizations_data communications_data : list (list value)) (w : world) : world :=
  let w0 :=
    match disk w !! mdb_filename with
    | Some _ =>
        print (str "Existing file '" ++ str mdb_filename ++ str "' deleted.")
          (mk_world (delete mdb_filename (disk w)) (stdout w))
    | None => w
    end in
  match access_connect driver (disk w0 !! mdb_filename) with
  | Refused s t => report s t w0
  | Done db0 =>
      let w1 :=
        print (str "Creating table 'Organizations'...")
          (print (str "Successfully connected to the MDB file: '" ++ str mdb_filename
                  ++ str "'.")
             (set_db mdb_filename db0 w0)) in
      match access_execute driver create_organizations db0 with
      | Refused s t => report s t w1
      | Done db1 =>
          let w2 :=
            print (str "Creating table 'Communications'...") (set_db mdb_filename db1 w1) in
          match access_execute driver create_communications db1 with
          | Refused s t => report s t w2
          | Done db2 =>
              let w3 :=
                print (str "Inserting data into 'Organizations'...")
                  (set_db mdb_filename db2 w2) in
              match access_executemany driver insert_organizations_query
                      organizations_data db2 with
              | Refused s t => report s t w3
              | Done db3 =>
                  let w4 :=
                    print (str "Inserting data into 'Communications'...")
                      (set_db mdb_filename db3 w3) in
                  match access_executemany driver insert_communications_query
                          communications_data db3 with
                  | Refused s t => report s t w4
                  | Done db4 =>
                      print (str "Data successfully inserted. File '" ++ str mdb_filename
                             ++ str "' is ready.")
                        (set_db mdb_filename db4 w4)
                  end
              end
          end
      end
  end.

Definition create_mdb_from_json (json_filename mdb_filename : string) (w : world)
  : result unit * world :=
  match disk w !! json_filename with
  | None =>
      (Ok tt,
       print (str "Error: The file '" ++ str json_filename ++ str "' was not found.") w)
  | Some bytes =>
      match read_document bytes with
      | Err JSONDecodeError =>
          (Ok tt,
           print (str "Error: Could not decode JSON from '" ++ str json_filename
                  ++ str "'. Please check the file's format.") w)
      | Err e => (Err e, w)
      | Ok full_data =>
          match (let* d := py_get full_data (str "d") (VDict []) in
                 let* data := py_get d (str "results") (VList []) in
                 let* n := py_len data in
                 Ok (data, n)) with
          | Err e => (Err e, w)
          | Ok (data, n) =>
              let w1 :=
                print (str "Successfully loaded JSON data from '" ++ str json_filename
                       ++ str "'. Found " ++ int_repr (Z.of_nat n)
                       ++ str " organizations.") w in
              if negb (truthy data) then
                (Ok tt,
                 print (str "Warning: The 'results' array in the JSON file is empty. No data will be inserted.") w1)
              else
                match (let* orgs := py_iter data in extract_loop ([], []) orgs) with
                | Err e => (Err e, w1)
                | Ok tables =>
                    (Ok tt, write_mdb mdb_filename (fst tables) (snd tables) w1)
                end
          end
      end
  end.

End Script.

(** * Vocabulary of the properties *)

(** The errors of the loader, by the names the specification gives them. *)
Definition NotFoundError (path : string) : exn :=
  RuntimeError ("JSON file not found: " +:+ path).
Definition ParseError (path : string) : exn :=
  RuntimeError ("Invalid JSON format in " +:+ path).
Definition MissingDataError : exn :=
  RuntimeError "No 'results' found in JSON".
Definition MissingTemplateError : exn :=
  RuntimeError "MDB template path not provided — cannot create file.".

(** What the path [d.results] of the input file resolves to, when the
    file is there, [json.load] reads it and the document and its member
    [d] are objects; a member that is absent resolves to its default. *)
Definition d_results (st : state) : option value :=
  match files st !! json_path (self st) with
  | Some bytes =>
      match read_document bytes with
      | Ok full =>
          match py_get full (str "d") (VDict []) with
          | Ok d =>
              match py_get d (str "results") (VList []) with
              | Ok data => Some data
              | Err _ => None
              end
          | Err _ => None
          end
      | Err _ => None
      end
  | None => None
  end.

(** A value the normalizer takes: a [datetime], or a value with no
    [datetime] inside, as every value read from JSON is. *)
Definition storable (v : value) : bool := isinstance_datetime v || serializable v.

Definition raw_record (r : dict value) : bool :=
  forallb (fun kv => storable (snd kv)) r.

(** The value of [k] in the first record that has it. *)
Fixpoint first_sample (k : pystr) (records : list (dict value)) : option value :=
  match records with
  | [] => None
  | r :: rest =>
      match dict_get k r with
      | Some v => Some v
      | None => first_sample k rest
      end
  end.

(** The keys of [ks] not in [seen], each once, in the order they first
    come. *)
Fixpoint first_seen (seen ks : list pystr) : list pystr :=
  match ks with
  | [] => []
  | k :: ks' =>
      if decide (k ∈ seen) then first_seen seen ks'
      else k :: first_seen (seen ++ [k]) ks'
  end.

Definition not_metadata (k : pystr) : bool :=
  negb (bool_decide (k = str "__metadata")).

(** The first-encounter order of the keys of a record list. *)
Definition column_order (records : list (dict value)) : list pystr :=
  first_seen [] (List.filter not_metadata (concat (map keys records))).

(** A record without its children field. *)
Definition strip_children (r : dict value) : dict value :=
  List.filter (fun kv => negb (bool_decide (fst kv = str "Communications"))) r.

(** The elements of [Communications.results] of a record. *)
Definition children (r : dict value) : list value :=
  match dict_get (str "Communications") r with
  | Some (VDict c) =>
      match dict_get (str "results") c with
      | Some (VList xs) => xs
      | _ => []
      end
  | _ => []
  end.

Definition is_dict (v : value) : bool :=
  match v with VDict _ => true | _ => false end.

(** A parent the loop of the loader goes through: no children field, or
    an object under it that has no [results] or an array there. *)
Definition nested (r : dict value) : bool :=
  match dict_get (str "Communications") r with
  | None => true
  | Some (VDict c) =>
      match dict_get (str "results") c with
      | None => true
      | Some (VList _) => true
      | Some _ => false
      end
  | Some _ => false
  end.

(** The shape of a parent the interface documents: the children, if any,
    are objects. *)
Definition shaped (r : dict value) : bool :=
  nested r && forallb is_dict (children r).

(** A children field that is no object and yet passes the test
    ["results" in ...]: a text with that part, a list with that element. *)
Definition passes_membership (comms : value) : bool :=
  match comms with
  | VStr _ | VList _ =>
      match py_contains (str "results") comms with Ok b => b | Err _ => false end
  | _ => false
  end.

(** The distinct keys of a record list. *)
Definition distinct_keys (records : list (dict value)) : gset pystr :=
  list_to_set (concat (map keys records)).

(** The object after a load that returns. *)
Definition loaded (c : converter) (os cs : schema) (lists : list value * list value)
  : converter :=
  mk_converter (json_path c) (mdb_path c) (template_path c) os cs (fst lists) (snd lists).

(** ** Inputs the properties are tried on *)

(** A driver that opens every file there is and keeps the statements it
    is given. *)
Definition sample_driver : odbc :=
  mk_odbc
    (fun f => match f with Some _ => None | None => Some "file not found"%string end)
    (fun sql db => Some (db ++ sql))
    (fun sql rows db => Some (db ++ sql)).

(** The end-to-end input of the specification. *)
Definition scenario_text : pystr :=
  qstr "{'d':{'results':[{'Id':1,'Name':'Acme','Communications':{'results':[{'OrgId':1,'Type':'email'}]}}]}}".

Definition scenario_parents : list (dict value) :=
  [[(str "Id", VInt 1); (str "Name", VStr (str "Acme"));
    (str "Communications",
     VDict [(str "results",
             VList [VDict [(str "OrgId", VInt 1); (str "Type", VStr (str "email"))]])])]].

(** A converter from [in.json] to [out.mdb], the input with the given
    bytes (if any), an earlier output [old] (if any), and a blank database
    at [blank.mdb]. *)
Definition run_on (text : option pystr) (template : option string) (old : option pystr)
  : state :=
  mk_state (new_converter "in.json" "out.mdb" template)
    (match text with Some t => <["in.json"%string := t]> | None => id end
       (match old with Some o => <["out.mdb"%string := o]> | None => id end
          (<["blank.mdb"%string := str "MDB"]> ∅))).

(** [d.results] is a non-empty array. *)
Definition resolves_to_records (st : state) : bool :=
  match d_results st with
  | Some (VList (_ :: _)) => true
  | _ => false
  end.

(** ** What follows a number *)

(** The text does not go on with a digit. *)
Definition no_digit_head (rest : pystr) : bool :=
  match rest with
  | c :: _ => negb (is_digit c)
  | [] => true
  end.

(** The text does not go on with a digit, a point or an exponent mark: a
    number written before it ends there. *)
Definition number_stop (rest : pystr) : bool :=
  match rest with
  | c :: _ => negb (is_digit c || (c =? 46) || (c =? 101) || (c =? 69))
  | [] => true
  end.

(** The digits of an integer literal: some, and no zero in front of others. *)
Definition int_digits (ds : list N) : Prop :=
  Forall (fun d => d < 10) ds
  /\ match ds with
     | [] => False
     | d :: ds' => d = 0 -> ds' = []
     end.

(** The decimal expansion of a finite float as [repr] prints it: digits
    only, and either the zero [0.0] or no zero in front or behind and a
    value a double can have. *)
Definition float_digits_ok (ds : list N) (dp : Z) : bool :=
  forallb (fun d => d <? 10) ds
  && (bool_decide (ds = [0] /\ dp = 1%Z)
      || (match ds with d :: _ => negb (d =? 0) | [] => false end
          && match rev ds with d :: _ => negb (d =? 0) | [] => false end
          && negb (overflows ds dp) && negb (underflows ds dp))).

(** ** Values as Python has them, and JSON values *)

(** The inner invariants of a value: the keys of a dict are distinct and
    a finite float is the expansion [repr] prints. *)
Fixpoint well_formed (v : value) : bool :=
  match v with
  | VFloat (FDec _ ds dp) => float_digits_ok ds dp
  | VList l => forallb well_formed l
  | VDict d =>
      bool_decide (NoDup (map fst d)) && forallb (fun kv => well_formed (snd kv)) d
  | _ => true
  end.

(** No [NaN] and no infinity in the value. *)
Fixpoint finite (v : value) : bool :=
  match v with
  | VFloat (FDec _ _ _) => true
  | VFloat _ => false
  | VList l => forallb finite l
  | VDict d => forallb (fun kv => finite (snd kv)) d
  | _ => true
  end.

(** A value as the decoder builds it: well formed, no [datetime] inside. *)
Definition sound (v : value) : Prop :=
  well_formed v = true /\ serializable v = true.

(** An array or an object. *)
Definition is_composite (v : value) : bool :=
  match v with
  | VList _ | VDict _ => true
  | _ => false
  end.

(** The calls the decoder nests to read the text of a value: one for the
    value, one more for each element of a list or member of an object,
    and those of the elements. *)
Fixpoint cost (v : value) : nat :=
  match v with
  | VList l => S (fold_right (fun x a => S (cost x + a)) O l)
  | VDict d => S (fold_right (fun kv a => S (cost (snd kv) + a)) O d)
  | _ => 1
  end.

(** The text of a member of an object. *)
Definition encode_member (kv : pystr * value) : pystr :=
  encode_basestring (fst kv) ++ str ": " ++ encode (snd kv).

(** The first character of the text of a value: no white space, no
    closing bracket, no byte order mark. *)
Definition value_head (c : N) : bool :=
  negb (is_ws c) && negb (c =? 93) && negb (c =? 65279).

(** The first character of a number: a minus sign or a digit. *)
Definition number_head (c : N) : bool := (c =? 45) || is_digit c.

(** The decoder reads the text of [v] back to [v], whatever follows that
    ends a number, with fuel for the calls it nests. *)
Definition round_trips (v : value) : Prop :=
  forall (b : bool) (fuel : nat) (rest : pystr),
    well_formed v = true -> serializable v = true -> finite v = true ->
    (cost v <= fuel)%nat -> number_stop rest = true ->
    scan_once b fuel (encode v ++ rest) = Some (v, rest).

(** A record with a value of each kind, and a schema that has its keys
    in another order, declares types the values do not have, and has a
    column [m] the record lacks. *)
Definition sample_record : dict value :=
  [(str "t", VStr (str "x")); (str "i", VInt 3);
   (str "f", VFloat (FDec false [2; 5] 0)); (str "b", VBool true);
   (str "d", VDatetime (mk_datetime 2024 1 15 10 30 0 0 None)); (str "n", VNone);
   (str "l", VList [VNone; VInt 1]); (str "o", VDict [(str "k", VInt 1)])].

Definition sample_schema : schema :=
  [(str "o", YESNO); (str "t", INTEGER); (str "m", TEXT255); (str "i", TEXT255);
   (str "l", DOUBLE); (str "f", YESNO); (str "b", DATETIME); (str "d", INTEGER);
   (str "n", INTEGER)].

(** An object with a text outside ASCII, a control character, numbers of
    each kind and nested composites. *)
Definition sample_composite : value :=
  VDict [(str "tags", VList [VStr [1089; 1083; 1086; 1074; 1086; 10]; VNone]);
         (str "n", VList [VInt (-3); VFloat (FDec false [2; 5] 0);
                          VFloat (FDec true [1] 23); VBool true; VDict []])].

(** ** What the writer is given *)

(** The values of the record under the columns are all storable. *)
Definition columns_storable (r : dict value) (ks : list pystr) : bool :=
  forallb (fun k => match dict_get k r with Some v => storable v | None => true end) ks.

(** A request to the driver: a statement, or a statement and its rows. *)
Inductive request :=
| Execute (sql : pystr)
| ExecuteMany (sql : pystr) (rows : list (list value)).

Definition apply_request (driver : odbc) (req : request) (db : pystr) : option pystr :=
  match req with
  | Execute sql => odbc_execute driver sql db
  | ExecuteMany sql rows => odbc_executemany driver sql rows db
  end.

(** The database after the requests the driver accepts, up to the first
    it rejects, and whether it accepted them all. *)
Fixpoint run_requests (driver : odbc) (reqs : list request) (db : pystr) : pystr * bool :=
  match reqs with
  | [] => (db, true)
  | req :: rest =>
      match apply_request driver req db with
      | Some db' => run_requests driver rest db'
      | None => (db, false)
      end
  end.

(** The four requests of a run, for the rows of the two tables. *)
Definition requests (c : converter) (rows_o rows_c : list (list value)) : list request :=
  [Execute (build_table_sql (str "Organizations") (org_schema c));
   Execute (build_table_sql (str "Communications") (comm_schema c));
   ExecuteMany (insert_sql (str "Organizations") (org_schema c)) rows_o;
   ExecuteMany (insert_sql (str "Communications") (comm_schema c)) rows_c].

(** A driver as [sample_driver] that rejects every [executemany]. *)
Definition no_insert_driver : odbc :=
  mk_odbc (odbc_connect sample_driver) (odbc_execute sample_driver) (fun _ _ _ => None).

(** A value that is no container: [in] and [for] raise [TypeError] on it. *)
Definition no_container (v : value) : bool :=
  match v with
  | VNone | VBool _ | VInt _ | VFloat _ | VDatetime _ => true
  | VStr _ | VList _ | VDict _ => false
  end.

(** A children field the loop of the loader cannot read: no container,
    or an object whose [results] is no container. *)
Definition unreadable_children (comms : value) : bool :=
  match comms with
  | VDict c =>
      match dict_get (str "results") c with
      | Some res => no_container res
      | None => false
      end
  | other => no_container other
  end.

(** ** The script *)

(** The tuple the script builds from an organization. *)
Definition organization_tuple (d : dict value) : list value :=
  map (fun field => match dict_get field d with Some v => v | None => VNone end)
    organization_fields.

(** The tuple the script builds from a communication. *)
Definition communication_tuple (d : dict value) : list value :=
  map (fun field => match dict_get field d with Some v => v | None => VNone end)
    communication_fields
  ++ [VNone; VNone; VNone; VNone].

(** The parameter markers of a statement. *)
Definition markers (sql : pystr) : nat := count_occ N.eq_dec sql 63.

(** A method that leaves the object as it is and writes no file but the
    one at [path]. *)
Definition writes_only {A} (path : string) (m : M A) : Prop :=
  forall st,
    self (snd (m st)) = self st
    /\ forall p, p <> path -> files (snd (m st)) !! p = files st !! p.

(** ** The decoder and the normalizer, in other words *)

(** An answer of the decoder without the limit, as an outcome. *)
Definition to_outcome {A} (o : option A) : outcome A :=
  match o with Some a => Got a | None => Malformed end.

(** What the normalizer stores for a value, by its kind: null and the
    five scalar kinds as they are, a list or a dict as its JSON text. *)
Definition normalized (v : value) : value :=
  match v with
  | VNone | VBool _ | VInt _ | VFloat _ | VStr _ | VDatetime _ => v
  | VList _ | VDict _ => VStr (encode v)
  end.

(** * Properties *)

(** ** The model on examples *)

Example infer_ts : _infer_type (VStr (str "2024-01-15T10:30:00Z")) = DATETIME.
Proof. vm_compute. reflexivity. Qed.

Example infer_hello : _infer_type (VStr (str "hello")) = TEXT255.
Proof. vm_compute. reflexivity. Qed.

Example iso1 : fromisoformat (str "2024-02-30") = None.
Proof. vm_compute. reflexivity. Qed.

Example iso2 : fromisoformat (str "2024-02-29 23:59:59.123456-05:30")
  = Some (mk_datetime 2024 2 29 23 59 59 123456 (Some (-19800000000)%Z)).
Proof. vm_compute. reflexivity. Qed.

Example dumps_ex :
  dumps (VList [VInt (-12); VFloat (FDec false [1; 5] 1); VNone; VBool true;
                VDict [(str "a", VList []); (str "b", VStr [233; 10])]])
  = Ok (str "[-12, 1.5, null, true, {" ++ [34; 97; 34] ++ str ": [], "
        ++ [34; 98; 34] ++ str ": " ++ [34; 233; 92; 110; 34] ++ str "}]").
Proof. vm_compute. reflexivity. Qed.

Example float_ex :
  map float_repr [FDec false [1] 17; FDec false [1] 16; FDec false [1] (-3);
                  FDec true [1; 5] (-4); FDec false [0] 1; FDec false [1;2;3] 2]
  = map str ["1e+16"; "1000000000000000.0"; "0.0001"; "-1.5e-05"; "0.0"; "12.3"]%string.
Proof. vm_compute. reflexivity. Qed.

Example scan_number_ex :
  map (fun t => scan_number (str t)) ["-12,"; "0.5e-3]"; "1e999"; "01"; "1.e"; "-x"; "2.50"]%string
  = [Some (VInt (-12), str ","); Some (VFloat (FDec false [5] (-3)), str "]");
     Some (VFloat (FInf false), []); Some (VInt 0, str "1");
     Some (VInt 1, str ".e"); None; Some (VFloat (FDec false [2; 5] 1), [])].
Proof. vm_compute. reflexivity. Qed.

Example end_to_end :
  let st := snd (convert sample_driver
                   (run_on (Some scenario_text) (Some "blank.mdb"%string) None)) in
  fst (convert sample_driver (run_on (Some scenario_text) (Some "blank.mdb"%string) None))
  = Ok tt
  /\ org_schema (self st) = [(str "Id", INTEGER); (str "Name", TEXT255)]
  /\ comm_schema (self st) = [(str "OrgId", INTEGER); (str "Type", TEXT255)]
  /\ mapR (fun r => _normalize_record r (org_schema (self st))) (org_records (self st))
     = Ok [[VInt 1; VStr (str "Acme")]]
  /\ mapR (fun r => _normalize_record r (comm_schema (self st))) (comm_records (self st))
     = Ok [[VInt 1; VStr (str "email")]]
  /\ build_table_sql (str "Organizations") (org_schema (self st))
     = str "CREATE TABLE Organizations ([Id] INTEGER, [Name] TEXT(255));"
  /\ insert_sql (str "Communications") (comm_schema (self st))
     = str "INSERT INTO Communications ([OrgId], [Type]) VALUES (?, ?);".
Proof. vm_compute. repeat split; reflexivity. Qed.

(** ** C1: the precedence of type inference *)

Lemma parse_digits_app (n : nat) (s x r : pystr) (acc v : N) :
  parse_digits n s acc = Some (v, r) -> parse_digits n (s ++ x) acc = Some (v, r ++ x).
Proof.
  revert s acc. induction n as [| n IH]; intros s acc; cbn [parse_digits].
  - intros H; inversion H; subst; reflexivity.
  - destruct s as [| c s]; [discriminate |]. cbn [app].
    destruct (is_digit c); [apply IH | discriminate].
Qed.

Lemma parse_isoformat_date_app (s x rest : pystr) (y mo d : N) :
  parse_isoformat_date s = Some (y, mo, d, rest) ->
  parse_isoformat_date (s ++ x) = Some (y, mo, d, rest ++ x).
Proof.
  unfold parse_isoformat_date.
  destruct (parse_digits 4 s 0) as [[y0 [| c1 s1]] |] eqn:H1; try discriminate.
  rewrite (parse_digits_app 4 s x _ 0 y0 H1). cbn [app].
  destruct (c1 =? 45); [| discriminate].
  destruct (parse_digits 2 s1 0) as [[mo0 [| c2 s2]] |] eqn:H2; try discriminate.
  rewrite (parse_digits_app 2 s1 x _ 0 mo0 H2). cbn [app].
  destruct (c2 =? 45); [| discriminate].
  destruct (parse_digits 2 s2 0) as [[d0 r0] |] eqn:H3; [| discriminate].
  rewrite (parse_digits_app 2 s2 x _ 0 d0 H3).
  intros H; inversion H; subst; reflexivity.
Qed.

Lemma split_tz_none (s t x : pystr) :
  split_tz s = (t, None) -> t = s /\ split_tz (s ++ 43 :: x) = (s, Some (false, x)).
Proof.
  revert t. induction s as [| c s IH]; intros t; cbn [split_tz app].
  - intros H; inversion H; subst. split; reflexivity.
  - destruct (c =? 43); [discriminate |]. destruct (c =? 45); [discriminate |].
    destruct (split_tz s) as [t0 z] eqn:Hs. intros H; inversion H; subst.
    destruct (IH t0 eq_refl) as [-> ->]. split; reflexivity.
Qed.

Lemma replace_Z_free (s : pystr) : 90 ∉ s -> replace_Z s = s.
Proof.
  unfold replace_Z. induction s as [| c s IH]; [reflexivity |]. intros H.
  apply not_elem_of_cons in H. destruct H as [Hc Hs]. cbn [flat_map].
  replace (c =? 90) with false by (symmetry; apply N.eqb_neq; congruence).
  cbn [app]. rewrite (IH Hs). reflexivity.
Qed.

Lemma datetime_new_tz (y mo d h mi s us : N) (dt : datetime) (z : option Z) :
  datetime_new y mo d h mi s us None = Some dt ->
  exists dt', datetime_new y mo d h mi s us z = Some dt'.
Proof.
  unfold datetime_new. destruct (_ && _); [eauto | discriminate].
Qed.

(** A text without [Z] that [fromisoformat] reads as a naive date or
    date/time is read with a [Z] behind it too. *)
Lemma fromisoformat_trailing_Z (t : pystr) (dt : datetime) :
  90 ∉ t -> fromisoformat t = Some dt -> tz dt = None ->
  exists dt', fromisoformat (replace_Z (t ++ [90])) = Some dt'.
Proof.
  intros Hz Hiso Htz.
  assert (Hrep : replace_Z (t ++ [90]) = t ++ str "+00:00").
  { unfold replace_Z. rewrite flat_map_app. fold (replace_Z t).
    rewrite (replace_Z_free t Hz). reflexivity. }
  rewrite Hrep. revert Hiso. unfold fromisoformat.
  destruct (parse_isoformat_date t) as [[[[y mo] d] rest] |] eqn:Hd; [| discriminate].
  rewrite (parse_isoformat_date_app t (str "+00:00") rest y mo d Hd).
  destruct rest as [| sep tstr].
  - intros H. exists dt. exact H.
  - cbn [app]. destruct (split_tz tstr) as [tm z] eqn:Hs.
    destruct (parse_hh_mm_ss_ff tm) as [[[[h mi] sec] us] |] eqn:Hp; [| discriminate].
    destruct z as [[neg zs] |].
    + destruct (parse_tz neg zs); [| discriminate].
      unfold datetime_new. destruct (_ && _); [| discriminate].
      intros H; inversion H; subst. discriminate.
    + destruct (split_tz_none tstr tm (str "00:00") Hs) as [-> Hs'].
      change (str "+00:00") with (43 :: str "00:00"). rewrite Hs', Hp.
      change (parse_tz false (str "00:00")) with (Some 0%Z).
      intros H. apply (datetime_new_tz _ _ _ _ _ _ _ dt (Some 0%Z) H).
Qed.

(** C1. The column type of a first sample, by the kind of the value: a
    boolean gives [YESNO] although it also is an instance of [int]
    (the boolean test comes first), an integer [INTEGER], a float
    [DOUBLE], a [datetime] [DATETIME], a text [DATETIME] when
    [fromisoformat] reads it once every [Z] is written [+00:00] and
    [TEXT(255)] otherwise, and [None], a list and a dict [TEXT(255)].
    A text [fromisoformat] reads as a naive date or date/time gives
    [DATETIME] with a [Z] behind it.  The text 2024-01-15T10:30:00Z
    gives [DATETIME], hello gives [TEXT(255)]. *)
Theorem infer_type_precedence :
  (forall v,
     _infer_type v =
       match v with
       | VBool _ => YESNO
       | VInt _ => INTEGER
       | VFloat _ => DOUBLE
       | VDatetime _ => DATETIME
       | VStr s =>
           match fromisoformat (replace_Z s) with
           | Some _ => DATETIME
           | None => TEXT255
           end
       | VNone | VList _ | VDict _ => TEXT255
       end)
  /\ (forall b, isinstance_int (VBool b) = true)
  /\ (forall t dt, 90 ∉ t -> fromisoformat t = Some dt -> tz dt = None ->
      _infer_type (VStr (t ++ [90])) = DATETIME)
  /\ _infer_type (VStr (str "2024-01-15T10:30:00Z")) = DATETIME
  /\ _infer_type (VStr (str "hello")) = TEXT255
  /\ coltype_sql TEXT255 = "TEXT(255)"%string.
Proof.
  assert (Htable : forall v,
     _infer_type v =
       match v with
       | VBool _ => YESNO
       | VInt _ => INTEGER
       | VFloat _ => DOUBLE
       | VDatetime _ => DATETIME
       | VStr s =>
           match fromisoformat (replace_Z s) with
           | Some _ => DATETIME
           | None => TEXT255
           end
       | VNone | VList _ | VDict _ => TEXT255
       end).
  { intros [ | b | n | f | s | d | l | d ]; try reflexivity.
    unfold _infer_type, _is_datetime; simpl.
    destruct (fromisoformat (replace_Z s)); reflexivity. }
  split; [exact Htable |]. split; [intros b; reflexivity |]. split.
  - intros t dt Hz Hiso Htz. rewrite Htable.
    destruct (fromisoformat_trailing_Z t dt Hz Hiso Htz) as [dt' ->]. reflexivity.
  - split; [vm_compute; reflexivity |]. split; [vm_compute; reflexivity | reflexivity].
Qed.

(** ** Results and dicts *)

Lemma mapR_ok {A B} (f : A -> result B) (l : list A) (row : list B) :
  mapR f l = Ok row ->
  length row = length l
  /\ forall i x, l !! i = Some x -> exists y, row !! i = Some y /\ f x = Ok y.
Proof.
  revert row; induction l as [| a l IH]; intros row H; simpl in H.
  - inversion H; subst; split; [reflexivity |]. intros i x Hi. destruct i; discriminate.
  - destruct (f a) as [b |] eqn:Hfa; simpl in H; [| discriminate].
    destruct (mapR f l) as [bs |] eqn:Hl; simpl in H; [| discriminate].
    inversion H; subst. destruct (IH bs eq_refl) as [Hlen Hnth].
    split; [simpl; congruence |].
    intros [| i] x Hi; simpl in *.
    + inversion Hi; subst. eauto.
    + eauto.
Qed.

Lemma mapR_total {A B} (f : A -> result B) (l : list A) :
  (forall x, x ∈ l -> exists y, f x = Ok y) -> exists row, mapR f l = Ok row.
Proof.
  induction l as [| a l IH]; intros H; simpl.
  - eauto.
  - destruct (H a) as [b Hb]; [left |]. rewrite Hb; simpl.
    destruct IH as [bs Hbs]; [intros x Hx; apply H; right; exact Hx |].
    rewrite Hbs; simpl; eauto.
Qed.

Lemma dict_get_elem {V} (k : pystr) (d : dict V) (v : V) :
  dict_get k d = Some v -> (k, v) ∈ d.
Proof.
  induction d as [| [k' v'] d IH]; simpl; [discriminate |].
  destruct (decide (k = k')) as [-> | Hne]; intros H.
  - inversion H; subst; left.
  - right; auto.
Qed.

Lemma dict_in_keys {V} (k : pystr) (d : dict V) :
  dict_in k d = true <-> k ∈ keys d.
Proof.
  unfold dict_in, keys. induction d as [| [k' v'] d IH]; simpl.
  - split; [discriminate | intros H; inversion H].
  - destruct (decide (k = k')) as [-> | Hne].
    + split; [intros _; left | reflexivity].
    + rewrite IH. split; [intros H; right; exact H |].
      intros H; inversion H; subst; [congruence | assumption].
Qed.

Lemma dict_get_None_keys {V} (k : pystr) (d : dict V) :
  dict_get k d = None <-> k ∉ keys d.
Proof.
  rewrite <- dict_in_keys. unfold dict_in.
  destruct (dict_get k d); split; try congruence; intros H; exfalso; apply H; reflexivity.
Qed.

(** ** C3: the normalizer *)

Lemma raw_record_storable (r : dict value) (k : pystr) (v : value) :
  raw_record r = true -> dict_get k r = Some v -> storable v = true.
Proof.
  unfold raw_record; rewrite forallb_forall; intros Hall Hget.
  apply dict_get_elem, list_elem_of_In in Hget. exact (Hall _ Hget).
Qed.

Lemma convert_value_storable (v : value) :
  storable v = true ->
  convert_value v =
    Ok (if isinstance_scalar v then v
        else match v with VNone => VNone | _ => VStr (encode v) end).
Proof.
  unfold storable, convert_value, dumps.
  destruct v; simpl; try reflexivity; intros ->; reflexivity.
Qed.

Lemma normalize_field (r : dict value) (k : pystr) :
  raw_record r = true ->
  (let* v := py_get (VDict r) k VNone in convert_value v)
  = Ok match dict_get k r with
       | None => VNone
       | Some v =>
           if isinstance_scalar v then v
           else match v with VNone => VNone | _ => VStr (encode v) end
       end.
Proof.
  intros Hraw; simpl. destruct (dict_get k r) as [v |] eqn:Hk; [| reflexivity].
  apply convert_value_storable. eapply raw_record_storable; eauto.
Qed.

Lemma normalize_record_total (sch : schema) (r : dict value) :
  raw_record r = true -> exists row, _normalize_record (VDict r) sch = Ok row.
Proof.
  intros Hraw. apply mapR_total. intros k _. rewrite (normalize_field r k Hraw). eauto.
Qed.

Lemma normalized_scalar (v : value) :
  (if isinstance_scalar v then v
   else match v with VNone => VNone | _ => VStr (encode v) end) = normalized v.
Proof. destruct v; reflexivity. Qed.

(** C3. For a schema and a record of storable values the normalizer
    returns a row with one value per column, in the order of the columns:
    [None] where the record has no such key, the value itself where it is
    [None] or of one of the scalar kinds (text, integer, float, boolean,
    [datetime]), whatever type the column has, and the JSON text of a
    list or a dict. *)
Theorem normalize_record_aligned (sch : schema) (r : dict value) :
  raw_record r = true ->
  exists row,
    _normalize_record (VDict r) sch = Ok row
    /\ length row = length (keys sch)
    /\ (forall i k, keys sch !! i = Some k ->
          row !! i = Some
            match dict_get k r with
            | None => VNone
            | Some (VList l) => VStr (encode (VList l))
            | Some (VDict d) => VStr (encode (VDict d))
            | Some VNone => VNone
            | Some (VStr s) => VStr s
            | Some (VInt n) => VInt n
            | Some (VFloat f) => VFloat f
            | Some (VBool b) => VBool b
            | Some (VDatetime t) => VDatetime t
            end)
    /\ (forall i k v, keys sch !! i = Some k -> dict_get k r = Some v ->
          is_composite v = false -> row !! i = Some v).
Proof.
  intros Hraw.
  destruct (normalize_record_total sch r Hraw) as [row Hrow].
  exists row. split; [exact Hrow |].
  destruct (mapR_ok _ _ _ Hrow) as [Hlen Hnth]. split; [exact Hlen |].
  assert (Hcell : forall i k, keys sch !! i = Some k ->
            row !! i = Some match dict_get k r with
                            | None => VNone
                            | Some v => normalized v
                            end).
  { intros i k Hi. destruct (Hnth i k Hi) as (y & Hy & Hfy).
    rewrite (normalize_field r k Hraw) in Hfy. inversion Hfy; subst. rewrite Hy.
    destruct (dict_get k r) as [v |]; [rewrite normalized_scalar |]; reflexivity. }
  split.
  - intros i k Hi. rewrite (Hcell i k Hi).
    destruct (dict_get k r) as [v |]; [destruct v |]; reflexivity.
  - intros i k v Hi Hk Hv. rewrite (Hcell i k Hi), Hk.
    destruct v; try discriminate; reflexivity.
Qed.

Lemma normalize_record_aligned_witness :
  raw_record sample_record = true
  /\ exists row,
       _normalize_record (VDict sample_record) sample_schema = Ok row
       /\ length row = 9%nat
       /\ row !! 0%nat = Some (VStr (qstr "{'k': 1}"))
       /\ row !! 1%nat = Some (VStr (str "x"))
       /\ row !! 2%nat = Some VNone
       /\ row !! 3%nat = Some (VInt 3)
       /\ row !! 4%nat = Some (VStr (str "[null, 1]"))
       /\ row !! 5%nat = Some (VFloat (FDec false [2; 5] 0))
       /\ row !! 6%nat = Some (VBool true)
       /\ row !! 7%nat = Some (VDatetime (mk_datetime 2024 1 15 10 30 0 0 None))
       /\ row !! 8%nat = Some VNone.
Proof.
  split; [reflexivity |].
  destruct (normalize_record_aligned sample_schema sample_record eq_refl)
    as (row & Hrow & Hlen & Hcell & Hpass).
  exists row. split; [exact Hrow |]. split; [exact Hlen |].
  split; [exact (Hcell 0%nat (str "o") eq_refl) |].
  split; [exact (Hpass 1%nat (str "t") _ eq_refl eq_refl eq_refl) |].
  split; [exact (Hcell 2%nat (str "m") eq_refl) |].
  split; [exact (Hpass 3%nat (str "i") _ eq_refl eq_refl eq_refl) |].
  split; [exact (Hcell 4%nat (str "l") eq_refl) |].
  split; [exact (Hpass 5%nat (str "f") _ eq_refl eq_refl eq_refl) |].
  split; [exact (Hpass 6%nat (str "b") _ eq_refl eq_refl eq_refl) |].
  split; [exact (Hpass 7%nat (str "d") _ eq_refl eq_refl eq_refl) |].
  exact (Hcell 8%nat (str "n") eq_refl).
Defined.

(** ** The schema inferrer on a record list *)

Lemma dict_get_set {V} (k k' : pystr) (v : V) (d : dict V) :
  dict_get k (dict_set k' v d) = if decide (k = k') then Some v else dict_get k d.
Proof.
  induction d as [| [k0 v0] d IH]; simpl.
  - reflexivity.
  - destruct (decide (k' = k0)) as [-> | Hne]; simpl.
    + destruct (decide (k = k0)); reflexivity.
    + rewrite IH. destruct (decide (k = k0)) as [-> | ?]; [| reflexivity].
      destruct (decide (k0 = k')); congruence.
Qed.

Lemma keys_set_new {V} (k : pystr) (v : V) (d : dict V) :
  dict_in k d = false -> keys (dict_set k v d) = keys d ++ [k].
Proof.
  unfold dict_in, keys. induction d as [| [k0 v0] d IH]; simpl; [reflexivity |].
  destruct (decide (k = k0)) as [-> | Hne]; [discriminate |].
  intros H; simpl; rewrite IH; auto.
Qed.

Lemma schema_field_get (sch : schema) (kv : pystr * value) (k : pystr) :
  dict_get k (schema_field sch kv) =
    match dict_get k sch with
    | Some t => Some t
    | None =>
        if decide (k = fst kv) then
          if not_metadata k then Some (_infer_type (snd kv)) else None
        else None
    end.
Proof.
  unfold schema_field, not_metadata, dict_in.
  destruct (decide (fst kv = str "__metadata")) as [Hm | Hm].
  - destruct (dict_get k sch); [reflexivity |].
    destruct (decide (k = fst kv)) as [-> | ?]; [| reflexivity].
    rewrite bool_decide_eq_true_2 by exact Hm. reflexivity.
  - destruct (dict_get (fst kv) sch) eqn:Hin.
    + destruct (dict_get k sch) eqn:Hk; [reflexivity |].
      destruct (decide (k = fst kv)) as [-> | ?]; [congruence | reflexivity].
    + rewrite dict_get_set. destruct (decide (k = fst kv)) as [-> | ?].
      * rewrite Hin, bool_decide_eq_false_2 by exact Hm. reflexivity.
      * destruct (dict_get k sch); reflexivity.
Qed.

Lemma schema_fields_get (fields : dict value) (sch : schema) (k : pystr) :
  dict_get k (fold_left schema_field fields sch) =
    match dict_get k sch with
    | Some t => Some t
    | None =>
        if not_metadata k then
          match dict_get k fields with
          | Some v => Some (_infer_type v)
          | None => None
          end
        else None
    end.
Proof.
  revert sch; induction fields as [| [k0 v0] fields IH]; intros sch; simpl.
  - destruct (dict_get k sch), (not_metadata k); reflexivity.
  - rewrite IH, schema_field_get; simpl.
    destruct (dict_get k sch); [reflexivity |].
    destruct (decide (k = k0)) as [-> | ?]; destruct (not_metadata _); reflexivity.
Qed.

Lemma schema_loop_get (ds : list (dict value)) (sch : schema) (k : pystr) :
  exists sch',
    schema_loop sch (map VDict ds) = Ok sch'
    /\ dict_get k sch' =
         match dict_get k sch with
         | Some t => Some t
         | None =>
             if not_metadata k then
               match first_sample k ds with
               | Some v => Some (_infer_type v)
               | None => None
               end
             else None
         end.
Proof.
  revert sch; induction ds as [| r ds IH]; intros sch; simpl.
  - exists sch; split; [reflexivity |].
    destruct (dict_get k sch), (not_metadata k); reflexivity.
  - destruct (IH (fold_left schema_field r sch)) as (sch' & Hrun & Hget).
    exists sch'; split; [exact Hrun |].
    rewrite Hget, schema_fields_get.
    destruct (dict_get k sch); [reflexivity |].
    destruct (not_metadata k); [| reflexivity].
    destruct (dict_get k r); reflexivity.
Qed.

Lemma first_sample_app (k : pystr) (ds more : list (dict value)) (v : value) :
  first_sample k ds = Some v -> first_sample k (ds ++ more) = Some v.
Proof.
  induction ds as [| r ds IH]; simpl; [discriminate |].
  destruct (dict_get k r); auto.
Qed.

Lemma not_metadata_true (k : pystr) : k <> str "__metadata" -> not_metadata k = true.
Proof. intros H; unfold not_metadata; rewrite bool_decide_eq_false_2 by exact H; reflexivity. Qed.

Lemma extract_schema_first_sample (ds : list (dict value)) (k : pystr) (v : value) :
  k <> str "__metadata" -> first_sample k ds = Some v ->
  exists sch, _extract_schema (map VDict ds) = Ok sch
              /\ dict_get k sch = Some (_infer_type v).
Proof.
  intros Hk Hv. destruct (schema_loop_get ds [] k) as (sch & Hrun & Hget).
  exists sch; split; [exact Hrun |].
  rewrite Hget; simpl. rewrite not_metadata_true, Hv by exact Hk. reflexivity.
Qed.

Lemma lookup_keys_index {V} (k : pystr) (d : dict V) :
  k ∈ keys d -> exists i, keys d !! i = Some k.
Proof. intros H; apply list_elem_of_lookup in H; exact H. Qed.

(** ** C2: the first value wins *)

(** C2. When the first record that has key [k] (not the metadata key)
    has the value [v] for it, the schema has a column [k] of the type
    inferred from [v]; the schema of the list followed by any further
    records has the same type for [k]; and the row of any record of
    storable values that has a text under [k] carries that text in the
    column of [k], whatever the type of the column.  At first sample an
    integer and later sample a text: an integer column, the text in the
    row. *)
Theorem first_value_wins (ds : list (dict value)) (k : pystr) (v : value) :
  k <> str "__metadata" ->
  first_sample k ds = Some v ->
  exists sch,
    _extract_schema (map VDict ds) = Ok sch
    /\ dict_get k sch = Some (_infer_type v)
    /\ (forall more, exists sch',
          _extract_schema (map VDict (ds ++ more)) = Ok sch'
          /\ dict_get k sch' = Some (_infer_type v))
    /\ (forall r s, raw_record r = true -> dict_get k r = Some (VStr s) ->
          exists row i,
            _normalize_record (VDict r) sch = Ok row
            /\ keys sch !! i = Some k
            /\ row !! i = Some (VStr s)).
Proof.
  intros Hk Hv.
  destruct (extract_schema_first_sample ds k v Hk Hv) as (sch & Hrun & Hget).
  exists sch. split; [exact Hrun |]. split; [exact Hget |]. split.
  - intros more. apply extract_schema_first_sample; [exact Hk |].
    apply first_sample_app; exact Hv.
  - intros r s Hraw Hr.
    destruct (normalize_record_total sch r Hraw) as [row Hrow].
    assert (Hin : k ∈ keys sch).
    { apply dict_in_keys. unfold dict_in. rewrite Hget. reflexivity. }
    destruct (lookup_keys_index k sch Hin) as [i Hi].
    exists row, i. split; [exact Hrow |]. split; [exact Hi |].
    destruct (mapR_ok _ _ _ Hrow) as [_ Hnth].
    destruct (Hnth i k Hi) as (y & Hy & Hfy).
    rewrite (normalize_field r k Hraw), Hr in Hfy. inversion Hfy; subst. exact Hy.
Qed.

Lemma first_value_wins_witness :
  str "n" <> str "__metadata"
  /\ first_sample (str "n") [[(str "n", VInt 7)]; [(str "n", VStr (str "seven"))]]
     = Some (VInt 7)
  /\ exists sch,
       _extract_schema (map VDict [[(str "n", VInt 7)]; [(str "n", VStr (str "seven"))]])
       = Ok sch
       /\ dict_get (str "n") sch = Some INTEGER
       /\ (forall more, exists sch',
             _extract_schema
               (map VDict ([[(str "n", VInt 7)]; [(str "n", VStr (str "seven"))]] ++ more))
             = Ok sch'
             /\ dict_get (str "n") sch' = Some INTEGER)
       /\ (forall r s, raw_record r = true -> dict_get (str "n") r = Some (VStr s) ->
             exists row i,
               _normalize_record (VDict r) sch = Ok row
               /\ keys sch !! i = Some (str "n")
               /\ row !! i = Some (VStr s)).
Proof.
  split; [discriminate |]. split; [reflexivity |].
  apply (first_value_wins [[(str "n", VInt 7)]; [(str "n", VStr (str "seven"))]]
           (str "n") (VInt 7)); [discriminate | reflexivity].
Defined.

(** ** The order of the columns *)

Lemma first_seen_app (seen a b : list pystr) :
  first_seen seen (a ++ b)
  = first_seen seen a ++ first_seen (seen ++ first_seen seen a) b.
Proof.
  revert seen; induction a as [| k a IH]; intros seen; simpl.
  - rewrite app_nil_r; reflexivity.
  - destruct (decide (k ∈ seen)); [apply IH |].
    rewrite IH; simpl. rewrite <- app_assoc; reflexivity.
Qed.

Lemma schema_field_keys (sch : schema) (kv : pystr * value) :
  keys (schema_field sch kv)
  = keys sch ++ first_seen (keys sch) (List.filter not_metadata [fst kv]).
Proof.
  unfold schema_field, not_metadata; simpl.
  destruct (decide (fst kv = str "__metadata")) as [Hm | Hm].
  - rewrite bool_decide_eq_true_2 by exact Hm; simpl. rewrite app_nil_r; reflexivity.
  - rewrite bool_decide_eq_false_2 by exact Hm; simpl.
    destruct (dict_in (fst kv) sch) eqn:Hin.
    + apply dict_in_keys in Hin. rewrite decide_True by exact Hin.
      rewrite app_nil_r; reflexivity.
    + rewrite decide_False.
      * apply keys_set_new; exact Hin.
      * intros H; apply dict_in_keys in H; congruence.
Qed.

Lemma filter_app_bool {A} (p : A -> bool) (a b : list A) :
  List.filter p (a ++ b) = List.filter p a ++ List.filter p b.
Proof.
  induction a as [| x a IH]; simpl; [reflexivity |].
  destruct (p x); simpl; rewrite IH; reflexivity.
Qed.

Lemma schema_fields_keys (fields : dict value) (sch : schema) :
  keys (fold_left schema_field fields sch)
  = keys sch ++ first_seen (keys sch) (List.filter not_metadata (keys fields)).
Proof.
  revert sch; induction fields as [| kv fields IH]; intros sch.
  - simpl; rewrite app_nil_r; reflexivity.
  - cbn [fold_left]. rewrite IH, schema_field_keys.
    change (keys (kv :: fields)) with ([fst kv] ++ keys fields).
    rewrite filter_app_bool, first_seen_app, app_assoc. reflexivity.
Qed.

Lemma schema_loop_keys (ds : list (dict value)) (sch : schema) :
  exists sch',
    schema_loop sch (map VDict ds) = Ok sch'
    /\ keys sch'
       = keys sch ++ first_seen (keys sch) (List.filter not_metadata (concat (map keys ds))).
Proof.
  revert sch; induction ds as [| r ds IH]; intros sch; simpl.
  - exists sch; split; [reflexivity | rewrite app_nil_r; reflexivity].
  - destruct (IH (fold_left schema_field r sch)) as (sch' & Hrun & Hkeys).
    exists sch'; split; [exact Hrun |].
    rewrite Hkeys, schema_fields_keys, filter_app_bool, first_seen_app, app_assoc.
    reflexivity.
Qed.

Lemma extract_schema_column_order (ds : list (dict value)) :
  exists sch, _extract_schema (map VDict ds) = Ok sch /\ keys sch = column_order ds.
Proof.
  destruct (schema_loop_keys ds []) as (sch & Hrun & Hkeys).
  exists sch; split; [exact Hrun | exact Hkeys].
Qed.

(** ** The loader, step by step *)

Lemma load_json_run (st : state) (data : value) :
  d_results st = Some data ->
  _load_json st =
    if negb (truthy data) then (Err MissingDataError, st)
    else
      match py_iter data with
      | Err e => (Err e, st)
      | Ok orgs =>
          match split_loop ([], []) orgs with
          | Err e => (Err e, st)
          | Ok lists =>
              match _extract_schema (fst lists) with
              | Err e => (Err e, st)
              | Ok os =>
                  match _extract_schema (snd lists) with
                  | Err e => (Err e, mk_state (set_org_schema os (self st)) (files st))
                  | Ok cs => (Ok tt, mk_state (loaded (self st) os cs lists) (files st))
                  end
              end
          end
      end.
Proof.
  unfold d_results, _load_json, read_json, bindM, get_self, get_files, lift, raise, ret,
    set_self.
  destruct st as [c fs]; simpl.
  destruct (fs !! json_path c) as [bytes |]; [| discriminate].
  destruct (read_document bytes) as [full | e]; [| discriminate]. simpl.
  destruct (py_get full (str "d") (VDict [])) as [d |]; [| discriminate].
  destruct (py_get d (str "results") (VList [])) as [data' |]; [| discriminate].
  intros H; inversion H; subst data'.
  destruct (truthy data); simpl; [| reflexivity].
  destruct (py_iter data) as [orgs |]; [| reflexivity].
  destruct (split_loop ([], []) orgs) as [lists |]; [| reflexivity].
  destruct (_extract_schema (fst lists)) as [os |]; [| reflexivity]. simpl.
  destruct (_extract_schema (snd lists)) as [cs |]; reflexivity.
Qed.

Lemma load_json_unresolved (st : state) :
  d_results st = None ->
  _load_json st =
    (Err match files st !! json_path (self st) with
         | None => NotFoundError (json_path (self st))
         | Some bytes =>
             match read_document bytes with
             | Err JSONDecodeError => ParseError (json_path (self st))
             | Err e => e
             | Ok _ => AttributeError
             end
         end, st).
Proof.
  unfold d_results, _load_json, read_json, bindM, get_self, get_files, lift, raise, ret.
  destruct st as [c fs]; simpl.
  destruct (fs !! json_path c) as [bytes |]; [| reflexivity].
  destruct (read_document bytes) as [full | e]; simpl; [| destruct e; reflexivity].
  destruct full; simpl; try reflexivity.
  destruct (dict_get (str "d") d) as [x |]; simpl; [| discriminate].
  destruct x; simpl; try reflexivity; discriminate.
Qed.

(** The loader changes neither the files nor the paths of the object. *)
Lemma load_json_frame (st st' : state) (r : result unit) :
  _load_json st = (r, st') ->
  files st' = files st
  /\ json_path (self st') = json_path (self st)
  /\ mdb_path (self st') = mdb_path (self st)
  /\ template_path (self st') = template_path (self st).
Proof.
  destruct (d_results st) as [data |] eqn:Hd.
  - rewrite (load_json_run st data Hd).
    destruct (negb (truthy data)); [intros H; inversion H; subst; auto |].
    destruct (py_iter data); [| intros H; inversion H; subst; auto].
    destruct (split_loop _ _); [| intros H; inversion H; subst; auto].
    destruct (_extract_schema (fst _)); [| intros H; inversion H; subst; auto].
    destruct (_extract_schema (snd _)); intros H; inversion H; subst; auto.
  - rewrite (load_json_unresolved st Hd); intros H; inversion H; subst; auto.
Qed.

(** ** C8: inference is deterministic *)

(** C8. The order of the columns is the first-encounter order of the keys
    of the records, so two record lists with the same keys in the same
    order, record by record, get the same columns in the same order; and
    what the loader leaves in the object depends on the input file alone,
    not on what the object held before: two runs on the same file end
    alike, with identical schemas and records. *)
Theorem schema_inference_deterministic :
  (forall ds, exists sch,
      _extract_schema (map VDict ds) = Ok sch /\ keys sch = column_order ds)
  /\ (forall ds1 ds2, map keys ds1 = map keys ds2 ->
      exists s1 s2,
        _extract_schema (map VDict ds1) = Ok s1
        /\ _extract_schema (map VDict ds2) = Ok s2
        /\ keys s1 = keys s2)
  /\ (forall st1 st2,
        json_path (self st1) = json_path (self st2) ->
        files st1 = files st2 ->
        fst (_load_json st1) = fst (_load_json st2)
        /\ (fst (_load_json st1) = Ok tt ->
            org_schema (self (snd (_load_json st1))) = org_schema (self (snd (_load_json st2)))
            /\ comm_schema (self (snd (_load_json st1)))
               = comm_schema (self (snd (_load_json st2)))
            /\ org_records (self (snd (_load_json st1)))
               = org_records (self (snd (_load_json st2)))
            /\ comm_records (self (snd (_load_json st1)))
               = comm_records (self (snd (_load_json st2))))).
Proof.
  split; [exact extract_schema_column_order |]. split.
  - intros ds1 ds2 Hk.
    destruct (extract_schema_column_order ds1) as (s1 & H1 & K1).
    destruct (extract_schema_column_order ds2) as (s2 & H2 & K2).
    exists s1, s2. split; [exact H1 |]. split; [exact H2 |].
    rewrite K1, K2. unfold column_order. rewrite Hk. reflexivity.
  - intros st1 st2 Hp Hf.
    assert (Hd : d_results st1 = d_results st2).
    { unfold d_results. rewrite Hp, Hf. reflexivity. }
    destruct (d_results st2) as [data |] eqn:Hd2.
    + rewrite (load_json_run st1 data Hd), (load_json_run st2 data Hd2).
      destruct (negb (truthy data)); [split; [reflexivity | discriminate] |].
      destruct (py_iter data); [| split; [reflexivity | discriminate]].
      destruct (split_loop _ _); [| split; [reflexivity | discriminate]].
      destruct (_extract_schema (fst _)); [| split; [reflexivity | discriminate]].
      destruct (_extract_schema (snd _)); [| split; [reflexivity | discriminate]].
      simpl. auto.
    + rewrite (load_json_unresolved st1 Hd), (load_json_unresolved st2 Hd2); simpl.
      rewrite Hp, Hf. split; [reflexivity | discriminate].
Qed.

(** ** The loop of the loader *)

Lemma strip_children_get (r : dict value) (k : pystr) :
  dict_get k (strip_children r)
  = if decide (k = str "Communications") then None else dict_get k r.
Proof.
  unfold strip_children. induction r as [| [k0 v0] r IH]; simpl.
  - destruct (decide _); reflexivity.
  - destruct (decide (k0 = str "Communications")) as [-> | Hne].
    + rewrite bool_decide_eq_true_2 by reflexivity; simpl. rewrite IH.
      destruct (decide (k = str "Communications")); reflexivity.
    + rewrite bool_decide_eq_false_2 by exact Hne; simpl. rewrite IH.
      destruct (decide (k = k0)) as [-> | ?]; [| reflexivity].
      rewrite decide_False by exact Hne. reflexivity.
Qed.

Lemma strip_children_keys (r : dict value) :
  keys (strip_children r)
  = List.filter (fun k => negb (bool_decide (k = str "Communications"))) (keys r).
Proof.
  unfold strip_children, keys. induction r as [| [k0 v0] r IH]; simpl; [reflexivity |].
  destruct (bool_decide (k0 = str "Communications")); simpl; rewrite IH; reflexivity.
Qed.

Lemma split_step_fst (acc lists : list value * list value) (r : dict value) :
  split_step acc (VDict r) = Ok lists ->
  fst lists = fst acc ++ [VDict (strip_children r)].
Proof.
  unfold split_step; simpl. fold (strip_children r).
  destruct (dict_get (str "Communications") r) as [comms |].
  - destruct (py_contains (str "results") comms) as [[] |]; simpl; try discriminate.
    + destruct (py_getitem comms (str "results")) as [res |]; simpl; [| discriminate].
      destruct (py_iter res); simpl; [| discriminate].
      intros H; inversion H; reflexivity.
    + intros H; inversion H; reflexivity.
  - intros H; inversion H; reflexivity.
Qed.

Lemma split_loop_fst (ds : list (dict value)) (acc lists : list value * list value) :
  split_loop acc (map VDict ds) = Ok lists ->
  fst lists = fst acc ++ map (fun r => VDict (strip_children r)) ds.
Proof.
  revert acc; induction ds as [| r ds IH]; intros acc; simpl.
  - intros H; inversion H; rewrite app_nil_r; reflexivity.
  - destruct (split_step acc (VDict r)) as [acc' |] eqn:Hs; simpl; [| discriminate].
    intros H. rewrite (IH _ H), (split_step_fst _ _ _ Hs), <- app_assoc. reflexivity.
Qed.

Lemma split_step_nested (acc : list value * list value) (r : dict value) :
  nested r = true ->
  split_step acc (VDict r)
  = Ok (fst acc ++ [VDict (strip_children r)], snd acc ++ children r).
Proof.
  unfold nested, children, split_step; simpl. fold (strip_children r).
  destruct (dict_get (str "Communications") r) as [comms |];
    [| rewrite app_nil_r; reflexivity].
  destruct comms; try discriminate. simpl. unfold dict_in.
  destruct (dict_get (str "results") d) as [res |]; simpl;
    [| rewrite app_nil_r; reflexivity].
  destruct res; try discriminate. reflexivity.
Qed.

Lemma split_loop_nested (ds : list (dict value)) (acc : list value * list value) :
  forallb nested ds = true ->
  split_loop acc (map VDict ds)
  = Ok (fst acc ++ map (fun r => VDict (strip_children r)) ds,
        snd acc ++ concat (map children ds)).
Proof.
  revert acc; induction ds as [| r ds IH]; intros acc; simpl.
  - intros _. rewrite !app_nil_r. destruct acc; reflexivity.
  - intros H; apply andb_prop in H; destruct H as [Hr Hds].
    rewrite (split_step_nested acc r Hr); simpl.
    rewrite (IH _ Hds); simpl. rewrite <- !app_assoc. reflexivity.
Qed.

Lemma shaped_all_nested (ds : list (dict value)) :
  forallb shaped ds = true -> forallb nested ds = true.
Proof.
  induction ds as [| r ds IH]; [reflexivity |]. cbn [forallb]. intros H.
  apply andb_prop in H. destruct H as [Hr Hds]. rewrite (IH Hds), andb_true_r.
  unfold shaped in Hr. apply andb_prop in Hr. apply Hr.
Qed.

Lemma all_dicts (l : list value) :
  forallb is_dict l = true -> exists cs, l = map VDict cs.
Proof.
  induction l as [| v l IH]; simpl.
  - exists []; reflexivity.
  - intros H; apply andb_prop in H; destruct H as [Hv Hl].
    destruct (IH Hl) as [cs ->]. destruct v; try discriminate.
    exists (d :: cs); reflexivity.
Qed.

Lemma shaped_children_dicts (ds : list (dict value)) :
  forallb shaped ds = true -> exists cs, concat (map children ds) = map VDict cs.
Proof.
  induction ds as [| r ds IH]; simpl.
  - exists []; reflexivity.
  - intros H; apply andb_prop in H; destruct H as [Hr Hds].
    destruct (IH Hds) as [cs Hcs]. rewrite Hcs.
    unfold shaped in Hr. apply andb_prop in Hr. destruct Hr as [_ Hr].
    destruct (all_dicts _ Hr) as [c ->]. exists (c ++ cs). rewrite map_app; reflexivity.
Qed.

Lemma extract_schema_dicts (ds : list (dict value)) :
  exists sch, _extract_schema (map VDict ds) = Ok sch.
Proof. destruct (extract_schema_column_order ds) as (sch & H & _); eauto. Qed.

(** ** C6: parents and children *)

(** C6. When [d.results] is a non-empty list of objects of the documented
    shape, the loader returns; the parent records are the top-level
    records in their order, each without its [Communications] field and
    with every other field and the order of the fields as they were; the
    child records are the elements of the [Communications.results] arrays,
    as they are and in their order, parent after parent; the files are
    untouched.  The loop itself takes the elements of a [results] array
    whatever they are: it does not look at them. *)
Theorem loader_splits_records (st : state) (ds : list (dict value)) :
  d_results st = Some (VList (map VDict ds)) ->
  ds <> [] ->
  forallb shaped ds = true ->
  exists st',
    _load_json st = (Ok tt, st')
    /\ org_records (self st') = map (fun r => VDict (strip_children r)) ds
    /\ comm_records (self st') = concat (map children ds)
    /\ files st' = files st
    /\ (forall r k,
          dict_get k (strip_children r)
          = if decide (k = str "Communications") then None else dict_get k r)
    /\ (forall r,
          keys (strip_children r)
          = List.filter (fun k => negb (bool_decide (k = str "Communications"))) (keys r))
    /\ (forall acc rs, forallb nested rs = true ->
          split_loop acc (map VDict rs)
          = Ok (fst acc ++ map (fun r => VDict (strip_children r)) rs,
                snd acc ++ concat (map children rs))).
Proof.
  intros Hd Hne Hsh.
  rewrite (load_json_run st _ Hd).
  destruct ds as [| r0 ds0]; [congruence |].
  change (negb (truthy (VList (map VDict (r0 :: ds0))))) with false. cbv iota.
  change (py_iter (VList (map VDict (r0 :: ds0)))) with (Ok (map VDict (r0 :: ds0))).
  cbv iota. rewrite (split_loop_nested (r0 :: ds0) ([], []) (shaped_all_nested _ Hsh)).
  cbn [fst snd app].
  destruct (extract_schema_dicts (map strip_children (r0 :: ds0))) as [os Hos].
  rewrite map_map in Hos. rewrite Hos.
  destruct (shaped_children_dicts (r0 :: ds0) Hsh) as [cs Hcs].
  destruct (extract_schema_dicts cs) as [csch Hcsch].
  rewrite Hcs, Hcsch.
  eexists; split; [reflexivity |]. simpl.
  split; [reflexivity |]. split; [reflexivity |]. split; [reflexivity |].
  split; [exact strip_children_get |]. split; [exact strip_children_keys |].
  intros acc rs Hrs. apply split_loop_nested. exact Hrs.
Qed.

Lemma loader_splits_records_witness :
  let st := run_on (Some scenario_text) (Some "blank.mdb"%string) None in
  d_results st = Some (VList (map VDict scenario_parents))
  /\ scenario_parents <> []
  /\ forallb shaped scenario_parents = true
  /\ exists st',
       _load_json st = (Ok tt, st')
       /\ org_records (self st')
          = [VDict [(str "Id", VInt 1); (str "Name", VStr (str "Acme"))]]
       /\ comm_records (self st')
          = [VDict [(str "OrgId", VInt 1); (str "Type", VStr (str "email"))]]
       /\ files st' = files st.
Proof.
  assert (H1 : d_results (run_on (Some scenario_text) (Some "blank.mdb"%string) None)
               = Some (VList (map VDict scenario_parents))) by (vm_compute; reflexivity).
  assert (H2 : scenario_parents <> []) by discriminate.
  assert (H3 : forallb shaped scenario_parents = true) by reflexivity.
  split; [exact H1 |]. split; [exact H2 |]. split; [exact H3 |].
  destruct (loader_splits_records _ _ H1 H2 H3) as (st' & Hrun & Ho & Hc & Hf & _).
  exists st'. split; [exact Hrun |]. split; [exact Ho |]. split; [exact Hc | exact Hf].
Defined.

(** ** C5: the number of columns *)

Lemma first_seen_elem (seen ks : list pystr) (x : pystr) :
  x ∈ first_seen seen ks <-> x ∈ ks /\ x ∉ seen.
Proof.
  revert seen; induction ks as [| k ks IH]; intros seen; simpl.
  - split; [intros H; inversion H | intros [H _]; inversion H].
  - destruct (decide (k ∈ seen)) as [Hin | Hout].
    + rewrite IH, elem_of_cons. split; [intros [? ?]; auto |].
      intros [[-> | ?] ?]; [contradiction | auto].
    + rewrite !elem_of_cons, IH, elem_of_app, list_elem_of_singleton.
      split.
      * intros [-> | [? ?]]; [auto | split; auto].
      * intros [[-> | ?] ?]; [auto |].
        destruct (decide (x = k)) as [-> | ?]; [auto |]. right. split; [auto |].
        intros [? | ?]; contradiction.
Qed.

Lemma first_seen_NoDup (seen ks : list pystr) : NoDup (first_seen seen ks).
Proof.
  revert seen; induction ks as [| k ks IH]; intros seen; simpl.
  - constructor.
  - destruct (decide (k ∈ seen)); [apply IH |].
    constructor; [| apply IH].
    rewrite first_seen_elem, elem_of_app, list_elem_of_singleton. intros [_ H]. auto.
Qed.

Lemma elem_of_filter_bool {A} (p : A -> bool) (l : list A) (x : A) :
  x ∈ List.filter p l <-> x ∈ l /\ p x = true.
Proof. rewrite !list_elem_of_In. apply filter_In. Qed.

Lemma elem_of_concat_keys (ds : list (dict value)) (x : pystr) :
  x ∈ concat (map keys ds) <-> exists r, r ∈ ds /\ x ∈ keys r.
Proof.
  rewrite list_elem_of_In, in_concat. split.
  - intros (l & Hl & Hx). apply in_map_iff in Hl. destruct Hl as (r & <- & Hr).
    exists r. rewrite !list_elem_of_In. auto.
  - intros (r & Hr & Hx). exists (keys r). rewrite <- !list_elem_of_In.
    split; [| exact Hx]. apply list_elem_of_In, in_map, list_elem_of_In, Hr.
Qed.

Lemma column_order_stripped (ds : list (dict value)) :
  list_to_set (column_order (map strip_children ds))
  = distinct_keys ds ∖ ({[str "Communications"; str "__metadata"]} : gset pystr).
Proof.
  apply set_eq; intros x. unfold column_order, distinct_keys.
  rewrite elem_of_list_to_set, first_seen_elem, elem_of_filter_bool, elem_of_difference,
    elem_of_list_to_set, !elem_of_concat_keys, elem_of_union, !elem_of_singleton.
  unfold not_metadata. split.
  - intros [[(r & Hr & Hx) Hm] _].
    apply list_elem_of_In, in_map_iff in Hr. destruct Hr as (r0 & <- & Hr0).
    rewrite strip_children_keys, elem_of_filter_bool in Hx. destruct Hx as [Hx Hc].
    apply negb_true_iff, bool_decide_eq_false in Hc, Hm.
    split; [exists r0; rewrite list_elem_of_In; auto | intros [? | ?]; contradiction].
  - intros [(r & Hr & Hx) Hno].
    split; [| intros H; inversion H]. split.
    + exists (strip_children r). split.
      * apply list_elem_of_In, in_map, list_elem_of_In, Hr.
      * rewrite strip_children_keys, elem_of_filter_bool. split; [exact Hx |].
        apply negb_true_iff, bool_decide_eq_false. auto.
    + apply negb_true_iff, bool_decide_eq_false. auto.
Qed.

(** C5. After a load that returns, from a file whose [d.results] is the
    list [ds] of objects (a list that is then not empty), the parent
    schema has as many columns as [ds] has distinct keys other than
    [Communications] and [__metadata]; that is two less than the number
    of distinct keys when both occur in [ds]. *)
Theorem parent_schema_column_count (st st' : state) (ds : list (dict value)) :
  d_results st = Some (VList (map VDict ds)) ->
  _load_json st = (Ok tt, st') ->
  ds <> []
  /\ length (org_schema (self st'))
     = size (distinct_keys ds ∖ ({[str "Communications"; str "__metadata"]} : gset pystr))
  /\ (str "Communications" ∈ distinct_keys ds -> str "__metadata" ∈ distinct_keys ds ->
      length (org_schema (self st')) = (size (distinct_keys ds) - 2)%nat).
Proof.
  intros Hd. rewrite (load_json_run st _ Hd).
  destruct ds as [| r0 ds0]; [discriminate |].
  change (negb (truthy (VList (map VDict (r0 :: ds0))))) with false. cbv iota.
  change (py_iter (VList (map VDict (r0 :: ds0)))) with (Ok (map VDict (r0 :: ds0))).
  cbv iota.
  destruct (split_loop ([], []) (map VDict (r0 :: ds0))) as [lists |] eqn:Hs;
    [| discriminate].
  apply split_loop_fst in Hs. cbn [fst app] in Hs.
  destruct (extract_schema_column_order (map strip_children (r0 :: ds0)))
    as (sch & Hsch & Hkeys).
  rewrite map_map in Hsch. rewrite Hs, Hsch.
  destruct (_extract_schema (snd lists)) as [cs |]; [| discriminate].
  intros H; inversion H; subst st'; clear H. simpl.
  assert (Hlen : length sch
    = size (distinct_keys (r0 :: ds0)
            ∖ ({[str "Communications"; str "__metadata"]} : gset pystr))).
  { rewrite <- column_order_stripped, <- Hkeys.
    rewrite size_list_to_set by (rewrite Hkeys; apply first_seen_NoDup).
    unfold keys; rewrite length_map; reflexivity. }
  split; [discriminate |]. split; [exact Hlen |].
  intros Hc Hm. rewrite Hlen, size_difference.
  - rewrite size_union, !size_singleton; [reflexivity |].
    apply disjoint_singleton_l. rewrite elem_of_singleton. discriminate.
  - intros x. rewrite elem_of_union, !elem_of_singleton. intros [-> | ->]; assumption.
Qed.

Lemma parent_schema_column_count_witness :
  let st := run_on (Some scenario_text) (Some "blank.mdb"%string) None in
  d_results st = Some (VList (map VDict scenario_parents))
  /\ _load_json st = (Ok tt, snd (_load_json st))
  /\ scenario_parents <> []
  /\ length (org_schema (self (snd (_load_json st))))
     = size (distinct_keys scenario_parents
             ∖ ({[str "Communications"; str "__metadata"]} : gset pystr))
  /\ (str "Communications" ∈ distinct_keys scenario_parents ->
      str "__metadata" ∈ distinct_keys scenario_parents ->
      length (org_schema (self (snd (_load_json st))))
      = (size (distinct_keys scenario_parents) - 2)%nat).
Proof.
  assert (H1 : d_results (run_on (Some scenario_text) (Some "blank.mdb"%string) None)
               = Some (VList (map VDict scenario_parents))) by (vm_compute; reflexivity).
  assert (H2 : _load_json (run_on (Some scenario_text) (Some "blank.mdb"%string) None)
               = (Ok tt, snd (_load_json (run_on (Some scenario_text)
                                            (Some "blank.mdb"%string) None))))
    by (vm_compute; reflexivity).
  split; [exact H1 |]. split; [exact H2 |].
  exact (parent_schema_column_count _ _ _ H1 H2).
Defined.

(** ** The decoder as the interpreter runs it *)

Lemma array_loop_eq (b : bool) (fuel : nat) (s : pystr) :
  array_loop b (S fuel) s
  = match scan_once b fuel s with
    | None => None
    | Some (v, r) =>
        match skip_ws r with
        | c :: r1 =>
            if c =? 93 then Some ([v], r1)
            else if c =? 44 then
              match array_loop b fuel (skip_ws r1) with
              | Some (vs, r2) => Some (v :: vs, r2)
              | None => None
              end
            else None
        | [] => None
        end
    end.
Proof. reflexivity. Qed.

Lemma object_loop_eq (b : bool) (fuel : nat) (s : pystr) :
  object_loop b (S fuel) s
  = match scanstring s with
    | None => None
    | Some (k, r) =>
        match skip_ws r with
        | c :: r1 =>
            if c =? 58 then
              match scan_once b fuel (skip_ws r1) with
              | None => None
              | Some (v, r2) =>
                  match skip_ws r2 with
                  | c2 :: r3 =>
                      if c2 =? 125 then Some ([(k, v)], r3)
                      else if c2 =? 44 then
                        match skip_ws r3 with
                        | c3 :: r4 =>
                            if c3 =? 34 then
                              match object_loop b fuel r4 with
                              | Some (kvs, r5) => Some ((k, v) :: kvs, r5)
                              | None => None
                              end
                            else None
                        | [] => None
                        end
                      else None
                  | [] => None
                  end
              end
            else None
        | [] => None
        end
    end.
Proof. reflexivity. Qed.

(** But for the literals with too many digits, the decoder with the
    limit of [int] is the decoder without it. *)
Lemma scan_checked_rel (fuel : nat) :
  (forall s, scan_checked fuel s = TooManyDigits
             \/ scan_checked fuel s = to_outcome (scan_once true fuel s))
  /\ (forall s, array_checked fuel s = TooManyDigits
                \/ array_checked fuel s = to_outcome (array_loop true fuel s))
  /\ (forall s, object_checked fuel s = TooManyDigits
                \/ object_checked fuel s = to_outcome (object_loop true fuel s)).
Proof.
  induction fuel as [| fuel (IHs & IHa & IHo)];
    [repeat split; intros s; right; reflexivity |].
  split; [| split].
  - intros s. destruct s as [| c s1]; [right; reflexivity |].
    cbn [scan_checked scan_once].
    destruct (c =? 34).
    { right. destruct (scanstring s1) as [[t r] |]; reflexivity. }
    destruct (c =? 123).
    { destruct (skip_ws s1) as [| c2 s2]; [right; reflexivity |].
      destruct (c2 =? 125); [right; reflexivity |].
      destruct (c2 =? 34); [| right; reflexivity].
      destruct (IHo s2) as [-> | ->]; [left; reflexivity |]. right.
      destruct (object_loop true fuel s2) as [[pairs r] |]; reflexivity. }
    destruct (c =? 91).
    { destruct (skip_ws s1) as [| c2 s2]; [right; reflexivity |].
      destruct (c2 =? 93); [right; reflexivity |].
      destruct (IHa (c2 :: s2)) as [-> | ->]; [left; reflexivity |]. right.
      destruct (array_loop true fuel (c2 :: s2)) as [[vs r] |]; reflexivity. }
    destruct (starts_with (str "null") (c :: s1)); [right; reflexivity |].
    destruct (starts_with (str "true") (c :: s1)); [right; reflexivity |].
    destruct (starts_with (str "false") (c :: s1)); [right; reflexivity |].
    unfold scan_number_checked.
    destruct (scan_number (c :: s1)) as [[v r] |].
    + destruct v; try (right; reflexivity).
      destruct (int_max_str_digits <? int_part_digits (c :: s1))%nat;
        [left; reflexivity | right; reflexivity].
    + right.
      destruct (starts_with (str "NaN") (c :: s1)); [reflexivity |].
      destruct (starts_with (str "Infinity") (c :: s1)); [reflexivity |].
      destruct (starts_with (str "-Infinity") (c :: s1)); reflexivity.
  - intros s. cbn [array_checked]. rewrite array_loop_eq.
    destruct (IHs s) as [-> | ->]; [left; reflexivity |].
    destruct (scan_once true fuel s) as [[v r] |]; [| right; reflexivity].
    cbn [to_outcome].
    destruct (skip_ws r) as [| c r1]; [right; reflexivity |].
    destruct (c =? 93); [right; reflexivity |].
    destruct (c =? 44); [| right; reflexivity].
    destruct (IHa (skip_ws r1)) as [-> | ->]; [left; reflexivity |]. right.
    destruct (array_loop true fuel (skip_ws r1)) as [[vs r2] |]; reflexivity.
  - intros s. cbn [object_checked]. rewrite object_loop_eq.
    destruct (scanstring s) as [[k r] |]; [| right; reflexivity].
    destruct (skip_ws r) as [| c r1]; [right; reflexivity |].
    destruct (c =? 58); [| right; reflexivity].
    destruct (IHs (skip_ws r1)) as [-> | ->]; [left; reflexivity |].
    destruct (scan_once true fuel (skip_ws r1)) as [[v r2] |]; [| right; reflexivity].
    cbn [to_outcome].
    destruct (skip_ws r2) as [| c2 r3]; [right; reflexivity |].
    destruct (c2 =? 125); [right; reflexivity |].
    destruct (c2 =? 44); [| right; reflexivity].
    destruct (skip_ws r3) as [| c3 r4]; [right; reflexivity |].
    destruct (c3 =? 34); [| right; reflexivity].
    destruct (IHo r4) as [-> | ->]; [left; reflexivity |]. right.
    destruct (object_loop true fuel r4) as [[kvs r5] |]; reflexivity.
Qed.

(** What [json.load] returns, [loads] returns; what it rejects as no
    JSON, [loads] rejects. *)
Lemma json_load_loads (text : pystr) :
  match json_load text with
  | Ok v => loads text = Some v
  | Err JSONDecodeError => loads text = None
  | Err _ => True
  end.
Proof.
  unfold json_load, loads, decode. destruct (starts_with_bom text); [reflexivity |].
  destruct (scan_checked_rel (2 * length text + 2)) as (Hs & _ & _).
  destruct (Hs (skip_ws text)) as [-> | ->]; [exact I |].
  destruct (scan_once true (2 * length text + 2) (skip_ws text)) as [[v r] |];
    cbn [to_outcome]; [| reflexivity].
  destruct (skip_ws r); reflexivity.
Qed.

(** A text of the JSON grammar is a text the library reads. *)
Lemma scan_allow_nan (fuel : nat) :
  (forall s x, scan_once false fuel s = Some x -> scan_once true fuel s = Some x)
  /\ (forall s x, array_loop false fuel s = Some x -> array_loop true fuel s = Some x)
  /\ (forall s x, object_loop false fuel s = Some x -> object_loop true fuel s = Some x).
Proof.
  induction fuel as [| fuel (IHs & IHa & IHo)]; [repeat split; discriminate |].
  split; [| split].
  - intros s x. destruct s as [| c s1]; [discriminate |]. cbn [scan_once].
    destruct (c =? 34); [exact (fun H => H) |].
    destruct (c =? 123).
    { destruct (skip_ws s1) as [| c2 s2]; [discriminate |].
      destruct (c2 =? 125); [exact (fun H => H) |].
      destruct (c2 =? 34); [| discriminate].
      destruct (object_loop false fuel s2) as [[pairs r] |] eqn:Ho; [| discriminate].
      rewrite (IHo _ _ Ho). exact (fun H => H). }
    destruct (c =? 91).
    { destruct (skip_ws s1) as [| c2 s2]; [discriminate |].
      destruct (c2 =? 93); [exact (fun H => H) |].
      destruct (array_loop false fuel (c2 :: s2)) as [[vs r] |] eqn:Ha; [| discriminate].
      rewrite (IHa _ _ Ha). exact (fun H => H). }
    destruct (starts_with (str "null") (c :: s1)); [exact (fun H => H) |].
    destruct (starts_with (str "true") (c :: s1)); [exact (fun H => H) |].
    destruct (starts_with (str "false") (c :: s1)); [exact (fun H => H) |].
    destruct (scan_number (c :: s1)); [exact (fun H => H) | discriminate].
  - intros s x. rewrite !array_loop_eq.
    destruct (scan_once false fuel s) as [[v r] |] eqn:Hs; [| discriminate].
    rewrite (IHs _ _ Hs).
    destruct (skip_ws r) as [| c r1]; [discriminate |].
    destruct (c =? 93); [exact (fun H => H) |].
    destruct (c =? 44); [| discriminate].
    destruct (array_loop false fuel (skip_ws r1)) as [[vs r2] |] eqn:Ha; [| discriminate].
    rewrite (IHa _ _ Ha). exact (fun H => H).
  - intros s x. rewrite !object_loop_eq.
    destruct (scanstring s) as [[k r] |]; [| discriminate].
    destruct (skip_ws r) as [| c r1]; [discriminate |].
    destruct (c =? 58); [| discriminate].
    destruct (scan_once false fuel (skip_ws r1)) as [[v r2] |] eqn:Hs; [| discriminate].
    rewrite (IHs _ _ Hs).
    destruct (skip_ws r2) as [| c2 r3]; [discriminate |].
    destruct (c2 =? 125); [exact (fun H => H) |].
    destruct (c2 =? 44); [| discriminate].
    destruct (skip_ws r3) as [| c3 r4]; [discriminate |].
    destruct (c3 =? 34); [| discriminate].
    destruct (object_loop false fuel r4) as [[kvs r5] |] eqn:Ho; [| discriminate].
    rewrite (IHo _ _ Ho). exact (fun H => H).
Qed.

Lemma loads_rejects_invalid (text : pystr) :
  loads text = None -> valid_json text = false.
Proof.
  unfold loads, valid_json, decode. destruct (starts_with_bom text); [reflexivity |].
  destruct (scan_allow_nan (2 * length text + 2)) as (Hs & _ & _).
  destruct (scan_once false (2 * length text + 2) (skip_ws text)) as [[v r] |] eqn:Hf;
    [| reflexivity].
  rewrite (Hs _ _ Hf). destruct (skip_ws r); [discriminate | reflexivity].
Qed.

(** ** C4: the errors of the loader *)

Lemma convert_load_fails (driver : odbc) (st st' : state) (e : exn) :
  _load_json st = (Err e, st') -> convert driver st = (Err e, st').
Proof. intros H. unfold convert, bindM. rewrite H. reflexivity. Qed.

(** C4, as the code has it.  The loader raises the not-found error when
    the input file is absent, and the parse error when [json.load] raises
    [JSONDecodeError] on its text, which is then outside the JSON
    grammar.  What else the reading raises it does not catch: the
    [UnicodeDecodeError] of a file that is not UTF-8 and the [ValueError]
    of an integer literal with more digits than [int] takes.  It raises
    the missing-data error when the document and its member [d] are
    objects (an absent member counting as empty) and [results] is an
    empty array or another false value.  A run whose load raises ends
    there with the same error and with the files as they were; so does
    the run on the document with the empty [results]. *)
Theorem loader_errors (driver : odbc) (st : state) :
  (files st !! json_path (self st) = None ->
   _load_json st = (Err (NotFoundError (json_path (self st))), st))
  /\ (forall bytes text,
        files st !! json_path (self st) = Some bytes ->
        read_text bytes = Some text -> json_load text = Err JSONDecodeError ->
        _load_json st = (Err (ParseError (json_path (self st))), st)
        /\ valid_json text = false)
  /\ (forall bytes,
        files st !! json_path (self st) = Some bytes -> read_text bytes = None ->
        _load_json st = (Err UnicodeDecodeError, st))
  /\ (forall bytes text,
        files st !! json_path (self st) = Some bytes ->
        read_text bytes = Some text -> json_load text = Err ValueError ->
        _load_json st = (Err ValueError, st))
  /\ (forall data, d_results st = Some data -> truthy data = false ->
      _load_json st = (Err MissingDataError, st))
  /\ (forall e st', _load_json st = (Err e, st') ->
      convert driver st = (Err e, st') /\ files st' = files st)
  /\ (files st !! json_path (self st) = Some (qstr "{'d':{'results':[]}}") ->
      convert driver st = (Err MissingDataError, st)).
Proof.
  assert (Hfail : forall bytes e,
            files st !! json_path (self st) = Some bytes ->
            read_document bytes = Err e ->
            _load_json st
            = (Err match e with
                   | JSONDecodeError => ParseError (json_path (self st))
                   | other => other
                   end, st)).
  { intros bytes e Hf He. rewrite load_json_unresolved.
    - rewrite Hf, He. destruct e; reflexivity.
    - unfold d_results. rewrite Hf, He. reflexivity. }
  split; [| split; [| split; [| split; [| split; [| split]]]]].
  - intros Hf. rewrite load_json_unresolved.
    + rewrite Hf; reflexivity.
    + unfold d_results; rewrite Hf; reflexivity.
  - intros bytes text Hf Ht Hl. split.
    + apply (Hfail bytes JSONDecodeError Hf). unfold read_document. rewrite Ht. exact Hl.
    + apply loads_rejects_invalid. pose proof (json_load_loads text) as H.
      rewrite Hl in H. exact H.
  - intros bytes Hf Ht. apply (Hfail bytes UnicodeDecodeError Hf).
    unfold read_document. rewrite Ht. reflexivity.
  - intros bytes text Hf Ht Hl. apply (Hfail bytes ValueError Hf).
    unfold read_document. rewrite Ht. exact Hl.
  - intros data Hd Ht. rewrite (load_json_run st data Hd), Ht. reflexivity.
  - intros e st' H. split; [apply convert_load_fails; exact H |].
    apply (load_json_frame _ _ _ H).
  - intros Hf. apply convert_load_fails.
    assert (Hd : d_results st = Some (VList [])).
    { unfold d_results. rewrite Hf. vm_compute. reflexivity. }
    rewrite (load_json_run st _ Hd). reflexivity.
Qed.

Lemma loader_errors_witness :
  convert sample_driver (run_on None (Some "blank.mdb"%string) (Some (str "old")))
  = (Err (NotFoundError "in.json"),
     run_on None (Some "blank.mdb"%string) (Some (str "old")))
  /\ convert sample_driver
       (run_on (Some (qstr "{'d':")) (Some "blank.mdb"%string) (Some (str "old")))
     = (Err (ParseError "in.json"),
        run_on (Some (qstr "{'d':")) (Some "blank.mdb"%string) (Some (str "old")))
  /\ convert sample_driver
       (run_on (Some [123; 34; 100; 34; 58; 34; 233; 34; 125]) (Some "blank.mdb"%string)
          (Some (str "old")))
     = (Err UnicodeDecodeError,
        run_on (Some [123; 34; 100; 34; 58; 34; 233; 34; 125]) (Some "blank.mdb"%string)
          (Some (str "old")))
  /\ convert sample_driver
       (run_on (Some (repeat 49 4301)) (Some "blank.mdb"%string) (Some (str "old")))
     = (Err ValueError,
        run_on (Some (repeat 49 4301)) (Some "blank.mdb"%string) (Some (str "old")))
  /\ convert sample_driver
       (run_on (Some (qstr "{'d':{'results':[]}}")) (Some "blank.mdb"%string)
          (Some (str "old")))
     = (Err MissingDataError,
        run_on (Some (qstr "{'d':{'results':[]}}")) (Some "blank.mdb"%string)
          (Some (str "old"))).
Proof.
  split; [| split; [| split; [| split]]].
  - destruct (loader_errors sample_driver
                (run_on None (Some "blank.mdb"%string) (Some (str "old"))))
      as (H1 & _ & _ & _ & _ & H6 & _).
    apply H6, H1. vm_compute; reflexivity.
  - destruct (loader_errors sample_driver
                (run_on (Some (qstr "{'d':")) (Some "blank.mdb"%string) (Some (str "old"))))
      as (_ & H2 & _ & _ & _ & H6 & _).
    apply H6, (H2 (qstr "{'d':") (qstr "{'d':")); vm_compute; reflexivity.
  - destruct (loader_errors sample_driver
                (run_on (Some [123; 34; 100; 34; 58; 34; 233; 34; 125])
                   (Some "blank.mdb"%string) (Some (str "old"))))
      as (_ & _ & H3 & _ & _ & H6 & _).
    apply H6, (H3 [123; 34; 100; 34; 58; 34; 233; 34; 125]); vm_compute; reflexivity.
  - destruct (loader_errors sample_driver
                (run_on (Some (repeat 49 4301)) (Some "blank.mdb"%string)
                   (Some (str "old"))))
      as (_ & _ & _ & H4 & _ & H6 & _).
    apply H6, (H4 (repeat 49 4301) (repeat 49 4301)); vm_compute; reflexivity.
  - destruct (loader_errors sample_driver
                (run_on (Some (qstr "{'d':{'results':[]}}")) (Some "blank.mdb"%string)
                   (Some (str "old"))))
      as (_ & _ & _ & _ & _ & _ & H7).
    apply H7. vm_compute; reflexivity.
Defined.

(** C4 fails as stated: with [results] a single object, [d.results] is no
    non-empty array, the file is there and [json.load] reads it, and the
    loader raises [AttributeError], which is none of the three errors.
    Nor is the parse error raised for every input that is not well-formed
    JSON: the library reads [NaN], and the load of such a document
    returns. *)
Lemma missing_data_counterexample :
  let st := run_on (Some (qstr "{'d':{'results':{'Id':1}}}")) (Some "blank.mdb"%string) None in
  let st2 := run_on (Some (qstr "{'d':{'results':[{'a':NaN}]}}")) (Some "blank.mdb"%string)
               None in
  d_results st = Some (VDict [(str "Id", VInt 1)])
  /\ resolves_to_records st = false
  /\ _load_json st = (Err AttributeError, st)
  /\ AttributeError <> MissingDataError
  /\ AttributeError <> NotFoundError (json_path (self st))
  /\ AttributeError <> ParseError (json_path (self st))
  /\ valid_json (qstr "{'d':{'results':[{'a':NaN}]}}") = false
  /\ fst (_load_json st2) = Ok tt.
Proof.
  split; [vm_compute; reflexivity |]. split; [vm_compute; reflexivity |].
  split; [vm_compute; reflexivity |].
  split; [discriminate |]. split; [discriminate |]. split; [discriminate |].
  split; vm_compute; reflexivity.
Qed.

(** ** C9: the missing template *)

Lemma create_mdb_no_template (st : state) (old : pystr) :
  files st !! mdb_path (self st) = Some old ->
  template_given (template_path (self st)) = None ->
  _create_mdb st
  = (Err MissingTemplateError,
     mk_state (self st) (delete (mdb_path (self st)) (files st))).
Proof.
  intros Hold Ht. unfold _create_mdb, bindM, get_self, get_files, set_files, raise.
  simpl. rewrite Hold, Ht. reflexivity.
Qed.

(** C9. When the load returns, the destination file is there and no
    template path is given, the run removes the destination file and then
    raises the missing-template error: in the state it leaves, the
    destination is absent, so the files are not what they were; every
    other file is as it was. *)
Theorem missing_template_removes_destination
    (driver : odbc) (st st1 : state) (old : pystr) :
  _load_json st = (Ok tt, st1) ->
  files st !! mdb_path (self st) = Some old ->
  template_given (template_path (self st)) = None ->
  convert driver st
  = (Err MissingTemplateError,
     mk_state (self st1) (delete (mdb_path (self st)) (files st)))
  /\ files (snd (convert driver st)) !! mdb_path (self st) = None
  /\ files (snd (convert driver st)) <> files st
  /\ (forall p, p <> mdb_path (self st) ->
      files (snd (convert driver st)) !! p = files st !! p).
Proof.
  intros Hload Hold Ht.
  destruct (load_json_frame _ _ _ Hload) as (Hf & _ & Hm & Htp).
  assert (Hrun : convert driver st
    = (Err MissingTemplateError,
       mk_state (self st1) (delete (mdb_path (self st)) (files st)))).
  { unfold convert, bindM at 1. rewrite Hload. unfold bindM at 1.
    rewrite (create_mdb_no_template st1 old).
    - rewrite Hm, Hf. reflexivity.
    - rewrite Hm, Hf. exact Hold.
    - rewrite Htp. exact Ht. }
  rewrite Hrun; simpl. split; [reflexivity |]. split; [apply lookup_delete_eq |]. split.
  - intros Heq. assert (H := lookup_delete_eq (files st) (mdb_path (self st))).
    rewrite Heq, Hold in H. discriminate.
  - intros p Hp. apply lookup_delete_ne. congruence.
Qed.

Lemma missing_template_removes_destination_witness :
  let st := run_on (Some scenario_text) None (Some (str "old")) in
  _load_json st = (Ok tt, snd (_load_json st))
  /\ files st !! mdb_path (self st) = Some (str "old")
  /\ template_given (template_path (self st)) = None
  /\ fst (convert sample_driver st) = Err MissingTemplateError
  /\ files (snd (convert sample_driver st)) !! mdb_path (self st) = None
  /\ files (snd (convert sample_driver st)) <> files st.
Proof.
  assert (H1 : _load_json (run_on (Some scenario_text) None (Some (str "old")))
               = (Ok tt, snd (_load_json (run_on (Some scenario_text) None
                                            (Some (str "old"))))))
    by (vm_compute; reflexivity).
  assert (H2 : files (run_on (Some scenario_text) None (Some (str "old")))
                 !! mdb_path (self (run_on (Some scenario_text) None (Some (str "old"))))
               = Some (str "old")) by (vm_compute; reflexivity).
  assert (H3 : template_given
                 (template_path (self (run_on (Some scenario_text) None (Some (str "old")))))
               = None) by reflexivity.
  split; [exact H1 |]. split; [exact H2 |]. split; [exact H3 |].
  destruct (missing_template_removes_destination sample_driver _ _ _ H1 H2 H3)
    as (Hrun & Hgone & Hne & _).
  split; [rewrite Hrun; reflexivity |]. split; [exact Hgone | exact Hne].
Defined.

(** ** C10: the loader is not total *)

Lemma split_step_type_error (acc : list value * list value) (r : dict value)
    (comms : value) :
  dict_get (str "Communications") r = Some comms ->
  passes_membership comms = true ->
  split_step acc (VDict r) = Err TypeError.
Proof.
  intros Hc Hp. unfold split_step; simpl. rewrite Hc.
  destruct comms; try discriminate; simpl in *; rewrite Hp; reflexivity.
Qed.

Lemma split_loop_type_error (pre post : list (dict value)) (r : dict value)
    (comms : value) (acc : list value * list value) :
  forallb nested pre = true ->
  dict_get (str "Communications") r = Some comms ->
  passes_membership comms = true ->
  split_loop acc (map VDict (pre ++ r :: post)) = Err TypeError.
Proof.
  intros Hpre Hc Hp. revert acc Hpre.
  induction pre as [| r0 pre IH]; intros acc Hpre; simpl.
  - rewrite (split_step_type_error acc r comms Hc Hp). reflexivity.
  - apply andb_prop in Hpre. destruct Hpre as [H0 Hpre].
    rewrite (split_step_nested acc r0 H0); simpl. apply IH; exact Hpre.
Qed.

(** C10. When [d.results] is a list of objects in which, after parents
    the loop goes through, comes one whose [Communications] is a text that
    has [results] as a part, or a list that has the text [results] as an
    element, the loader raises [TypeError]: an exception that is none of
    the errors of the loader, raised on a well-formed input with a
    non-empty record list, with the state as it was. *)
Theorem loader_type_error (st : state) (pre post : list (dict value))
    (r : dict value) (comms : value) :
  d_results st = Some (VList (map VDict (pre ++ r :: post))) ->
  forallb nested pre = true ->
  dict_get (str "Communications") r = Some comms ->
  passes_membership comms = true ->
  resolves_to_records st = true
  /\ _load_json st = (Err TypeError, st)
  /\ TypeError <> MissingDataError
  /\ TypeError <> NotFoundError (json_path (self st))
  /\ TypeError <> ParseError (json_path (self st)).
Proof.
  intros Hd Hpre Hc Hp. split.
  { unfold resolves_to_records. rewrite Hd. destruct pre; reflexivity. }
  split; [| repeat split; discriminate].
  rewrite (load_json_run st _ Hd).
  replace (negb (truthy (VList (map VDict (pre ++ r :: post))))) with false
    by (destruct pre; reflexivity).
  cbn [py_iter]. rewrite (split_loop_type_error pre post r comms ([], []) Hpre Hc Hp).
  reflexivity.
Qed.

Lemma loader_type_error_witness :
  let st1 := run_on (Some (qstr "{'d':{'results':[{'Communications':'my results'}]}}"))
               (Some "blank.mdb"%string) None in
  let st2 := run_on (Some (qstr "{'d':{'results':[{'Id':1},{'Communications':['results']}]}}"))
               (Some "blank.mdb"%string) None in
  (resolves_to_records st1 = true /\ _load_json st1 = (Err TypeError, st1))
  /\ (resolves_to_records st2 = true /\ _load_json st2 = (Err TypeError, st2)).
Proof.
  split.
  - destruct (loader_type_error
                (run_on (Some (qstr "{'d':{'results':[{'Communications':'my results'}]}}"))
                   (Some "blank.mdb"%string) None)
                [] [] [(str "Communications", VStr (str "my results"))]
                (VStr (str "my results")))
      as (H1 & H2 & _); try (vm_compute; reflexivity).
    split; [exact H1 | exact H2].
  - destruct (loader_type_error
                (run_on (Some (qstr "{'d':{'results':[{'Id':1},{'Communications':['results']}]}}"))
                   (Some "blank.mdb"%string) None)
                [[(str "Id", VInt 1)]] []
                [(str "Communications", VList [VStr (str "results")])]
                (VList [VStr (str "results")]))
      as (H1 & H2 & _); try (vm_compute; reflexivity).
    split; [exact H1 | exact H2].
Defined.

(** ** Texts: the encoder and the decoder *)

Lemma below_32 (c : N) :
  c < 32 -> c ∈ (N.of_nat <$> seq 0 32).
Proof.
  intros H. apply list_elem_of_fmap. exists (N.to_nat c).
  split; [lia |]. apply elem_of_seq. lia.
Qed.

Lemma hex4_control (c : N) :
  c < 32 -> hex4 48 48 (hex_char (c / 16)) (hex_char (c mod 16)) = Some c.
Proof.
  intros H. apply below_32 in H. cbn in H.
  repeat (apply elem_of_cons in H; destruct H as [-> | H]; [reflexivity |]).
  inversion H.
Qed.

Lemma scanstring_low (uni : N) (s3 : pystr) :
  uni < 55296 ->
  match s3 with
  | b1 :: b2 :: y1 :: y2 :: y3 :: y4 :: s4 =>
      if (55296 <=? uni) && (uni <=? 56319) && (b1 =? 92) && (b2 =? 117) then
        match hex4 y1 y2 y3 y4 with
        | None => None
        | Some uni2 =>
            if (56320 <=? uni2) && (uni2 <=? 57343) then
              match scanstring s4 with
              | Some (t, r) =>
                  Some (65536 + N.lor (N.shiftl (uni - 55296) 10) (uni2 - 56320) :: t, r)
              | None => None
              end
            else
              match scanstring s3 with
              | Some (t, r) => Some (uni :: t, r)
              | None => None
              end
        end
      else
        match scanstring s3 with
        | Some (t, r) => Some (uni :: t, r)
        | None => None
        end
  | _ =>
      match scanstring s3 with
      | Some (t, r) => Some (uni :: t, r)
      | None => None
      end
  end
  = match scanstring s3 with
    | Some (t, r) => Some (uni :: t, r)
    | None => None
    end.
Proof.
  intros H. apply N.leb_gt in H.
  destruct s3 as [| b1 [| b2 [| y1 [| y2 [| y3 [| y4 s4]]]]]]; try reflexivity.
  rewrite H. reflexivity.
Qed.

Lemma scanstring_cons_plain (c : N) (s : pystr) :
  c <> 34 -> c <> 92 -> 32 <= c ->
  scanstring (c :: s)
  = match scanstring s with Some (t, r) => Some (c :: t, r) | None => None end.
Proof.
  intros H1 H2 H3. cbn [scanstring].
  apply N.eqb_neq in H1, H2. apply N.ltb_ge in H3. rewrite H1, H2, H3. reflexivity.
Qed.

Lemma scanstring_escape (c : N) (s : pystr) :
  scanstring (escape_char c ++ s)
  = match scanstring s with Some (t, r) => Some (c :: t, r) | None => None end.
Proof.
  unfold escape_char.
  destruct (N.eqb_spec c 34) as [-> | H34]; [reflexivity |].
  destruct (N.eqb_spec c 92) as [-> | H92]; [reflexivity |].
  destruct (N.eqb_spec c 10) as [-> | H10]; [reflexivity |].
  destruct (N.eqb_spec c 13) as [-> | H13]; [reflexivity |].
  destruct (N.eqb_spec c 9) as [-> | H9]; [reflexivity |].
  destruct (N.eqb_spec c 8) as [-> | H8]; [reflexivity |].
  destruct (N.eqb_spec c 12) as [-> | H12]; [reflexivity |].
  destruct (N.ltb_spec c 32) as [Hlt | Hge].
  - change (scanstring ([92; 117; 48; 48; hex_char (c / 16); hex_char (c mod 16)] ++ s))
      with (match hex4 48 48 (hex_char (c / 16)) (hex_char (c mod 16)) with
            | None => None
            | Some uni =>
                match s with
                | b1 :: b2 :: y1 :: y2 :: y3 :: y4 :: s4 =>
                    if (55296 <=? uni) && (uni <=? 56319) && (b1 =? 92) && (b2 =? 117) then
                      match hex4 y1 y2 y3 y4 with
                      | None => None
                      | Some uni2 =>
                          if (56320 <=? uni2) && (uni2 <=? 57343) then
                            match scanstring s4 with
                            | Some (t, r) =>
                                Some (65536 + N.lor (N.shiftl (uni - 55296) 10) (uni2 - 56320) :: t, r)
                            | None => None
                            end
                          else
                            match scanstring s with
                            | Some (t, r) => Some (uni :: t, r)
                            | None => None
                            end
                      end
                    else
                      match scanstring s with
                      | Some (t, r) => Some (uni :: t, r)
                      | None => None
                      end
                | _ =>
                    match scanstring s with
                    | Some (t, r) => Some (uni :: t, r)
                    | None => None
                    end
                end
            end).
    rewrite (hex4_control c Hlt). apply scanstring_low. lia.
  - apply scanstring_cons_plain; assumption.
Qed.

Lemma scanstring_encode (s rest : pystr) :
  scanstring (flat_map escape_char s ++ 34 :: rest) = Some (s, rest).
Proof.
  induction s as [| c s IH]; [reflexivity |].
  cbn [flat_map]. rewrite <- app_assoc, scanstring_escape, IH. reflexivity.
Qed.

(** ** Numbers: the encoder and the decoder *)

Lemma is_digit_char (d : N) : d < 10 -> is_digit (digit_char d) = true.
Proof. unfold is_digit, digit_char. intros H. apply andb_true_intro. split; apply N.leb_le; lia. Qed.

Lemma digit_char_val (d : N) : digit_char d - 48 = d.
Proof. unfold digit_char. lia. Qed.

Lemma scan_digits_chars (ds : list N) (rest : pystr) :
  Forall (fun d => d < 10) ds -> no_digit_head rest = true ->
  scan_digits (digit_chars ds ++ rest) = (ds, rest).
Proof.
  intros Hds Hrest. induction Hds as [| d ds Hd _ IH]; cbn [digit_chars map app].
  - destruct rest as [| c rest]; [reflexivity |]. cbn [no_digit_head] in Hrest.
    apply negb_true_iff in Hrest. cbn [scan_digits]. rewrite Hrest. reflexivity.
  - cbn [scan_digits]. rewrite (is_digit_char d Hd). unfold digit_chars in IH.
    rewrite IH, digit_char_val. reflexivity.
Qed.

Lemma uint_digits_lt (u : Decimal.uint) : Forall (fun d => d < 10) (uint_digits u).
Proof. induction u; simpl; constructor; try assumption; lia. Qed.

Lemma uint_digits_inv (u : Decimal.uint) : foldr digit_uint Decimal.Nil (uint_digits u) = u.
Proof. induction u; simpl; try rewrite IHu; reflexivity. Qed.

Lemma digits_value_nat (n : N) : digits_value (uint_digits (N.to_uint n)) = n.
Proof. unfold digits_value. rewrite uint_digits_inv. apply DecimalN.Unsigned.of_to. Qed.

Lemma to_uint_norm (n : N) : Decimal.unorm (N.to_uint n) = N.to_uint n.
Proof. rewrite <- DecimalN.Unsigned.to_of, DecimalN.Unsigned.of_to. reflexivity. Qed.

Lemma to_uint_zero_head (n : N) (u : Decimal.uint) :
  N.to_uint n = Decimal.D0 u -> u = Decimal.Nil.
Proof.
  intros H. pose proof (to_uint_norm n) as Hn.
  rewrite H, unorm_D0 in Hn.
  destruct u as [| u' | u' | u' | u' | u' | u' | u' | u' | u' | u']; [reflexivity | ..];
    match type of Hn with
    | Decimal.unorm ?u = _ =>
        assert (Hu : u <> Decimal.Nil) by discriminate;
        pose proof (nb_digits_unorm u Hu) as Hle; rewrite Hn in Hle; simpl in Hle; lia
    end.
Qed.

Lemma nat_repr_digits (n : N) : int_digits (uint_digits (N.to_uint n)).
Proof.
  split; [apply uint_digits_lt |].
  destruct (N.to_uint n) as [| u | u | u | u | u | u | u | u | u | u] eqn:Hu;
    simpl; try discriminate.
  - pose proof (to_uint_norm n) as Hn. rewrite Hu in Hn. discriminate.
  - intros _. rewrite (to_uint_zero_head n u Hu). reflexivity.
Qed.

Lemma scan_int_part_digits (ids : list N) (rest : pystr) :
  int_digits ids -> no_digit_head rest = true ->
  scan_int_part (digit_chars ids ++ rest) = Some (ids, rest).
Proof.
  intros [Hlt Hhd] Hrest. destruct ids as [| d ids]; [contradiction |].
  inversion Hlt as [| ? ? Hd Hlt']; subst. cbn [digit_chars map app scan_int_part].
  destruct (N.eqb_spec (digit_char d) 48) as [H0 | H0].
  - assert (d = 0) as -> by (unfold digit_char in H0; lia).
    rewrite (Hhd eq_refl). reflexivity.
  - rewrite (is_digit_char d Hd).
    pose proof (scan_digits_chars ids rest Hlt' Hrest) as Hs. unfold digit_chars in Hs.
    rewrite Hs, digit_char_val. reflexivity.
Qed.

Lemma strip_leading_zeros (k : nat) (ds : list N) (dp : Z) :
  match ds with d :: _ => d <> 0 | [] => True end ->
  strip_leading (repeat 0 k ++ ds) (dp + Z.of_nat k) = (ds, dp).
Proof.
  intros Hd. revert dp. induction k as [| k IH]; intros dp.
  - cbn [repeat app]. rewrite Z.add_0_r. destruct ds as [| d ds]; [reflexivity |].
    cbn [strip_leading]. apply N.eqb_neq in Hd. rewrite Hd. reflexivity.
  - cbn [repeat app strip_leading]. change (0 =? 0) with true. cbv iota.
    replace (dp + Z.of_nat (S k) - 1)%Z with (dp + Z.of_nat k)%Z by lia. apply IH.
Qed.

Lemma strip_zeros_repeat (k : nat) (ds : list N) :
  match ds with d :: _ => d <> 0 | [] => True end ->
  strip_zeros (repeat 0 k ++ ds) = ds.
Proof.
  intros Hd. induction k as [| k IH]; cbn [repeat app strip_zeros].
  - destruct ds as [| d ds]; [reflexivity |]. cbn [strip_zeros].
    apply N.eqb_neq in Hd. rewrite Hd. reflexivity.
  - exact IH.
Qed.

Lemma strip_trailing_zeros (k : nat) (ds : list N) :
  match rev ds with d :: _ => d <> 0 | [] => True end ->
  strip_trailing (ds ++ repeat 0 k) = ds.
Proof.
  intros Hd. unfold strip_trailing.
  rewrite rev_app_distr, rev_repeat, (strip_zeros_repeat k (rev ds) Hd), rev_involutive.
  reflexivity.
Qed.

(** What [float_digits_ok] says of a float that is not zero. *)
Lemma float_digits_ok_inv (ds : list N) (dp : Z) :
  float_digits_ok ds dp = true ->
  Forall (fun d => d < 10) ds
  /\ ((ds = [0] /\ dp = 1%Z)
      \/ (exists d ds', ds = d :: ds' /\ d <> 0
          /\ match rev ds with d :: _ => d <> 0 | [] => True end
          /\ overflows ds dp = false /\ underflows ds dp = false)).
Proof.
  unfold float_digits_ok. intros H. apply andb_prop in H. destruct H as [Hall H].
  split.
  - apply Forall_forall. intros d Hd. rewrite forallb_forall in Hall.
    apply N.ltb_lt, Hall, list_elem_of_In, Hd.
  - apply orb_prop in H. destruct H as [H | H].
    + left. apply bool_decide_eq_true in H. exact H.
    + right. repeat (apply andb_prop in H; destruct H as [H ?]).
      destruct ds as [| d ds']; [discriminate |]. exists d, ds'.
      split; [reflexivity |]. split; [apply N.eqb_neq, negb_true_iff; assumption |].
      split; [| split; apply negb_true_iff; assumption].
      destruct (rev (d :: ds')); [exact I | apply N.eqb_neq, negb_true_iff; assumption].
Qed.

Lemma float_of_literal_digits (neg : bool) (ids fds : list N) (e : Z)
    (ds : list N) (dp : Z) (k j : nat) :
  (exists d ds', ds = d :: ds' /\ d <> 0) ->
  match rev ds with d :: _ => d <> 0 | [] => True end ->
  overflows ds dp = false -> underflows ds dp = false ->
  ids ++ fds = repeat 0 k ++ ds ++ repeat 0 j ->
  (Z.of_nat (length ids) + e = dp + Z.of_nat k)%Z ->
  float_of_literal neg ids fds e = FDec neg ds dp.
Proof.
  intros (d & ds' & -> & Hd) Hlast Hov Hun Hall Hdp.
  unfold float_of_literal. rewrite Hall, Hdp.
  rewrite (strip_leading_zeros k ((d :: ds') ++ repeat 0 j) dp) by exact Hd.
  rewrite (strip_trailing_zeros j (d :: ds') Hlast), Hov, Hun. reflexivity.
Qed.

Lemma float_of_literal_zero (neg : bool) :
  float_of_literal neg [0] [0] 0 = FDec neg [0] 1.
Proof. reflexivity. Qed.

Lemma number_stop_inv (rest : pystr) :
  number_stop rest = true ->
  no_digit_head rest = true /\ scan_frac rest = None /\ scan_exp rest = None.
Proof.
  destruct rest as [| c rest]; [intros _; repeat split |].
  cbn [number_stop no_digit_head scan_frac scan_exp]. intros H.
  apply negb_true_iff in H. repeat (apply orb_false_elim in H; destruct H as [H ?]).
  split; [rewrite H; reflexivity |].
  split; [rewrite H2; reflexivity |]. rewrite H1, H0. reflexivity.
Qed.

Lemma digit_chars_app (a b : list N) :
  digit_chars (a ++ b) = digit_chars a ++ digit_chars b.
Proof. apply map_app. Qed.

Lemma digit_chars_zeros (k : nat) : repeat 48 k = digit_chars (repeat 0 k).
Proof. induction k as [| k IH]; [reflexivity |]. cbn. f_equal. exact IH. Qed.

Lemma scan_frac_digits (fds : list N) (rest : pystr) :
  Forall (fun d => d < 10) fds -> fds <> [] -> no_digit_head rest = true ->
  scan_frac (46 :: digit_chars fds ++ rest) = Some (fds, rest).
Proof.
  intros Hf Hne Hrest. cbn [scan_frac]. change (46 =? 46) with true. cbv iota.
  rewrite (scan_digits_chars fds rest Hf Hrest).
  destruct fds; [congruence | reflexivity].
Qed.

Lemma digits_value_zero (ds : list N) : digits_value (0 :: ds) = digits_value ds.
Proof. reflexivity. Qed.

Lemma scan_exp_repr (e : Z) (rest : pystr) :
  no_digit_head rest = true ->
  scan_exp (101 :: exp_repr e ++ rest) = Some (e, rest).
Proof.
  intros Hrest. cbn [scan_exp]. change ((101 =? 101) || (101 =? 69)) with true. cbv iota.
  unfold exp_repr, nat_repr.
  set (ds := (if (Z.abs e <? 10)%Z then [0] else []) ++ uint_digits (N.to_uint (Z.abs_N e))).
  assert (Hds : Forall (fun d => d < 10) ds).
  { apply Forall_app. split; [| apply uint_digits_lt].
    destruct (Z.abs e <? 10)%Z; repeat constructor. }
  assert (Hne : ds <> []).
  { unfold ds. destruct (nat_repr_digits (Z.abs_N e)) as [_ H].
    destruct (uint_digits (N.to_uint (Z.abs_N e))); [contradiction |].
    destruct (Z.abs e <? 10)%Z; discriminate. }
  assert (Hval : digits_value ds = Z.abs_N e).
  { unfold ds. destruct (Z.abs e <? 10)%Z; cbn [app];
      rewrite ?digits_value_zero; apply digits_value_nat. }
  assert (Htxt :
    ((if (Z.abs e <? 10)%Z then [48] else [])
        ++ digit_chars (uint_digits (N.to_uint (Z.abs_N e)))) ++ rest
    = digit_chars ds ++ rest).
  { unfold ds. rewrite digit_chars_app.
    destruct (Z.abs e <? 10)%Z; reflexivity. }
  destruct (Z.ltb_spec e 0) as [Hlt | Hge]; cbn [app]; rewrite Htxt; cbn [scan_sign].
  - change (45 =? 45) with true. cbv iota. rewrite (scan_digits_chars ds rest Hds Hrest).
    destruct ds; [congruence |]. rewrite Hval. do 2 f_equal. lia.
  - change (43 =? 45) with false. change (43 =? 43) with true. cbv iota.
    rewrite (scan_digits_chars ds rest Hds Hrest).
    destruct ds; [congruence |]. rewrite Hval. do 2 f_equal. lia.
Qed.

Lemma scan_unsigned_int (neg : bool) (ids : list N) (rest : pystr) :
  int_digits ids -> number_stop rest = true ->
  scan_unsigned neg (digit_chars ids ++ rest)
  = Some (VInt (if neg then - Z.of_N (digits_value ids) else Z.of_N (digits_value ids))%Z,
          rest).
Proof.
  intros Hi Hrest. destruct (number_stop_inv rest Hrest) as (Hnd & Hfr & Hex).
  unfold scan_unsigned. rewrite (scan_int_part_digits ids rest Hi Hnd), Hfr, Hex.
  reflexivity.
Qed.

Lemma scan_unsigned_fixed (neg : bool) (ids fds : list N) (rest : pystr) :
  int_digits ids -> Forall (fun d => d < 10) fds -> fds <> [] ->
  number_stop rest = true ->
  scan_unsigned neg (digit_chars ids ++ 46 :: digit_chars fds ++ rest)
  = Some (VFloat (float_of_literal neg ids fds 0), rest).
Proof.
  intros Hi Hf Hne Hrest. destruct (number_stop_inv rest Hrest) as (Hnd & _ & Hex).
  unfold scan_unsigned.
  rewrite (scan_int_part_digits ids _ Hi) by reflexivity.
  rewrite (scan_frac_digits fds rest Hf Hne Hnd), Hex. reflexivity.
Qed.

Lemma scan_unsigned_exp (neg : bool) (d : N) (ds' : list N) (e : Z) (rest : pystr) :
  d < 10 -> Forall (fun d => d < 10) ds' -> no_digit_head rest = true ->
  scan_unsigned neg
    ([digit_char d]
     ++ (match ds' with [] => [] | _ => 46 :: digit_chars ds' end)
     ++ [101] ++ exp_repr e ++ rest)
  = Some (VFloat (float_of_literal neg [d] ds' e), rest).
Proof.
  intros Hd Hf Hrest.
  assert (Hi : int_digits [d]) by (split; [repeat constructor; exact Hd | reflexivity]).
  unfold scan_unsigned. change [digit_char d] with (digit_chars [d]).
  rewrite (scan_int_part_digits [d] _ Hi) by (destruct ds'; reflexivity).
  destruct ds' as [| d' ds'].
  - cbn [app]. change (scan_frac (101 :: exp_repr e ++ rest)) with (@None (list N * pystr)).
    rewrite (scan_exp_repr e rest Hrest). reflexivity.
  - cbn [app].
    rewrite (scan_frac_digits (d' :: ds') (101 :: exp_repr e ++ rest) Hf) by
      (reflexivity || discriminate).
    rewrite (scan_exp_repr e rest Hrest). reflexivity.
Qed.

Lemma scan_number_signed (neg : bool) (d : N) (t : pystr) :
  d < 10 ->
  scan_number ((if neg then [45] else []) ++ digit_char d :: t)
  = scan_unsigned neg (digit_char d :: t).
Proof.
  intros Hd. destruct neg; [reflexivity |]. cbn [app scan_number].
  replace (digit_char d =? 45) with false; [reflexivity |].
  symmetry. apply N.eqb_neq. unfold digit_char. lia.
Qed.

(** [int.__repr__] read back. *)
Lemma scan_number_int (n : Z) (rest : pystr) :
  number_stop rest = true ->
  scan_number (int_repr n ++ rest) = Some (VInt n, rest).
Proof.
  intros Hrest. unfold int_repr, nat_repr.
  pose proof (nat_repr_digits (Z.abs_N n)) as Hi.
  rewrite <- app_assoc.
  destruct (uint_digits (N.to_uint (Z.abs_N n))) as [| d ids] eqn:Hu;
    [destruct Hi as [_ []] |].
  assert (Hd : d < 10) by (destruct Hi as [Hi _]; inversion Hi; assumption).
  cbn [digit_chars map app]. fold (digit_char d).
  rewrite (scan_number_signed (n <? 0)%Z d _ Hd).
  change (digit_char d :: map digit_char ids ++ rest)
    with (digit_chars (d :: ids) ++ rest).
  rewrite (scan_unsigned_int _ (d :: ids) rest Hi Hrest).
  rewrite <- Hu, digits_value_nat. do 3 f_equal.
  destruct (Z.ltb_spec n 0); lia.
Qed.

Lemma float_fixed_head (ds : list N) (dp : Z) :
  Forall (fun d => d < 10) ds -> ds <> [] ->
  exists d t, d < 10 /\ float_fixed ds dp = digit_char d :: t.
Proof.
  intros Hall Hne. destruct ds as [| d ds']; [congruence |].
  inversion Hall as [| ? ? Hd _]; subst. unfold float_fixed.
  destruct (dp <=? 0)%Z eqn:H0; [exists 0, (46 :: repeat 48 (Z.to_nat (- dp))
    ++ digit_chars (d :: ds')); split; [lia | reflexivity] |].
  apply Z.leb_gt in H0.
  destruct (dp <? Z.of_nat (length (d :: ds')))%Z.
  - destruct (Z.to_nat dp) as [| n] eqn:Hn; [lia |].
    eexists d, _; split; [exact Hd | reflexivity].
  - eexists d, _; split; [exact Hd | reflexivity].
Qed.

Lemma Forall_zeros (k : nat) : Forall (fun d => d < 10) (repeat 0 k).
Proof. apply Forall_forall. intros x Hx. apply list_elem_of_In, repeat_spec in Hx. lia. Qed.

Lemma int_digits_zero : int_digits [0].
Proof. split; [constructor; [cbv beta; lia | constructor] | intros _; reflexivity]. Qed.

Lemma scan_unsigned_fixed_repr (neg : bool) (ds : list N) (dp : Z) (rest : pystr) :
  float_digits_ok ds dp = true -> number_stop rest = true ->
  scan_unsigned neg (float_fixed ds dp ++ rest) = Some (VFloat (FDec neg ds dp), rest).
Proof.
  intros Hok Hrest. destruct (float_digits_ok_inv ds dp Hok) as [Hall [[-> ->] | Hnz]].
  - change (float_fixed [0] 1) with (digit_chars [0] ++ 46 :: digit_chars [0]).
    rewrite <- app_assoc, <- app_comm_cons.
    rewrite (scan_unsigned_fixed neg [0] [0] rest int_digits_zero Hall) by
      (assumption || discriminate).
    reflexivity.
  - destruct Hnz as (d & ds' & Hds & Hd & Hlast & Hov & Hun).
    assert (Hhead : exists d ds', ds = d :: ds' /\ d <> 0) by eauto.
    unfold float_fixed.
    destruct (Z.leb_spec dp 0) as [H0 | H0].
    + (* 0.000ddd *)
      assert (Hf : Forall (fun d => d < 10) (repeat 0 (Z.to_nat (- dp)) ++ ds)).
      { apply Forall_app. split; [apply Forall_zeros | exact Hall]. }
      assert (Hne : repeat 0 (Z.to_nat (- dp)) ++ ds <> []).
      { subst ds. destruct (repeat 0 (Z.to_nat (- dp))); discriminate. }
      rewrite digit_chars_zeros, <- digit_chars_app.
      change ([48; 46] ++ ?x) with (digit_chars [0] ++ 46 :: x).
      rewrite <- app_assoc, <- app_comm_cons.
      rewrite (scan_unsigned_fixed neg [0] _ rest int_digits_zero Hf Hne Hrest).
      do 3 f_equal.
      apply (float_of_literal_digits neg _ _ 0 ds dp (S (Z.to_nat (- dp))) 0);
        try assumption.
      * rewrite app_nil_r. reflexivity.
      * cbn [length]. lia.
    + destruct (Z.ltb_spec dp (Z.of_nat (length ds))) as [Hlt | Hge].
      * (* dd.ddd *)
        assert (Hi : int_digits (take (Z.to_nat dp) ds)).
        { split; [apply Forall_take; exact Hall |].
          subst ds. destruct (Z.to_nat dp) eqn:Hn; [lia |]. cbn. intros; contradiction. }
        assert (Hf : Forall (fun d => d < 10) (drop (Z.to_nat dp) ds))
          by (apply Forall_drop; exact Hall).
        assert (Hne : drop (Z.to_nat dp) ds <> []).
        { intros Hnil. apply (f_equal length) in Hnil.
          rewrite length_drop in Hnil. cbn in Hnil. lia. }
        change (?a ++ [46] ++ ?b) with (a ++ 46 :: b).
        rewrite <- app_assoc, <- app_comm_cons.
        rewrite (scan_unsigned_fixed neg _ _ rest Hi Hf Hne Hrest).
        do 3 f_equal.
        apply (float_of_literal_digits neg _ _ 0 ds dp 0 0); try assumption.
        -- rewrite take_drop, app_nil_r. reflexivity.
        -- rewrite length_take. lia.
      * (* ddd000.0 *)
        assert (Hi : int_digits (ds ++ repeat 0 (Z.to_nat dp - length ds))).
        { split; [apply Forall_app; split; [exact Hall | apply Forall_zeros] |].
          subst ds. cbn. intros; contradiction. }
        assert (Hf : Forall (fun d => d < 10) [0])
          by (constructor; [cbv beta; lia | constructor]).
        assert (Hne : [0] <> []) by discriminate.
        rewrite digit_chars_zeros, app_assoc, <- digit_chars_app.
        change [46; 48] with (46 :: digit_chars [0]).
        rewrite <- app_assoc, <- app_comm_cons.
        rewrite (scan_unsigned_fixed neg _ [0] rest Hi Hf Hne Hrest).
        do 3 f_equal.
        apply (float_of_literal_digits neg _ _ 0 ds dp 0
                 (S (Z.to_nat dp - length ds))); try assumption.
        -- rewrite <- app_assoc. cbn [repeat app]. f_equal.
           rewrite repeat_cons. reflexivity.
        -- rewrite length_app, repeat_length. lia.
Qed.

Lemma scan_unsigned_exp_repr (neg : bool) (ds : list N) (dp : Z) (rest : pystr) :
  float_digits_ok ds dp = true -> number_stop rest = true ->
  ds <> [0] ->
  scan_unsigned neg (float_exp ds dp ++ rest) = Some (VFloat (FDec neg ds dp), rest).
Proof.
  intros Hok Hrest Hz. destruct (float_digits_ok_inv ds dp Hok) as [Hall [[-> ->] | Hnz]];
    [congruence |].
  destruct Hnz as (d & ds' & Hds & Hd & Hlast & Hov & Hun).
  assert (Hhead : exists d ds', ds = d :: ds' /\ d <> 0) by eauto.
  destruct (number_stop_inv rest Hrest) as (Hnd & _ & _).
  subst ds. inversion Hall as [| ? ? Hd10 Hall']; subst.
  unfold float_exp. rewrite <- !app_assoc.
  rewrite (scan_unsigned_exp neg d ds' (dp - 1) rest Hd10 Hall' Hnd).
  do 3 f_equal.
  apply (float_of_literal_digits neg _ _ _ (d :: ds') dp 0 0); try assumption.
  - rewrite app_nil_r. reflexivity.
  - cbn [length]. lia.
Qed.

(** [float.__repr__] of a finite float read back. *)
Lemma scan_number_float (neg : bool) (ds : list N) (dp : Z) (rest : pystr) :
  float_digits_ok ds dp = true -> number_stop rest = true ->
  scan_number (float_repr (FDec neg ds dp) ++ rest)
  = Some (VFloat (FDec neg ds dp), rest).
Proof.
  intros Hok Hrest. cbn [float_repr]. rewrite <- app_assoc.
  destruct (float_digits_ok_inv ds dp Hok) as [Hall Hcases].
  assert (Hne : ds <> []).
  { destruct Hcases as [[-> _] | (d & ds' & -> & _)]; discriminate. }
  destruct ((dp <=? -4)%Z || (16 <? dp)%Z) eqn:Hexp.
  - assert (Hz : ds <> [0]).
    { intros ->. destruct Hcases as [[_ ->] | (d & ds' & Heq & Hd & _)].
      - discriminate.
      - inversion Heq; subst. congruence. }
    destruct ds as [| d ds']; [congruence |]. inversion Hall as [| ? ? Hd _]; subst.
    pose proof (scan_unsigned_exp_repr neg (d :: ds') dp rest Hok Hrest Hz) as Hs.
    revert Hs. unfold float_exp. cbn [app]. intros Hs.
    rewrite (scan_number_signed neg d _ Hd). exact Hs.
  - destruct (float_fixed_head ds dp Hall Hne) as (d & t & Hd & Ht).
    pose proof (scan_unsigned_fixed_repr neg ds dp rest Hok Hrest) as Hs.
    rewrite Ht in Hs |- *. cbn [app] in Hs |- *.
    rewrite (scan_number_signed neg d _ Hd). exact Hs.
Qed.

(** ** Values: the encoder and the decoder *)

Lemma value_induction (P : value -> Prop) :
  P VNone -> (forall b, P (VBool b)) -> (forall n, P (VInt n)) ->
  (forall f, P (VFloat f)) -> (forall s, P (VStr s)) -> (forall d, P (VDatetime d)) ->
  (forall l, Forall P l -> P (VList l)) ->
  (forall d, Forall (fun kv => P (snd kv)) d -> P (VDict d)) ->
  forall v, P v.
Proof.
  intros HN HB HI HF HS HD HL HO. fix IH 1. intros [ | b | n | f | s | d | l | d ].
  - exact HN.
  - apply HB.
  - apply HI.
  - apply HF.
  - apply HS.
  - apply HD.
  - apply HL. induction l as [| x l IHl]; constructor; [apply IH | exact IHl].
  - apply HO. induction d as [| [k x] d IHd]; constructor; [apply IH | exact IHd].
Qed.

Lemma join_cons (sep x : pystr) (l : list pystr) :
  join sep (x :: l) = x ++ match l with [] => [] | _ => sep ++ join sep l end.
Proof. destruct l; cbn [join]; [rewrite app_nil_r |]; reflexivity. Qed.

Lemma digit_head (d : N) : d < 10 -> value_head (digit_char d) = true.
Proof.
  intros H. assert (H32 : d < 32) by lia. apply below_32 in H32. cbn in H32.
  repeat (apply elem_of_cons in H32; destruct H32 as [-> | H32]; [reflexivity || lia |]).
  inversion H32.
Qed.

Lemma encode_head (v : value) :
  well_formed v = true -> serializable v = true ->
  exists c t, encode v = c :: t /\ value_head c = true.
Proof.
  destruct v as [ | [] | n | [ | [] | neg ds dp] | s | d | l | d ]; intros Hwf Hser;
    try discriminate; try (eexists _, _; split; [reflexivity | reflexivity]).
  - (* int *)
    cbn [encode]. unfold int_repr.
    destruct (n <? 0)%Z; [eexists _, _; split; reflexivity |].
    destruct (nat_repr_digits (Z.abs_N n)) as [Hall Hne]. unfold nat_repr.
    destruct (uint_digits (N.to_uint (Z.abs_N n))) as [| d ds]; [contradiction |].
    inversion Hall; subst. eexists _, _; split; [reflexivity | apply digit_head; assumption].
  - (* float *)
    cbn [encode float_repr]. cbn [well_formed] in Hwf.
    destruct neg; [eexists _, _; split; reflexivity |]. cbn [app].
    destruct (float_digits_ok_inv ds dp Hwf) as [Hall Hcases].
    destruct ((dp <=? -4)%Z || (16 <? dp)%Z).
    + destruct ds as [| d ds']; [destruct Hcases as [[? _] | (? & ? & ? & _)]; discriminate |].
      inversion Hall; subst.
      eexists _, _; split; [reflexivity | apply digit_head; assumption].
    + destruct (float_fixed_head ds dp Hall) as (d & t & Hd & Ht).
      { destruct Hcases as [[-> _] | (? & ? & -> & _)]; discriminate. }
      rewrite Ht. eexists _, _; split; [reflexivity | apply digit_head; assumption].
Qed.

Lemma skip_ws_head (c : N) (t : pystr) :
  value_head c = true -> skip_ws (c :: t) = c :: t.
Proof.
  unfold value_head. intros H. apply andb_prop in H. destruct H as [H _].
  apply andb_prop in H. destruct H as [H _]. apply negb_true_iff in H.
  cbn [skip_ws]. rewrite H. reflexivity.
Qed.

Lemma dict_set_fresh (k : pystr) (v : value) (d : list (pystr * value)) :
  k ∉ map fst d -> dict_set k v d = d ++ [(k, v)].
Proof.
  induction d as [| [k0 v0] d IH]; cbn [dict_set map fst app]; [reflexivity |].
  intros Hk. apply not_elem_of_cons in Hk. destruct Hk as [Hne Hk].
  rewrite decide_False by exact Hne. rewrite (IH Hk). reflexivity.
Qed.

Lemma dict_of_pairs_distinct (d : list (pystr * value)) :
  NoDup (map fst d) -> dict_of_pairs d = d.
Proof.
  unfold dict_of_pairs.
  assert (H : forall acc, NoDup (map fst (acc ++ d)) ->
    fold_left (fun a kv => dict_set (fst kv) (snd kv) a) d acc = acc ++ d).
  { induction d as [| [k v] d IH]; intros acc Hnd; cbn [fold_left].
    - rewrite app_nil_r. reflexivity.
    - cbn [fst snd]. rewrite dict_set_fresh.
      + rewrite IH; rewrite <- app_assoc; [reflexivity | exact Hnd].
      + rewrite map_app in Hnd. apply NoDup_app in Hnd. destruct Hnd as (_ & Hdis & _).
        intros Hin. apply (Hdis k Hin). left. }
  intros Hnd. apply (H [] Hnd).
Qed.

Lemma number_head_cases (c : N) :
  number_head c = true ->
  c = 45 \/ c = 48 \/ c = 49 \/ c = 50 \/ c = 51 \/ c = 52 \/ c = 53 \/ c = 54
  \/ c = 55 \/ c = 56 \/ c = 57.
Proof.
  unfold number_head, is_digit. intros H.
  destruct (N.eq_dec c 45) as [Heq | Hne]; [left; exact Heq |].
  apply N.eqb_neq in Hne. rewrite Hne in H. cbn [orb] in H.
  apply andb_prop in H. destruct H as [H1 H2]. apply N.leb_le in H1, H2. lia.
Qed.

Lemma scan_once_number (b : bool) (fuel : nat) (c : N) (s : pystr)
    (res : value * pystr) :
  number_head c = true -> scan_number (c :: s) = Some res ->
  scan_once b (S fuel) (c :: s) = Some res.
Proof.
  intros Hc Hs. apply number_head_cases in Hc.
  repeat (destruct Hc as [-> | Hc]; [simpl in *; rewrite Hs; reflexivity |]).
  subst c. simpl in *. rewrite Hs. reflexivity.
Qed.

Lemma number_head_digit (d : N) : d < 10 -> number_head (digit_char d) = true.
Proof.
  intros H. unfold number_head. rewrite (is_digit_char d H). apply orb_true_r.
Qed.

Lemma int_repr_head (n : Z) :
  exists c t, int_repr n = c :: t /\ number_head c = true.
Proof.
  unfold int_repr. destruct (n <? 0)%Z; [eexists _, _; split; reflexivity |].
  destruct (nat_repr_digits (Z.abs_N n)) as [Hall Hne]. unfold nat_repr.
  destruct (uint_digits (N.to_uint (Z.abs_N n))) as [| d ds]; [contradiction |].
  inversion Hall; subst.
  eexists _, _; split; [reflexivity | apply number_head_digit; assumption].
Qed.

Lemma float_repr_head (neg : bool) (ds : list N) (dp : Z) :
  float_digits_ok ds dp = true ->
  exists c t, float_repr (FDec neg ds dp) = c :: t /\ number_head c = true.
Proof.
  intros Hwf. cbn [float_repr].
  destruct neg; [eexists _, _; split; reflexivity |]. cbn [app].
  destruct (float_digits_ok_inv ds dp Hwf) as [Hall Hcases].
  destruct ((dp <=? -4)%Z || (16 <? dp)%Z).
  - destruct ds as [| d ds']; [destruct Hcases as [[? _] | (? & ? & ? & _)]; discriminate |].
    inversion Hall; subst.
    eexists _, _; split; [reflexivity | apply number_head_digit; assumption].
  - destruct (float_fixed_head ds dp Hall) as (d & t & Hd & Ht).
    { destruct Hcases as [[-> _] | (? & ? & -> & _)]; discriminate. }
    rewrite Ht. eexists _, _; split; [reflexivity | apply number_head_digit; assumption].
Qed.

Lemma round_trips_scalar :
  round_trips VNone /\ (forall b, round_trips (VBool b)) /\ (forall n, round_trips (VInt n))
  /\ (forall f, round_trips (VFloat f)) /\ (forall s, round_trips (VStr s))
  /\ (forall d, round_trips (VDatetime d)).
Proof.
  unfold round_trips. repeat split.
  - intros b [| fuel] rest _ _ _ Hfuel _; [cbn in Hfuel; lia | reflexivity].
  - intros [] b [| fuel] rest _ _ _ Hfuel _; try (cbn in Hfuel; lia); reflexivity.
  - intros n b [| fuel] rest _ _ _ Hfuel Hrest; [cbn in Hfuel; lia |].
    cbn [encode]. destruct (int_repr_head n) as (c & t & Ht & Hc).
    pose proof (scan_number_int n rest Hrest) as Hs. rewrite Ht in Hs |- *.
    apply scan_once_number; assumption.
  - intros [ | neg | neg ds dp] b [| fuel] rest Hwf _ Hfin Hfuel Hrest;
      try discriminate; [cbn in Hfuel; lia |].
    cbn [encode]. cbn [well_formed] in Hwf.
    destruct (float_repr_head neg ds dp Hwf) as (c & t & Ht & Hc).
    pose proof (scan_number_float neg ds dp rest Hwf Hrest) as Hs. rewrite Ht in Hs |- *.
    apply scan_once_number; assumption.
  - intros s b [| fuel] rest _ _ _ Hfuel _; [cbn in Hfuel; lia |].
    cbn [encode]. unfold encode_basestring. rewrite <- !app_assoc. cbn [app scan_once].
    change (34 =? 34) with true. cbv iota. rewrite scanstring_encode. reflexivity.
  - intros d b fuel rest _ Hser. discriminate.
Qed.

Lemma forallb_cons_inv {A} (p : A -> bool) (x : A) (l : list A) :
  forallb p (x :: l) = true -> p x = true /\ forallb p l = true.
Proof. cbn [forallb]. apply andb_prop. Qed.

Lemma skip_ws_encode (v : value) (rest : pystr) :
  well_formed v = true -> serializable v = true ->
  skip_ws (encode v ++ rest) = encode v ++ rest.
Proof.
  intros Hwf Hser. destruct (encode_head v Hwf Hser) as (c & t & Ht & Hc).
  rewrite Ht. apply skip_ws_head. exact Hc.
Qed.

Lemma join_two {A} (sep : pystr) (f : A -> pystr) (x y : A) (l : list A) :
  join sep (map f (x :: y :: l)) = f x ++ sep ++ join sep (map f (y :: l)).
Proof. reflexivity. Qed.

Lemma join_one {A} (sep : pystr) (f : A -> pystr) (x : A) :
  join sep (map f [x]) = f x.
Proof. reflexivity. Qed.

Lemma array_loop_encode (b : bool) (l : list value) :
  Forall round_trips l -> l <> [] ->
  forall (fuel : nat) (rest : pystr),
    forallb well_formed l = true -> forallb serializable l = true ->
    forallb finite l = true ->
    (fold_right (fun x a => S (cost x + a)) O l <= fuel)%nat ->
    array_loop b fuel (join (str ", ") (map encode l) ++ 93 :: rest) = Some (l, rest).
Proof.
  induction 1 as [| v l Hv Hl IH]; [congruence |]. intros _ fuel rest Hwf Hser Hfin Hfuel.
  apply forallb_cons_inv in Hwf, Hser, Hfin.
  destruct Hwf as [Hwf Hwfl], Hser as [Hser Hserl], Hfin as [Hfin Hfinl].
  cbn [fold_right] in Hfuel. destruct fuel as [| fuel]; [lia |].
  destruct l as [| v2 l'].
  - rewrite join_one. cbn [array_loop].
    rewrite (Hv b fuel (93 :: rest) Hwf Hser Hfin) by (reflexivity || lia).
    reflexivity.
  - rewrite join_two, <- !app_assoc. cbn [array_loop].
    change (str ", " ++ ?x) with (44 :: 32 :: x).
    rewrite (Hv b fuel (44 :: 32 :: _) Hwf Hser Hfin) by (reflexivity || lia).
    change (skip_ws (44 :: ?x)) with (44 :: x). cbv iota.
    change (44 =? 93) with false. change (44 =? 44) with true. cbv iota.
    change (skip_ws (32 :: ?x)) with (skip_ws x).
    assert (Hskip : skip_ws (join (str ", ") (map encode (v2 :: l')) ++ 93 :: rest)
                    = join (str ", ") (map encode (v2 :: l')) ++ 93 :: rest).
    { cbn [map]. rewrite join_cons, <- app_assoc.
      apply forallb_cons_inv in Hwfl, Hserl.
      apply skip_ws_encode; [apply Hwfl | apply Hserl]. }
    rewrite Hskip.
    rewrite (IH ltac:(discriminate) fuel rest Hwfl Hserl Hfinl) by lia.
    reflexivity.
Qed.

Lemma object_loop_encode (b : bool) (d : list (pystr * value)) :
  Forall (fun kv => round_trips (snd kv)) d -> d <> [] ->
  exists t,
    join (str ", ") (map encode_member d) = 34 :: t
    /\ forall (fuel : nat) (rest : pystr),
         forallb (fun kv => well_formed (snd kv)) d = true ->
         forallb (fun kv => serializable (snd kv)) d = true ->
         forallb (fun kv => finite (snd kv)) d = true ->
         (fold_right (fun kv a => S (cost (snd kv) + a)) O d <= fuel)%nat ->
         object_loop b fuel (t ++ 125 :: rest) = Some (d, rest).
Proof.
  induction 1 as [| [k v] d Hv Hd IH]; [congruence |]. intros _.
  cbn [snd] in Hv. destruct d as [| kv2 d'].
  - exists (flat_map escape_char k ++ 34 :: 58 :: 32 :: encode v).
    split.
    { rewrite join_one. unfold encode_member, encode_basestring. cbn [fst snd].
      rewrite <- !app_assoc. reflexivity. }
    intros fuel rest Hwf Hser Hfin Hfuel.
    apply forallb_cons_inv in Hwf, Hser, Hfin. cbn [snd] in Hwf, Hser, Hfin.
    destruct Hwf as [Hwf _], Hser as [Hser _], Hfin as [Hfin _].
    cbn [fold_right snd] in Hfuel. destruct fuel as [| fuel]; [lia |].
    rewrite <- app_assoc. cbn [object_loop].
    rewrite <- !app_comm_cons, scanstring_encode.
    change (skip_ws (58 :: ?x)) with (58 :: x). cbv iota.
    change (58 =? 58) with true. cbv iota.
    change (skip_ws (32 :: ?x)) with (skip_ws x).
    rewrite (skip_ws_encode v _ Hwf Hser).
    rewrite (Hv b fuel (125 :: rest) Hwf Hser Hfin) by (reflexivity || lia).
    reflexivity.
  - destruct (IH ltac:(discriminate)) as (t2 & Ht2 & Hrun).
    exists (flat_map escape_char k ++ 34 :: 58 :: 32 :: encode v ++ 44 :: 32 :: 34 :: t2).
    split.
    { rewrite join_two, Ht2. unfold encode_member, encode_basestring. cbn [fst snd].
      rewrite <- !app_assoc. reflexivity. }
    intros fuel rest Hwf Hser Hfin Hfuel.
    apply forallb_cons_inv in Hwf, Hser, Hfin. cbn [snd] in Hwf, Hser, Hfin.
    destruct Hwf as [Hwf Hwfl], Hser as [Hser Hserl], Hfin as [Hfin Hfinl].
    cbn [fold_right snd] in Hfuel. destruct fuel as [| fuel]; [lia |].
    rewrite <- app_assoc. cbn [object_loop].
    rewrite <- !app_comm_cons, scanstring_encode.
    change (skip_ws (58 :: ?x)) with (58 :: x). cbv iota.
    change (58 =? 58) with true. cbv iota.
    change (skip_ws (32 :: ?x)) with (skip_ws x).
    rewrite <- app_assoc, <- !app_comm_cons, (skip_ws_encode v _ Hwf Hser).
    rewrite (Hv b fuel (_ :: _) Hwf Hser Hfin) by (reflexivity || lia).
    change (skip_ws (44 :: ?x)) with (44 :: x). cbv iota.
    change (44 =? 125) with false. change (44 =? 44) with true. cbv iota.
    change (skip_ws (32 :: 34 :: ?x)) with (34 :: x). cbv iota.
    change (34 =? 34) with true. cbv iota.
    rewrite (Hrun fuel rest Hwfl Hserl Hfinl) by (cbn [fold_right]; lia).
    reflexivity.
Qed.

(** The decoder reads back the text of every value that is well formed,
    has no [datetime] and no [NaN] or infinity inside. *)
Lemma scan_once_encode (v : value) : round_trips v.
Proof.
  induction v as [ | b | n | f | s | d | l IH | d IH ] using value_induction;
    try (apply round_trips_scalar).
  - (* list *)
    intros b fuel rest Hwf Hser Hfin Hfuel Hrest.
    cbn [well_formed serializable finite cost] in Hwf, Hser, Hfin, Hfuel.
    destruct fuel as [| fuel]; [lia |].
    destruct l as [| v l']; [reflexivity |].
    pose proof (array_loop_encode b (v :: l') IH ltac:(discriminate) fuel rest
                  Hwf Hser Hfin ltac:(lia)) as Hloop.
    cbn [encode]. rewrite <- !app_assoc. cbn [app].
    destruct (forallb_cons_inv _ _ _ Hwf) as [Hwfv _].
    destruct (forallb_cons_inv _ _ _ Hser) as [Hserv _].
    destruct (encode_head v Hwfv Hserv) as (c & t & Ht & Hc).
    revert Hloop. cbn [map]. rewrite join_cons, Ht, <- !app_assoc. cbn [app].
    intros Hloop. cbn [scan_once]. change (91 =? 34) with false.
    change (91 =? 123) with false. change (91 =? 91) with true. cbv iota.
    rewrite (skip_ws_head c _ Hc).
    unfold value_head in Hc. apply andb_prop in Hc. destruct Hc as [Hc _].
    apply andb_prop in Hc. destruct Hc as [_ Hc]. apply negb_true_iff in Hc.
    rewrite Hc, Hloop. reflexivity.
  - (* dict *)
    intros b fuel rest Hwf Hser Hfin Hfuel Hrest.
    cbn [well_formed serializable finite cost] in Hwf, Hser, Hfin, Hfuel.
    apply andb_prop in Hwf. destruct Hwf as [Hnd Hwf]. apply bool_decide_eq_true in Hnd.
    destruct fuel as [| fuel]; [lia |].
    destruct d as [| kv d']; [reflexivity |].
    destruct (object_loop_encode b (kv :: d') IH ltac:(discriminate)) as (t & Ht & Hloop).
    specialize (Hloop fuel rest Hwf Hser Hfin ltac:(lia)).
    cbn [encode].
    change (fun kv0 : pystr * value =>
              encode_basestring (fst kv0) ++ str ": " ++ encode (snd kv0))
      with encode_member.
    unfold pystr in Ht |- *. rewrite Ht, <- !app_assoc. cbn [app scan_once].
    change (123 =? 34) with false. change (123 =? 123) with true. cbv iota.
    change (skip_ws (34 :: ?x)) with (34 :: x). cbv iota.
    change (34 =? 125) with false. change (34 =? 34) with true. cbv iota.
    rewrite Hloop, (dict_of_pairs_distinct _ Hnd). reflexivity.
Qed.

Lemma join_length_bound {A} (f : A -> pystr) (c : A -> nat) (l : list A) :
  Forall (fun x => (c x <= length (f x))%nat) l ->
  (fold_right (fun x a => S (c x + a)) O l <= length (join (str ", ") (map f l)) + 1)%nat.
Proof.
  induction 1 as [| x l Hx Hl IH]; [cbn; lia |].
  destruct l as [| y l'].
  - rewrite join_one. cbn [fold_right]. lia.
  - rewrite join_two, !length_app. cbn [fold_right] in IH |- *. cbn [length str].
    change (length (str ", ")) with 2%nat. lia.
Qed.

Lemma cost_le_length (v : value) :
  well_formed v = true -> serializable v = true -> (cost v <= length (encode v))%nat.
Proof.
  induction v as [ | b | n | f | s | d | l IH | d IH ] using value_induction;
    intros Hwf Hser;
    try (destruct (encode_head _ Hwf Hser) as (c & t & -> & _); cbn; lia).
  - cbn [well_formed serializable] in Hwf, Hser.
    cbn [cost encode]. rewrite !length_app. cbn [length].
    assert (H : Forall (fun x => (cost x <= length (encode x))%nat) l).
    { rewrite Forall_forall in IH |- *. intros x Hx.
      rewrite forallb_forall in Hwf, Hser.
      apply IH; [exact Hx | apply Hwf | apply Hser]; apply list_elem_of_In, Hx. }
    pose proof (join_length_bound encode cost l H). lia.
  - cbn [well_formed serializable] in Hwf, Hser.
    apply andb_prop in Hwf. destruct Hwf as [_ Hwf].
    cbn [cost encode]. rewrite !length_app. cbn [length].
    assert (H : Forall (fun kv => (cost (snd kv) <= length (encode_member kv))%nat) d).
    { rewrite Forall_forall in IH |- *. intros x Hx.
      rewrite forallb_forall in Hwf, Hser.
      unfold encode_member. rewrite !length_app.
      specialize (IH x Hx (Hwf x (proj1 (list_elem_of_In _ _) Hx))
                    (Hser x (proj1 (list_elem_of_In _ _) Hx))). lia. }
    pose proof (join_length_bound encode_member (fun kv => cost (snd kv)) d H) as Hb.
    change (fun kv0 : pystr * value =>
              encode_basestring (fst kv0) ++ str ": " ++ encode (snd kv0))
      with encode_member.
    exact (le_n_S _ _ Hb).
Qed.

Lemma decode_encode (b : bool) (v : value) :
  well_formed v = true -> serializable v = true -> finite v = true ->
  decode b (encode v) = Some v.
Proof.
  intros Hwf Hser Hfin. unfold decode.
  destruct (encode_head v Hwf Hser) as (c & t & Ht & Hc).
  assert (Hbom : starts_with_bom (encode v) = false).
  { rewrite Ht. cbn [starts_with_bom]. unfold value_head in Hc.
    apply andb_prop in Hc. destruct Hc as [_ Hc]. apply negb_true_iff in Hc. exact Hc. }
  rewrite Hbom. replace (skip_ws (encode v)) with (encode v ++ [])
    by (rewrite app_nil_r, Ht; symmetry; apply skip_ws_head; exact Hc).
  rewrite (scan_once_encode v b _ [] Hwf Hser Hfin); [reflexivity | | reflexivity].
  pose proof (cost_le_length v Hwf Hser). lia.
Qed.

(** ** The fuel of the decoder *)

Lemma skip_ws_length (s : pystr) : (length (skip_ws s) <= length s)%nat.
Proof.
  induction s as [| c s IH]; [reflexivity |]. cbn [skip_ws].
  destruct (is_ws c); cbn [length]; lia.
Qed.

Lemma starts_with_length (p s r : pystr) :
  starts_with p s = Some r -> length s = (length p + length r)%nat.
Proof.
  revert s; induction p as [| a p IH]; intros s; cbn [starts_with].
  - intros H; inversion H; reflexivity.
  - destruct s as [| c s]; [discriminate |].
    destruct (a =? c); [| discriminate]. intros H. cbn [length]. rewrite (IH s H). lia.
Qed.

Lemma scanstring_length (s t r : pystr) :
  scanstring s = Some (t, r) -> (length r < length s)%nat.
Proof.
  remember (length s) as n eqn:Hn. assert (Hle : (length s <= n)%nat) by lia. clear Hn.
  revert s t r Hle.
  induction n as [| n IH]; intros s t r Hle; destruct s as [| c s1]; try discriminate;
    cbn [length] in Hle; [lia |].
  cbn [scanstring]. intros H.
  repeat (case_match; try discriminate; simplify_eq; cbn [length] in * );
    try lia;
    repeat match goal with
           | Hs : scanstring ?x = Some (_, _) |- _ =>
               apply IH in Hs; [| cbn [length]; lia]; cbn [length] in Hs
           end; lia.
Qed.

Lemma scan_digits_length (s : pystr) :
  (length (snd (scan_digits s)) <= length s)%nat.
Proof.
  induction s as [| c s IH]; [reflexivity |]. cbn [scan_digits].
  destruct (is_digit c); [| reflexivity].
  destruct (scan_digits s) as [ds r]. cbn [snd length] in *. lia.
Qed.

Lemma scan_frac_length (s r : pystr) (ds : list N) :
  scan_frac s = Some (ds, r) -> (length r <= length s)%nat.
Proof.
  destruct s as [| c s]; [discriminate |]. cbn [scan_frac].
  destruct (c =? 46); [| discriminate].
  pose proof (scan_digits_length s) as H. destruct (scan_digits s) as [[| d ds'] r'];
    [discriminate |].
  intros Heq; inversion Heq; subst. cbn [snd length] in *. lia.
Qed.

Lemma scan_exp_length (s r : pystr) (e : Z) :
  scan_exp s = Some (e, r) -> (length r <= length s)%nat.
Proof.
  destruct s as [| c s]; [discriminate |]. cbn [scan_exp].
  destruct ((c =? 101) || (c =? 69)); [| discriminate].
  assert (Hs : (length (snd (scan_sign s)) <= length s)%nat).
  { destruct s as [| c' s']; [reflexivity |]. cbn [scan_sign].
    destruct (c' =? 45); [cbn; lia |]. destruct (c' =? 43); cbn; lia. }
  destruct (scan_sign s) as [neg s2]. cbn [snd] in Hs.
  pose proof (scan_digits_length s2) as H. destruct (scan_digits s2) as [[| d ds'] r'];
    [discriminate |].
  intros Heq; inversion Heq; subst. cbn [snd length] in *. lia.
Qed.

Lemma scan_unsigned_length (neg : bool) (s r : pystr) (v : value) :
  scan_unsigned neg s = Some (v, r) -> (length r < length s)%nat.
Proof.
  unfold scan_unsigned.
  destruct (scan_int_part s) as [[ids r1] |] eqn:Hi; [| discriminate].
  assert (H1 : (length r1 < length s)%nat).
  { destruct s as [| c s']; [discriminate |]. cbn [scan_int_part] in Hi.
    destruct (c =? 48); [inversion Hi; subst; cbn; lia |].
    destruct (is_digit c); [| discriminate].
    pose proof (scan_digits_length s') as H. destruct (scan_digits s') as [ds r'].
    inversion Hi; subst. cbn [snd length] in *. lia. }
  destruct (scan_frac r1) as [[fds r2] |] eqn:Hf.
  - apply scan_frac_length in Hf.
    destruct (scan_exp r2) as [[e r3] |] eqn:He; intros H; inversion H; subst; [| lia].
    apply scan_exp_length in He. lia.
  - destruct (scan_exp r1) as [[e r3] |] eqn:He; intros H; inversion H; subst; [| lia].
    apply scan_exp_length in He. lia.
Qed.

Lemma scan_number_length (s r : pystr) (v : value) :
  scan_number s = Some (v, r) -> (length r < length s)%nat.
Proof.
  destruct s as [| c s']; [discriminate |]. cbn [scan_number].
  destruct (c =? 45); intros H; apply scan_unsigned_length in H; cbn [length] in *; lia.
Qed.

(** What a call reads is a part of the text: what is left is shorter. *)
Lemma scan_shorter (b : bool) (fuel : nat) :
  (forall s v r, scan_once b fuel s = Some (v, r) -> (length r < length s)%nat)
  /\ (forall s vs r, array_loop b fuel s = Some (vs, r) -> (length r < length s)%nat)
  /\ (forall s kvs r, object_loop b fuel s = Some (kvs, r) -> (length r < length s)%nat).
Proof.
  induction fuel as [| fuel (IHs & IHa & IHo)]; [repeat split; discriminate |].
  split; [| split].
  - intros s v r. destruct s as [| c s1]; [discriminate |]. cbn [scan_once].
    destruct (c =? 34).
    { destruct (scanstring s1) as [[t r'] |] eqn:Hs; [| discriminate].
      apply scanstring_length in Hs. intros H; inversion H; subst. cbn [length]. lia. }
    destruct (c =? 123).
    { pose proof (skip_ws_length s1) as Hw.
      destruct (skip_ws s1) as [| c2 s2]; [discriminate |].
      destruct (c2 =? 125); [intros H; inversion H; subst; cbn [length] in *; lia |].
      destruct (c2 =? 34); [| discriminate].
      destruct (object_loop b fuel s2) as [[pairs r'] |] eqn:Ho; [| discriminate].
      apply IHo in Ho. intros H; inversion H; subst. cbn [length] in *. lia. }
    destruct (c =? 91).
    { pose proof (skip_ws_length s1) as Hw.
      destruct (skip_ws s1) as [| c2 s2]; [discriminate |].
      destruct (c2 =? 93); [intros H; inversion H; subst; cbn [length] in *; lia |].
      destruct (array_loop b fuel (c2 :: s2)) as [[vs r'] |] eqn:Ha; [| discriminate].
      apply IHa in Ha. intros H; inversion H; subst. cbn [length] in *. lia. }
    destruct (starts_with (str "null") (c :: s1)) as [r1 |] eqn:H1.
    { apply starts_with_length in H1. intros H; inversion H; subst.
      rewrite H1. cbn [length str]. cbn. lia. }
    destruct (starts_with (str "true") (c :: s1)) as [r2 |] eqn:H2.
    { apply starts_with_length in H2. intros H; inversion H; subst.
      rewrite H2. cbn. lia. }
    destruct (starts_with (str "false") (c :: s1)) as [r3 |] eqn:H3.
    { apply starts_with_length in H3. intros H; inversion H; subst.
      rewrite H3. cbn. lia. }
    destruct (scan_number (c :: s1)) as [[v' r'] |] eqn:Hn.
    { apply scan_number_length in Hn. intros H; inversion H; subst. exact Hn. }
    destruct b; [| discriminate].
    destruct (starts_with (str "NaN") (c :: s1)) as [r4 |] eqn:H4.
    { apply starts_with_length in H4. intros H; inversion H; subst.
      rewrite H4. cbn. lia. }
    destruct (starts_with (str "Infinity") (c :: s1)) as [r5 |] eqn:H5.
    { apply starts_with_length in H5. intros H; inversion H; subst.
      rewrite H5. cbn. lia. }
    destruct (starts_with (str "-Infinity") (c :: s1)) as [r6 |] eqn:H6; [| discriminate].
    apply starts_with_length in H6. intros H; inversion H; subst.
    rewrite H6. cbn. lia.
  - intros s vs r. cbn [array_loop].
    destruct (scan_once b fuel s) as [[v r0] |] eqn:Hs; [| discriminate].
    apply IHs in Hs. pose proof (skip_ws_length r0) as Hw.
    destruct (skip_ws r0) as [| c r1]; [discriminate |].
    destruct (c =? 93); [intros H; inversion H; subst; cbn [length] in *; lia |].
    destruct (c =? 44); [| discriminate].
    destruct (array_loop b fuel (skip_ws r1)) as [[vs' r2] |] eqn:Ha; [| discriminate].
    apply IHa in Ha. pose proof (skip_ws_length r1) as Hw1.
    intros H; inversion H; subst. cbn [length] in *. lia.
  - intros s kvs r. cbn [object_loop].
    destruct (scanstring s) as [[k r0] |] eqn:Hk; [| discriminate].
    apply scanstring_length in Hk. pose proof (skip_ws_length r0) as Hw.
    destruct (skip_ws r0) as [| c r1]; [discriminate |].
    destruct (c =? 58); [| discriminate].
    destruct (scan_once b fuel (skip_ws r1)) as [[v r2] |] eqn:Hs; [| discriminate].
    apply IHs in Hs. pose proof (skip_ws_length r1) as Hw1.
    pose proof (skip_ws_length r2) as Hw2.
    destruct (skip_ws r2) as [| c2 r3]; [discriminate |].
    destruct (c2 =? 125); [intros H'; inversion H'; subst; cbn [length] in *; lia |].
    destruct (c2 =? 44); [| discriminate].
    pose proof (skip_ws_length r3) as Hw3.
    destruct (skip_ws r3) as [| c3 r4]; [discriminate |].
    destruct (c3 =? 34); [| discriminate].
    destruct (object_loop b fuel r4) as [[kvs' r5] |] eqn:Ho; [| discriminate].
    apply IHo in Ho. intros H'; inversion H'; subst. cbn [length] in *. lia.
Qed.

(** With fuel past twice the length of the text, more fuel changes
    nothing: the result is that of the decoder, which has no fuel. *)
Lemma scan_stable (b : bool) (fuel : nat) :
  (forall s, (2 * length s + 1 <= fuel)%nat ->
     scan_once b (S fuel) s = scan_once b fuel s)
  /\ (forall s, (2 * length s + 2 <= fuel)%nat ->
        array_loop b (S fuel) s = array_loop b fuel s)
  /\ (forall s, (2 * length s + 1 <= fuel)%nat ->
        object_loop b (S fuel) s = object_loop b fuel s).
Proof.
  induction fuel as [| fuel (IHs & IHa & IHo)]; [repeat split; intros s H; lia |].
  destruct (scan_shorter b fuel) as (Ls & La & Lo).
  split; [| split].
  - intros s Hf. destruct s as [| c s1]; [reflexivity |]. cbn [scan_once length] in *.
    destruct (c =? 34); [reflexivity |].
    destruct (c =? 123).
    { pose proof (skip_ws_length s1) as Hw.
      destruct (skip_ws s1) as [| c2 s2]; [reflexivity |].
      destruct (c2 =? 125); [reflexivity |]. destruct (c2 =? 34); [| reflexivity].
      rewrite (IHo s2) by (cbn [length] in *; lia). reflexivity. }
    destruct (c =? 91); [| reflexivity].
    pose proof (skip_ws_length s1) as Hw.
    destruct (skip_ws s1) as [| c2 s2]; [reflexivity |].
    destruct (c2 =? 93); [reflexivity |].
    rewrite (IHa (c2 :: s2)) by (cbn [length] in *; lia). reflexivity.
  - intros s Hf. rewrite (array_loop_eq b (S fuel)), (array_loop_eq b fuel).
    rewrite (IHs s) by lia.
    destruct (scan_once b fuel s) as [[v r0] |] eqn:Hs; [| reflexivity].
    apply Ls in Hs. pose proof (skip_ws_length r0) as Hw.
    destruct (skip_ws r0) as [| c r1]; [reflexivity |].
    destruct (c =? 93); [reflexivity |]. destruct (c =? 44); [| reflexivity].
    pose proof (skip_ws_length r1) as Hw1.
    rewrite (IHa (skip_ws r1)) by (cbn [length] in *; lia). reflexivity.
  - intros s Hf. rewrite (object_loop_eq b (S fuel)), (object_loop_eq b fuel).
    destruct (scanstring s) as [[k r0] |] eqn:Hk; [| reflexivity].
    apply scanstring_length in Hk. pose proof (skip_ws_length r0) as Hw.
    destruct (skip_ws r0) as [| c r1]; [reflexivity |].
    destruct (c =? 58); [| reflexivity].
    pose proof (skip_ws_length r1) as Hw1.
    rewrite (IHs (skip_ws r1)) by (cbn [length] in *; lia).
    destruct (scan_once b fuel (skip_ws r1)) as [[v r2] |] eqn:Hs; [| reflexivity].
    apply Ls in Hs. pose proof (skip_ws_length r2) as Hw2.
    destruct (skip_ws r2) as [| c2 r3]; [reflexivity |].
    destruct (c2 =? 125); [reflexivity |]. destruct (c2 =? 44); [| reflexivity].
    pose proof (skip_ws_length r3) as Hw3.
    destruct (skip_ws r3) as [| c3 r4]; [reflexivity |].
    destruct (c3 =? 34); [| reflexivity].
    rewrite (IHo r4) by (cbn [length] in *; lia). reflexivity.
Qed.

(** The fuel of [decode] is enough: with any larger fuel the decoder
    returns the same. *)
Lemma decode_fuel (b : bool) (s : pystr) (extra : nat) :
  scan_once b (2 * length s + 2 + extra) (skip_ws s)
  = scan_once b (2 * length s + 2) (skip_ws s).
Proof.
  induction extra as [| extra IH]; [rewrite Nat.add_0_r; reflexivity |].
  rewrite <- IH. replace (2 * length s + 2 + S extra)%nat
    with (S (2 * length s + 2 + extra)) by lia.
  apply (scan_stable b). pose proof (skip_ws_length s). lia.
Qed.

Lemma scan_checked_shorter (fuel : nat) :
  (forall s v r, scan_checked fuel s = Got (v, r) -> (length r < length s)%nat)
  /\ (forall s vs r, array_checked fuel s = Got (vs, r) -> (length r < length s)%nat)
  /\ (forall s kvs r, object_checked fuel s = Got (kvs, r) -> (length r < length s)%nat).
Proof.
  destruct (scan_checked_rel fuel) as (Hs & Ha & Ho).
  destruct (scan_shorter true fuel) as (Ls & La & Lo).
  split; [| split].
  - intros s v r H. destruct (Hs s) as [E | E]; rewrite E in H; [discriminate |].
    destruct (scan_once true fuel s) as [[v' r'] |] eqn:Hu; [| discriminate].
    injection H as <- <-. eapply Ls, Hu.
  - intros s v r H. destruct (Ha s) as [E | E]; rewrite E in H; [discriminate |].
    destruct (array_loop true fuel s) as [[v' r'] |] eqn:Hu; [| discriminate].
    injection H as <- <-. eapply La, Hu.
  - intros s v r H. destruct (Ho s) as [E | E]; rewrite E in H; [discriminate |].
    destruct (object_loop true fuel s) as [[v' r'] |] eqn:Hu; [| discriminate].
    injection H as <- <-. eapply Lo, Hu.
Qed.

Lemma array_checked_eq (fuel : nat) (s : pystr) :
  array_checked (S fuel) s
  = match scan_checked fuel s with
    | Malformed => Malformed
    | TooManyDigits => TooManyDigits
    | Got (v, r) =>
        match skip_ws r with
        | c :: r1 =>
            if c =? 93 then Got ([v], r1)
            else if c =? 44 then
              match array_checked fuel (skip_ws r1) with
              | Got (vs, r2) => Got (v :: vs, r2)
              | Malformed => Malformed
              | TooManyDigits => TooManyDigits
              end
            else Malformed
        | [] => Malformed
        end
    end.
Proof. reflexivity. Qed.

Lemma object_checked_eq (fuel : nat) (s : pystr) :
  object_checked (S fuel) s
  = match scanstring s with
    | None => Malformed
    | Some (k, r) =>
        match skip_ws r with
        | c :: r1 =>
            if c =? 58 then
              match scan_checked fuel (skip_ws r1) with
              | Malformed => Malformed
              | TooManyDigits => TooManyDigits
              | Got (v, r2) =>
                  match skip_ws r2 with
                  | c2 :: r3 =>
                      if c2 =? 125 then Got ([(k, v)], r3)
                      else if c2 =? 44 then
                        match skip_ws r3 with
                        | c3 :: r4 =>
                            if c3 =? 34 then
                              match object_checked fuel r4 with
                              | Got (kvs, r5) => Got ((k, v) :: kvs, r5)
                              | Malformed => Malformed
                              | TooManyDigits => TooManyDigits
                              end
                            else Malformed
                        | [] => Malformed
                        end
                      else Malformed
                  | [] => Malformed
                  end
              end
            else Malformed
        | [] => Malformed
        end
    end.
Proof. reflexivity. Qed.

(** The same holds with the limit of [int]: past twice the length of the
    text, more fuel changes nothing. *)
Lemma scan_checked_stable (fuel : nat) :
  (forall s, (2 * length s + 1 <= fuel)%nat ->
     scan_checked (S fuel) s = scan_checked fuel s)
  /\ (forall s, (2 * length s + 2 <= fuel)%nat ->
        array_checked (S fuel) s = array_checked fuel s)
  /\ (forall s, (2 * length s + 1 <= fuel)%nat ->
        object_checked (S fuel) s = object_checked fuel s).
Proof.
  induction fuel as [| fuel (IHs & IHa & IHo)]; [repeat split; intros s H; lia |].
  destruct (scan_checked_shorter fuel) as (Ls & La & Lo).
  split; [| split].
  - intros s Hf. destruct s as [| c s1]; [reflexivity |]. cbn [scan_checked length] in *.
    destruct (c =? 34); [reflexivity |].
    destruct (c =? 123).
    { pose proof (skip_ws_length s1) as Hw.
      destruct (skip_ws s1) as [| c2 s2]; [reflexivity |].
      destruct (c2 =? 125); [reflexivity |]. destruct (c2 =? 34); [| reflexivity].
      rewrite (IHo s2) by (cbn [length] in *; lia). reflexivity. }
    destruct (c =? 91); [| reflexivity].
    pose proof (skip_ws_length s1) as Hw.
    destruct (skip_ws s1) as [| c2 s2]; [reflexivity |].
    destruct (c2 =? 93); [reflexivity |].
    rewrite (IHa (c2 :: s2)) by (cbn [length] in *; lia). reflexivity.
  - intros s Hf. rewrite (array_checked_eq (S fuel)), (array_checked_eq fuel).
    rewrite (IHs s) by lia.
    destruct (scan_checked fuel s) as [[v r0] | |] eqn:Hs; [| reflexivity | reflexivity].
    apply Ls in Hs. pose proof (skip_ws_length r0) as Hw.
    destruct (skip_ws r0) as [| c r1]; [reflexivity |].
    destruct (c =? 93); [reflexivity |]. destruct (c =? 44); [| reflexivity].
    pose proof (skip_ws_length r1) as Hw1.
    rewrite (IHa (skip_ws r1)) by (cbn [length] in *; lia). reflexivity.
  - intros s Hf. rewrite (object_checked_eq (S fuel)), (object_checked_eq fuel).
    destruct (scanstring s) as [[k r0] |] eqn:Hk; [| reflexivity].
    apply scanstring_length in Hk. pose proof (skip_ws_length r0) as Hw.
    destruct (skip_ws r0) as [| c r1]; [reflexivity |].
    destruct (c =? 58); [| reflexivity].
    pose proof (skip_ws_length r1) as Hw1.
    rewrite (IHs (skip_ws r1)) by (cbn [length] in *; lia).
    destruct (scan_checked fuel (skip_ws r1)) as [[v r2] | |] eqn:Hs;
      [| reflexivity | reflexivity].
    apply Ls in Hs. pose proof (skip_ws_length r2) as Hw2.
    destruct (skip_ws r2) as [| c2 r3]; [reflexivity |].
    destruct (c2 =? 125); [reflexivity |]. destruct (c2 =? 44); [| reflexivity].
    pose proof (skip_ws_length r3) as Hw3.
    destruct (skip_ws r3) as [| c3 r4]; [reflexivity |].
    destruct (c3 =? 34); [| reflexivity].
    rewrite (IHo r4) by (cbn [length] in *; lia). reflexivity.
Qed.

(** The fuel of [json_load] is enough. *)
Lemma json_load_fuel (s : pystr) (extra : nat) :
  scan_checked (2 * length s + 2 + extra) (skip_ws s)
  = scan_checked (2 * length s + 2) (skip_ws s).
Proof.
  induction extra as [| extra IH]; [rewrite Nat.add_0_r; reflexivity |].
  rewrite <- IH. replace (2 * length s + 2 + S extra)%nat
    with (S (2 * length s + 2 + extra)) by lia.
  apply scan_checked_stable. pose proof (skip_ws_length s). lia.
Qed.

(** ** What the decoder builds *)

Lemma scan_digits_lt (s : pystr) : Forall (fun d => d < 10) (fst (scan_digits s)).
Proof.
  induction s as [| c s IH]; [constructor |]. cbn [scan_digits].
  destruct (is_digit c) eqn:Hc; [| constructor].
  destruct (scan_digits s) as [ds r]. cbn [fst] in *. constructor; [| exact IH].
  unfold is_digit in Hc. apply andb_prop in Hc. destruct Hc as [H1 H2].
  apply N.leb_le in H1, H2. lia.
Qed.

Lemma scan_int_part_lt (s r : pystr) (ids : list N) :
  scan_int_part s = Some (ids, r) -> Forall (fun d => d < 10) ids.
Proof.
  destruct s as [| c s']; [discriminate |]. cbn [scan_int_part].
  destruct (c =? 48); [intros H; inversion H; subst; constructor; [lia | constructor] |].
  destruct (is_digit c) eqn:Hc; [| discriminate].
  pose proof (scan_digits_lt s') as Hd. destruct (scan_digits s') as [ds r'].
  intros H; inversion H; subst. cbn [fst] in Hd. constructor; [| exact Hd].
  unfold is_digit in Hc. apply andb_prop in Hc. destruct Hc as [H1 H2].
  apply N.leb_le in H1, H2. lia.
Qed.

Lemma scan_frac_lt (s r : pystr) (fds : list N) :
  scan_frac s = Some (fds, r) -> Forall (fun d => d < 10) fds.
Proof.
  destruct s as [| c s']; [discriminate |]. cbn [scan_frac].
  destruct (c =? 46); [| discriminate].
  pose proof (scan_digits_lt s') as Hd. destruct (scan_digits s') as [[| d ds] r'];
    [discriminate |].
  intros H; inversion H; subst. exact Hd.
Qed.

Lemma strip_leading_spec (ds : list N) (dp : Z) :
  Forall (fun d => d < 10) ds ->
  Forall (fun d => d < 10) (fst (strip_leading ds dp))
  /\ match fst (strip_leading ds dp) with d :: _ => d <> 0 | [] => True end.
Proof.
  intros H. revert dp. induction H as [| d ds Hd Hds IH]; intros dp; cbn [strip_leading].
  - split; [constructor | exact I].
  - destruct (N.eqb_spec d 0) as [-> | Hne]; [apply IH |].
    cbn [fst]. split; [constructor; assumption | exact Hne].
Qed.

Lemma strip_zeros_spec (ds : list N) :
  Forall (fun d => d < 10) ds ->
  Forall (fun d => d < 10) (strip_zeros ds)
  /\ match strip_zeros ds with d :: _ => d <> 0 | [] => True end
  /\ exists k, ds = repeat 0 k ++ strip_zeros ds.
Proof.
  induction 1 as [| d ds Hd Hds IH]; cbn [strip_zeros].
  - split; [constructor |]. split; [exact I | exists O; reflexivity].
  - destruct (N.eqb_spec d 0) as [-> | Hne].
    + destruct IH as (H1 & H2 & k & Hk). split; [exact H1 |]. split; [exact H2 |].
      exists (S k). cbn [repeat app]. f_equal. exact Hk.
    + split; [constructor; assumption |]. split; [exact Hne | exists O; reflexivity].
Qed.

Lemma strip_trailing_spec (ds : list N) :
  Forall (fun d => d < 10) ds ->
  match ds with d :: _ => d <> 0 | [] => True end ->
  Forall (fun d => d < 10) (strip_trailing ds)
  /\ match strip_trailing ds with d :: _ => d <> 0 | [] => True end
  /\ match rev (strip_trailing ds) with d :: _ => d <> 0 | [] => True end.
Proof.
  intros Hall Hhd. unfold strip_trailing.
  assert (Hrev : Forall (fun d => d < 10) (rev ds)).
  { apply Forall_forall. intros x Hx. rewrite Forall_forall in Hall. apply Hall.
    apply list_elem_of_In, in_rev, list_elem_of_In. exact Hx. }
  destruct (strip_zeros_spec (rev ds) Hrev) as (H1 & H2 & k & Hk).
  rewrite rev_involutive. split; [| split; [| exact H2]].
  - apply Forall_forall. intros x Hx. rewrite Forall_forall in H1. apply H1.
    apply list_elem_of_In, in_rev, list_elem_of_In. exact Hx.
  - apply (f_equal (@rev N)) in Hk. rewrite rev_involutive, rev_app_distr, rev_repeat in Hk.
    destruct (rev (strip_zeros (rev ds))) as [| d t]; [exact I |].
    rewrite Hk in Hhd. exact Hhd.
Qed.

Lemma float_of_literal_ok (neg : bool) (ids fds : list N) (e : Z) :
  Forall (fun d => d < 10) ids -> Forall (fun d => d < 10) fds ->
  well_formed (VFloat (float_of_literal neg ids fds e)) = true.
Proof.
  intros Hi Hf. unfold float_of_literal.
  assert (Hall : Forall (fun d => d < 10) (ids ++ fds)) by (apply Forall_app; auto).
  destruct (strip_leading_spec (ids ++ fds) (Z.of_nat (length ids) + e) Hall) as [H1 H2].
  destruct (strip_leading (ids ++ fds) (Z.of_nat (length ids) + e)) as [ds dp].
  cbn [fst] in H1, H2.
  destruct (strip_trailing_spec ds H1 H2) as (T1 & T2 & T3).
  destruct (strip_trailing ds) as [| d ds'] eqn:Hst; [reflexivity |].
  destruct (overflows (d :: ds') dp) eqn:Hov; [reflexivity |].
  destruct (underflows (d :: ds') dp) eqn:Hun; [reflexivity |].
  cbn [well_formed]. unfold float_digits_ok. rewrite Hov, Hun.
  apply andb_true_intro. split.
  - apply forallb_forall. intros x Hx. apply N.ltb_lt.
    rewrite Forall_forall in T1. apply T1, list_elem_of_In, Hx.
  - apply orb_true_intro. right. cbn [negb andb].
    apply N.eqb_neq in T2. rewrite T2. cbn [negb andb].
    destruct (rev (d :: ds')) as [| y t] eqn:Hr.
    + apply (f_equal (@length N)) in Hr. rewrite length_rev in Hr. discriminate.
    + apply N.eqb_neq in T3. rewrite T3. reflexivity.
Qed.

Lemma scan_number_ok (s r : pystr) (v : value) :
  scan_number s = Some (v, r) -> well_formed v = true /\ serializable v = true.
Proof.
  assert (H : forall neg s, scan_unsigned neg s = Some (v, r) ->
                well_formed v = true /\ serializable v = true).
  { intros neg s0. unfold scan_unsigned.
    destruct (scan_int_part s0) as [[ids r1] |] eqn:Hi; [| discriminate].
    apply scan_int_part_lt in Hi.
    destruct (scan_frac r1) as [[fds r2] |] eqn:Hf.
    - apply scan_frac_lt in Hf.
      destruct (scan_exp r2) as [[e r3] |]; intros Heq; inversion Heq; subst;
        (split; [apply float_of_literal_ok; assumption | reflexivity]).
    - destruct (scan_exp r1) as [[e r3] |]; intros Heq; inversion Heq; subst.
      + split; [apply float_of_literal_ok; [assumption | constructor] | reflexivity].
      + split; reflexivity. }
  destruct s as [| c s']; [discriminate |]. cbn [scan_number].
  destruct (c =? 45); apply H.
Qed.

Lemma dict_set_keys (k : pystr) (v : value) (d : list (pystr * value)) :
  map fst (dict_set k v d) = if dict_in k d then map fst d else map fst d ++ [k].
Proof.
  unfold dict_in. induction d as [| [k0 v0] d IH]; cbn [dict_set dict_get map fst app];
    [reflexivity |].
  destruct (decide (k = k0)) as [-> | Hne]; [reflexivity |].
  cbn [map fst]. rewrite IH. destruct (dict_get k d); reflexivity.
Qed.

Lemma dict_set_forall (P : value -> bool) (k : pystr) (v : value)
    (d : list (pystr * value)) :
  P v = true -> forallb (fun kv => P (snd kv)) d = true ->
  forallb (fun kv => P (snd kv)) (dict_set k v d) = true.
Proof.
  intros Hv. induction d as [| [k0 v0] d IH]; cbn [dict_set forallb snd].
  - intros _. rewrite Hv. reflexivity.
  - intros H. apply andb_prop in H. destruct H as [H0 Hd].
    destruct (decide (k = k0)); cbn [forallb snd].
    + rewrite Hv, Hd. reflexivity.
    + rewrite H0, (IH Hd). reflexivity.
Qed.

Lemma dict_of_pairs_ok (P : value -> bool) (pairs : list (pystr * value)) :
  forallb (fun kv => P (snd kv)) pairs = true ->
  NoDup (map fst (dict_of_pairs pairs))
  /\ forallb (fun kv => P (snd kv)) (dict_of_pairs pairs) = true.
Proof.
  unfold dict_of_pairs.
  assert (H : forall acc,
    NoDup (map fst acc) -> forallb (fun kv => P (snd kv)) acc = true ->
    forallb (fun kv => P (snd kv)) pairs = true ->
    NoDup (map fst (fold_left (fun d kv => dict_set (fst kv) (snd kv) d) pairs acc))
    /\ forallb (fun kv => P (snd kv))
         (fold_left (fun d kv => dict_set (fst kv) (snd kv) d) pairs acc) = true).
  { induction pairs as [| [k v] pairs IH]; intros acc Hnd Hacc Hp; cbn [fold_left].
    - split; assumption.
    - cbn [forallb snd] in Hp. apply andb_prop in Hp. destruct Hp as [Hv Hp].
      cbn [fst snd]. apply IH; [| apply dict_set_forall; assumption | exact Hp].
      rewrite dict_set_keys. destruct (dict_in k acc) eqn:Hin; [exact Hnd |].
      apply NoDup_app. split; [exact Hnd |]. split; [| apply NoDup_singleton].
      intros x Hx Hx'. apply list_elem_of_singleton in Hx'. subst x.
      apply (dict_in_keys k acc) in Hx. congruence. }
  intros Hp. apply H; [constructor | reflexivity | exact Hp].
Qed.

(** Every value the decoder builds is well formed and has no [datetime]. *)
Lemma scan_builds (b : bool) (fuel : nat) :
  (forall s v r, scan_once b fuel s = Some (v, r) ->
     well_formed v = true /\ serializable v = true)
  /\ (forall s vs r, array_loop b fuel s = Some (vs, r) ->
        forallb well_formed vs = true /\ forallb serializable vs = true)
  /\ (forall s kvs r, object_loop b fuel s = Some (kvs, r) ->
        forallb (fun kv => well_formed (snd kv)) kvs = true
        /\ forallb (fun kv => serializable (snd kv)) kvs = true).
Proof.
  induction fuel as [| fuel (IHs & IHa & IHo)]; [repeat split; discriminate |].
  split; [| split].
  - intros s v r. destruct s as [| c s1]; [discriminate |]. cbn [scan_once].
    destruct (c =? 34).
    { destruct (scanstring s1) as [[t r'] |]; [| discriminate].
      intros H; inversion H; subst. split; reflexivity. }
    destruct (c =? 123).
    { destruct (skip_ws s1) as [| c2 s2]; [discriminate |].
      destruct (c2 =? 125); [intros H; inversion H; subst; split; reflexivity |].
      destruct (c2 =? 34); [| discriminate].
      destruct (object_loop b fuel s2) as [[pairs r'] |] eqn:Ho; [| discriminate].
      apply IHo in Ho. destruct Ho as [Hw Hs]. intros H; inversion H; subst.
      destruct (dict_of_pairs_ok well_formed pairs Hw) as [Hnd Hw'].
      destruct (dict_of_pairs_ok serializable pairs Hs) as [_ Hs'].
      cbn [well_formed serializable]. rewrite Hw', Hs'.
      rewrite bool_decide_eq_true_2 by exact Hnd. split; reflexivity. }
    destruct (c =? 91).
    { destruct (skip_ws s1) as [| c2 s2]; [discriminate |].
      destruct (c2 =? 93); [intros H; inversion H; subst; split; reflexivity |].
      destruct (array_loop b fuel (c2 :: s2)) as [[vs r'] |] eqn:Ha; [| discriminate].
      apply IHa in Ha. intros H; inversion H; subst. exact Ha. }
    destruct (starts_with (str "null") (c :: s1));
      [intros H; inversion H; subst; split; reflexivity |].
    destruct (starts_with (str "true") (c :: s1));
      [intros H; inversion H; subst; split; reflexivity |].
    destruct (starts_with (str "false") (c :: s1));
      [intros H; inversion H; subst; split; reflexivity |].
    destruct (scan_number (c :: s1)) as [[v' r'] |] eqn:Hn.
    { apply scan_number_ok in Hn. intros H; inversion H; subst. exact Hn. }
    destruct b; [| discriminate].
    destruct (starts_with (str "NaN") (c :: s1));
      [intros H; inversion H; subst; split; reflexivity |].
    destruct (starts_with (str "Infinity") (c :: s1));
      [intros H; inversion H; subst; split; reflexivity |].
    destruct (starts_with (str "-Infinity") (c :: s1)); [| discriminate].
    intros H; inversion H; subst; split; reflexivity.
  - intros s vs r. rewrite array_loop_eq.
    destruct (scan_once b fuel s) as [[v r0] |] eqn:Hs; [| discriminate].
    apply IHs in Hs. destruct Hs as [Hw Hs].
    destruct (skip_ws r0) as [| c r1]; [discriminate |].
    destruct (c =? 93).
    { intros H; inversion H; subst. cbn [forallb]. rewrite Hw, Hs. split; reflexivity. }
    destruct (c =? 44); [| discriminate].
    destruct (array_loop b fuel (skip_ws r1)) as [[vs' r2] |] eqn:Ha; [| discriminate].
    apply IHa in Ha. destruct Ha as [Hwl Hsl].
    intros H; inversion H; subst. cbn [forallb]. rewrite Hw, Hs, Hwl, Hsl. split; reflexivity.
  - intros s kvs r. rewrite object_loop_eq.
    destruct (scanstring s) as [[k r0] |]; [| discriminate].
    destruct (skip_ws r0) as [| c r1]; [discriminate |].
    destruct (c =? 58); [| discriminate].
    destruct (scan_once b fuel (skip_ws r1)) as [[v r2] |] eqn:Hs; [| discriminate].
    apply IHs in Hs. destruct Hs as [Hw Hs].
    destruct (skip_ws r2) as [| c2 r3]; [discriminate |].
    destruct (c2 =? 125).
    { intros H; inversion H; subst. cbn [forallb snd]. rewrite Hw, Hs. split; reflexivity. }
    destruct (c2 =? 44); [| discriminate].
    destruct (skip_ws r3) as [| c3 r4]; [discriminate |].
    destruct (c3 =? 34); [| discriminate].
    destruct (object_loop b fuel r4) as [[kvs' r5] |] eqn:Ho; [| discriminate].
    apply IHo in Ho. destruct Ho as [Hwl Hsl].
    intros H; inversion H; subst. cbn [forallb snd]. rewrite Hw, Hs, Hwl, Hsl.
    split; reflexivity.
Qed.

Lemma loads_builds (s : pystr) (v : value) :
  loads s = Some v -> well_formed v = true /\ serializable v = true.
Proof.
  unfold loads, decode. destruct (starts_with_bom s); [discriminate |].
  destruct (scan_once true (2 * length s + 2) (skip_ws s)) as [[v' r] |] eqn:Hs;
    [| discriminate].
  apply (scan_builds true) in Hs. destruct (skip_ws r); [| discriminate].
  intros H; inversion H; subst. exact Hs.
Qed.

(** A value read from JSON comes back from its text when it has no [NaN]
    and no infinity inside. *)
Lemma loads_round_trip (s : pystr) (v : value) :
  loads s = Some v -> finite v = true ->
  loads (encode v) = Some v /\ valid_json (encode v) = true.
Proof.
  intros Hl Hfin. destruct (loads_builds s v Hl) as [Hwf Hser].
  split; [apply decode_encode; assumption |].
  unfold valid_json. rewrite (decode_encode false v Hwf Hser Hfin). reflexivity.
Qed.

(** ** What the loader hands on *)

Lemma sound_member (d : list (pystr * value)) (k : pystr) (x : value) :
  sound (VDict d) -> dict_get k d = Some x -> sound x.
Proof.
  unfold sound. cbn [well_formed serializable]. intros [Hw Hs] Hk.
  apply andb_prop in Hw. destruct Hw as [_ Hw].
  apply dict_get_elem, list_elem_of_In in Hk.
  rewrite forallb_forall in Hw, Hs. split; [apply (Hw _ Hk) | apply (Hs _ Hk)].
Qed.

Lemma sound_elements (l : list value) : sound (VList l) -> Forall sound l.
Proof.
  unfold sound. cbn [well_formed serializable]. intros [Hw Hs].
  rewrite forallb_forall in Hw, Hs. apply Forall_forall. intros x Hx.
  apply list_elem_of_In in Hx. split; [apply Hw | apply Hs]; exact Hx.
Qed.

Lemma NoDup_filter_fst (p : pystr * value -> bool) (d : list (pystr * value)) :
  NoDup (map fst d) -> NoDup (map fst (List.filter p d)).
Proof.
  induction d as [| [k v] d IH]; [intros _; constructor |]. cbn [map fst List.filter].
  intros H. apply NoDup_cons in H. destruct H as [Hk Hd].
  destruct (p (k, v)); [| apply IH; exact Hd].
  cbn [map fst]. apply NoDup_cons. split; [| apply IH; exact Hd].
  intros Hin. apply Hk. apply list_elem_of_In, in_map_iff in Hin.
  destruct Hin as ([k' v'] & Hk' & Hin). apply filter_In in Hin. destruct Hin as [Hin _].
  cbn [fst] in Hk'. subst k'. apply list_elem_of_In, in_map_iff. exists (k, v'). auto.
Qed.

Lemma forallb_filter (P p : pystr * value -> bool) (d : list (pystr * value)) :
  forallb P d = true -> forallb P (List.filter p d) = true.
Proof.
  rewrite !forallb_forall. intros H x Hx. apply filter_In in Hx. apply H, Hx.
Qed.

Lemma sound_strip_children (d : dict value) :
  sound (VDict d) -> sound (VDict (strip_children d)).
Proof.
  unfold sound, strip_children. cbn [well_formed serializable]. intros [Hw Hs].
  apply andb_prop in Hw. destruct Hw as [Hnd Hw]. apply bool_decide_eq_true in Hnd.
  split.
  - apply andb_true_intro. split; [| apply forallb_filter; exact Hw].
    apply bool_decide_eq_true. apply NoDup_filter_fst. exact Hnd.
  - apply forallb_filter. exact Hs.
Qed.

Lemma sound_iter (v : value) (xs : list value) :
  sound v -> py_iter v = Ok xs -> Forall sound xs.
Proof.
  intros Hv. destruct v; try discriminate; cbn [py_iter]; intros H; inversion H; subst.
  - apply Forall_forall. intros x Hx. apply list_elem_of_In, in_map_iff in Hx.
    destruct Hx as (c & <- & _). split; reflexivity.
  - apply sound_elements. exact Hv.
  - apply Forall_forall. intros x Hx. apply list_elem_of_In, in_map_iff in Hx.
    destruct Hx as (k & <- & _). split; reflexivity.
Qed.

Lemma sound_get (v default x : value) (k : pystr) :
  sound v -> sound default -> py_get v k default = Ok x -> sound x.
Proof.
  intros Hv Hd. destruct v; try discriminate. cbn [py_get].
  destruct (dict_get k d) as [y |] eqn:Hk; intros H; inversion H; subst;
    [eapply sound_member; eauto | exact Hd].
Qed.

Lemma read_document_loads (bytes : pystr) (full : value) :
  read_document bytes = Ok full ->
  exists text, read_text bytes = Some text /\ loads text = Some full.
Proof.
  unfold read_document. destruct (read_text bytes) as [text |]; [| discriminate].
  intros H. exists text. split; [reflexivity |].
  pose proof (json_load_loads text) as Hl. rewrite H in Hl. exact Hl.
Qed.

Lemma d_results_sound (st : state) (data : value) :
  d_results st = Some data -> sound data.
Proof.
  unfold d_results.
  destruct (files st !! json_path (self st)) as [bytes |]; [| discriminate].
  destruct (read_document bytes) as [full | e] eqn:Hl; [| discriminate].
  apply read_document_loads in Hl. destruct Hl as (text & _ & Hl).
  apply loads_builds in Hl.
  destruct (py_get full (str "d") (VDict [])) as [d |] eqn:Hd; [| discriminate].
  destruct (py_get d (str "results") (VList [])) as [x |] eqn:Hr; [| discriminate].
  intros H; inversion H; subst.
  apply (sound_get d (VList []) data (str "results")); [| split; reflexivity | exact Hr].
  apply (sound_get full (VDict []) d (str "d")); [exact Hl | split; reflexivity | exact Hd].
Qed.

Lemma split_step_sound (acc acc' : list value * list value) (org : value) :
  sound org -> Forall sound (fst acc) -> Forall sound (snd acc) ->
  split_step acc org = Ok acc' ->
  Forall sound (fst acc') /\ Forall sound (snd acc').
Proof.
  intros Ho Hf Hs. unfold split_step.
  destruct org; try discriminate. cbn [py_items bind].
  fold (strip_children d).
  assert (Hfst : Forall sound (fst acc ++ [VDict (strip_children d)])).
  { apply Forall_app. split; [exact Hf |]. constructor; [| constructor].
    apply sound_strip_children. exact Ho. }
  destruct (dict_get (str "Communications") d) as [comms |] eqn:Hc.
  - pose proof (sound_member d _ _ Ho Hc) as Hcomms.
    destruct (py_contains (str "results") comms) as [[] |]; cbn [bind]; try discriminate.
    + destruct (py_getitem comms (str "results")) as [res |] eqn:Hres; cbn [bind];
        [| discriminate].
      assert (Hsres : sound res).
      { destruct comms; try discriminate. cbn [py_getitem] in Hres.
        destruct (dict_get (str "results") d0) as [y |] eqn:Hy; [| discriminate].
        inversion Hres; subst. eapply sound_member; eauto. }
      destruct (py_iter res) as [xs |] eqn:Hxs; cbn [bind]; [| discriminate].
      intros H; inversion H; subst. cbn [fst snd]. split; [exact Hfst |].
      apply Forall_app. split; [exact Hs | eapply sound_iter; eauto].
    + intros H; inversion H; subst. split; assumption.
  - intros H; inversion H; subst. split; assumption.
Qed.

Lemma split_loop_sound (orgs : list value) (acc acc' : list value * list value) :
  Forall sound orgs -> Forall sound (fst acc) -> Forall sound (snd acc) ->
  split_loop acc orgs = Ok acc' ->
  Forall sound (fst acc') /\ Forall sound (snd acc').
Proof.
  intros Ho. revert acc. induction Ho as [| org orgs Horg _ IH]; intros acc Hf Hs;
    cbn [split_loop].
  - intros H; inversion H; subst. split; assumption.
  - destruct (split_step acc org) as [acc1 |] eqn:H1; cbn [bind]; [| discriminate].
    destruct (split_step_sound acc acc1 org Horg Hf Hs H1) as [Hf1 Hs1].
    apply IH; assumption.
Qed.

Lemma schema_loop_dicts (records : list value) (sch sch' : schema) :
  schema_loop sch records = Ok sch' -> Forall (fun r => is_dict r = true) records.
Proof.
  revert sch. induction records as [| r records IH]; intros sch; [constructor |].
  cbn [schema_loop]. destruct r; try discriminate. cbn [py_items bind].
  intros H. constructor; [reflexivity | eapply IH; exact H].
Qed.

Lemma sound_raw_record (d : dict value) : sound (VDict d) -> raw_record d = true.
Proof.
  unfold sound, raw_record. cbn [serializable]. intros [_ Hs].
  rewrite forallb_forall in Hs |- *. intros x Hx. unfold storable.
  rewrite (Hs x Hx). apply orb_true_r.
Qed.

(** After a load that returns, the parent and the child records are
    objects as the decoder builds them: records of storable values. *)
Lemma load_json_records (st st' : state) :
  _load_json st = (Ok tt, st') ->
  Forall (fun r => exists d, r = VDict d /\ sound r /\ raw_record d = true)
    (org_records (self st') ++ comm_records (self st')).
Proof.
  destruct (d_results st) as [data |] eqn:Hd;
    [| rewrite (load_json_unresolved st Hd); discriminate].
  rewrite (load_json_run st data Hd). pose proof (d_results_sound st data Hd) as Hdata.
  destruct (negb (truthy data)); [discriminate |].
  destruct (py_iter data) as [orgs |] eqn:Hi; [| discriminate].
  pose proof (sound_iter data orgs Hdata Hi) as Horgs.
  destruct (split_loop ([], []) orgs) as [lists |] eqn:Hsp; [| discriminate].
  destruct (split_loop_sound orgs ([], []) lists Horgs ltac:(constructor)
              ltac:(constructor) Hsp) as [Hf Hs].
  destruct (_extract_schema (fst lists)) as [os |] eqn:Ho; [| discriminate].
  destruct (_extract_schema (snd lists)) as [cs |] eqn:Hc; [| discriminate].
  apply schema_loop_dicts in Ho, Hc.
  intros H; inversion H; subst; clear H. cbn [self org_records comm_records loaded].
  assert (Hall : forall l, Forall sound l -> Forall (fun r => is_dict r = true) l ->
    Forall (fun r => exists d, r = VDict d /\ sound r /\ raw_record d = true) l).
  { intros l H1 H2. rewrite Forall_forall in H1, H2 |- *. intros r Hr.
    specialize (H1 r Hr). specialize (H2 r Hr). destruct r; try discriminate.
    exists d. split; [reflexivity |]. split; [exact H1 | apply sound_raw_record, H1]. }
  apply Forall_app. split; apply Hall; assumption.
Qed.

(** ** C7: composite values come back *)

Lemma escape_char_plain (c : N) : 127 < c -> escape_char c = [c].
Proof.
  intros H. unfold escape_char.
  repeat match goal with
         | |- context [?a =? ?b] =>
             replace (a =? b) with false by (symmetry; apply N.eqb_neq; lia)
         end.
  replace (c <? 32) with false by (symmetry; apply N.ltb_ge; lia). reflexivity.
Qed.

Lemma encode_basestring_plain (s : pystr) :
  Forall (fun c => 127 < c) s -> encode_basestring s = 34 :: s ++ [34].
Proof.
  intros H. unfold encode_basestring. cbn [app]. do 2 f_equal.
  induction H as [| c s Hc _ IH]; [reflexivity |].
  cbn [flat_map]. rewrite (escape_char_plain c Hc), IH. reflexivity.
Qed.

(** C7, as the code has it.  For an array or object value with no [NaN]
    and no infinity inside (a value as Python has it: distinct keys,
    floats as [repr] prints them, and no [datetime] inside, which JSON
    does not give), the normalizer returns the text of the encoder; that
    text is in the JSON grammar, and both the strict decoder and
    [json.loads] read it back to the value itself.  A code point above
    127 is written as it is, so a text of such code points is only put
    between quotes. *)
Theorem composite_round_trip (v : value) :
  is_composite v = true ->
  well_formed v = true ->
  serializable v = true ->
  finite v = true ->
  convert_value v = Ok (VStr (encode v))
  /\ valid_json (encode v) = true
  /\ decode false (encode v) = Some v
  /\ loads (encode v) = Some v
  /\ (forall c, 127 < c -> escape_char c = [c])
  /\ (forall s, Forall (fun c => 127 < c) s -> encode (VStr s) = 34 :: s ++ [34]).
Proof.
  intros Hc Hwf Hser Hfin.
  pose proof (decode_encode false v Hwf Hser Hfin) as Hstrict.
  pose proof (decode_encode true v Hwf Hser Hfin) as Hloads.
  split.
  { unfold convert_value, dumps. rewrite Hser.
    destruct v; try discriminate; reflexivity. }
  split; [unfold valid_json; rewrite Hstrict; reflexivity |].
  split; [exact Hstrict |]. split; [exact Hloads |].
  split; [exact escape_char_plain | exact encode_basestring_plain].
Qed.

Lemma composite_round_trip_witness :
  is_composite sample_composite = true /\ well_formed sample_composite = true
  /\ serializable sample_composite = true /\ finite sample_composite = true
  /\ convert_value sample_composite
     = Ok (VStr (qstr "{'tags': ['" ++ [1089; 1083; 1086; 1074; 1086; 92; 110]
                 ++ qstr "', null], 'n': [-3, 0.25, -1e+22, true, {}]}"))
  /\ valid_json (encode sample_composite) = true
  /\ loads (encode sample_composite) = Some sample_composite.
Proof.
  assert (H1 : is_composite sample_composite = true) by reflexivity.
  assert (H2 : well_formed sample_composite = true) by (vm_compute; reflexivity).
  assert (H3 : serializable sample_composite = true) by reflexivity.
  assert (H4 : finite sample_composite = true) by reflexivity.
  destruct (composite_round_trip _ H1 H2 H3 H4) as (Hconv & Hvalid & _ & Hloads & _).
  split; [exact H1 |]. split; [exact H2 |]. split; [exact H3 |]. split; [exact H4 |].
  split; [rewrite Hconv; vm_compute; reflexivity |]. split; [exact Hvalid | exact Hloads].
Defined.

(** C7 fails as stated: the array that holds an infinity, which
    [json.load] builds from the text [1e999], is written as [Infinity],
    which the JSON grammar does not have; the array that holds a [NaN] is
    written as [NaN]. *)
Lemma non_finite_counterexample :
  let v := VList [VFloat (FInf false)] in
  is_composite v = true /\ well_formed v = true /\ serializable v = true
  /\ loads (str "[1e999]") = Some v
  /\ convert_value v = Ok (VStr (str "[Infinity]"))
  /\ valid_json (str "[Infinity]") = false
  /\ convert_value (VList [VFloat FNaN]) = Ok (VStr (str "[NaN]"))
  /\ valid_json (str "[NaN]") = false.
Proof. vm_compute. repeat split; reflexivity. Qed.

(** * Further properties of the converter and of the script *)

(** ** The columns of a schema *)

Lemma column_order_elem (ds : list (dict value)) (k : pystr) :
  k ∈ column_order ds <-> k <> str "__metadata" /\ exists r, r ∈ ds /\ k ∈ keys r.
Proof.
  unfold column_order. rewrite first_seen_elem, elem_of_filter_bool, elem_of_concat_keys.
  unfold not_metadata. rewrite negb_true_iff, bool_decide_eq_false.
  split.
  - intros [[H1 H2] _]. split; assumption.
  - intros [H1 H2]. split; [split; assumption | apply not_elem_of_nil].
Qed.

Lemma schema_loop_not_dict (records : list value) (sch : schema) :
  forallb is_dict records = false -> schema_loop sch records = Err AttributeError.
Proof.
  revert sch. induction records as [| r rest IH]; intros sch H; [discriminate |].
  cbn [forallb] in H. destruct r; cbn [is_dict andb] in H;
    try reflexivity.
  cbn [schema_loop py_items bind]. apply IH, H.
Qed.

(** X1. [_extract_schema]: the columns of the schema of a list of records
    are distinct, and a key is a column exactly when some record has it
    and it is not [__metadata]. *)
Theorem schema_columns (ds : list (dict value)) :
  exists sch,
    _extract_schema (map VDict ds) = Ok sch
    /\ NoDup (keys sch)
    /\ (str "__metadata" ∉ keys sch)
    /\ forall k, k ∈ keys sch <-> k <> str "__metadata" /\ exists r, r ∈ ds /\ k ∈ keys r.
Proof.
  destruct (extract_schema_column_order ds) as (sch & Hrun & Hk).
  exists sch. split; [exact Hrun |]. rewrite Hk.
  split; [apply first_seen_NoDup |].
  split.
  - intros H. apply column_order_elem in H. destruct H as [H _]. apply H. reflexivity.
  - intros k. apply column_order_elem.
Qed.

(** X2. [_extract_schema] returns exactly on a list of dicts (the empty
    list gives the empty schema); a record that is no dict makes it raise
    [AttributeError], wherever it is in the list. *)
Theorem extract_schema_attribute_error (records : list value) :
  (forallb is_dict records = true -> exists sch, _extract_schema records = Ok sch)
  /\ (forallb is_dict records = false -> _extract_schema records = Err AttributeError)
  /\ (forall pre v post, is_dict v = false ->
        _extract_schema (pre ++ v :: post) = Err AttributeError)
  /\ _extract_schema [] = Ok [].
Proof.
  split; [| split; [| split]].
  - intros H. destruct (all_dicts _ H) as (cs & ->). apply extract_schema_dicts.
  - intros H. apply schema_loop_not_dict, H.
  - intros pre v post Hv. apply schema_loop_not_dict.
    rewrite forallb_app. cbn [forallb]. rewrite Hv.
    rewrite andb_false_l. apply andb_false_r.
  - reflexivity.
Qed.

(** ** The normalizer on any record *)

Lemma convert_value_not_storable (v : value) :
  storable v = false -> convert_value v = Err TypeError.
Proof.
  unfold storable. intros H. apply orb_false_iff in H. destruct H as [Hd Hs].
  destruct v; cbn in Hd, Hs; try discriminate;
    unfold convert_value, dumps; cbn [isinstance_scalar isinstance_str isinstance_int
      isinstance_float isinstance_bool isinstance_datetime orb serializable];
    rewrite Hs; reflexivity.
Qed.

Lemma convert_value_outcome (v : value) :
  convert_value v
  = if storable v
    then Ok (if isinstance_scalar v then v
             else match v with VNone => VNone | _ => VStr (encode v) end)
    else Err TypeError.
Proof.
  destruct (storable v) eqn:H.
  - apply convert_value_storable, H.
  - apply convert_value_not_storable, H.
Qed.

Lemma normalize_columns (r : dict value) (ks : list pystr) :
  mapR (fun field => let* v := py_get (VDict r) field VNone in convert_value v) ks
  = if columns_storable r ks
    then Ok (map (fun k =>
                    match dict_get k r with
                    | None => VNone
                    | Some v =>
                        if isinstance_scalar v then v
                        else match v with VNone => VNone | _ => VStr (encode v) end
                    end) ks)
    else Err TypeError.
Proof.
  induction ks as [| k ks IH]; [reflexivity |].
  cbn [mapR columns_storable forallb map]. fold (columns_storable r ks).
  rewrite IH. cbn [py_get bind].
  destruct (dict_get k r) as [v |] eqn:Hk.
  - rewrite convert_value_outcome. destruct (storable v); cbn [bind andb]; [| reflexivity].
    destruct (columns_storable r ks); reflexivity.
  - cbn [convert_value bind andb].
    destruct (columns_storable r ks); reflexivity.
Qed.

(** X3. [_normalize_record] on any record: a dict gives a row unless a
    column of the schema holds a list or dict with a [datetime] inside,
    which raises [TypeError]; fields outside the schema are never looked
    at; a record that is no dict raises [AttributeError], unless the
    schema has no column. *)
Theorem normalize_record_outcome (sch : schema) (record : value) :
  match record with
  | VDict r =>
      if columns_storable r (keys sch)
      then exists row, _normalize_record record sch = Ok row /\ length row = length sch
      else _normalize_record record sch = Err TypeError
  | _ =>
      _normalize_record record sch = if decide (sch = []) then Ok [] else Err AttributeError
  end.
Proof.
  assert (Hnd : forall v, is_dict v = false ->
            _normalize_record v sch = if decide (sch = []) then Ok [] else Err AttributeError).
  { intros v Hv. unfold _normalize_record. destruct sch as [| [k t] sch'].
    - reflexivity.
    - rewrite decide_False by discriminate. cbn [keys map fst mapR].
      destruct v; try discriminate; reflexivity. }
  destruct record as [| | | | | | l | r]; try (apply Hnd; reflexivity).
  unfold _normalize_record. rewrite normalize_columns.
  destruct (columns_storable r (keys sch)); [| reflexivity].
  eexists. split; [reflexivity |]. unfold keys. rewrite !length_map. reflexivity.
Qed.

(** ** The rows of the records of a load *)

Lemma normalize_all (sch : schema) (records : list value) :
  Forall (fun r => exists d, r = VDict d /\ raw_record d = true) records ->
  exists rows,
    mapR (fun r => _normalize_record r sch) records = Ok rows
    /\ length rows = length records
    /\ forall i d, records !! i = Some (VDict d) ->
         rows !! i = Some (map (fun k =>
                    match dict_get k d with
                    | None => VNone
                    | Some v =>
                        if isinstance_scalar v then v
                        else match v with VNone => VNone | _ => VStr (encode v) end
                    end) (keys sch)).
Proof.
  induction 1 as [| r rest (d & -> & Hraw) _ (rows & Hrows & Hlen & Hat)].
  - exists []. split; [reflexivity |]. split; [reflexivity |]. intros i d H. discriminate.
  - assert (Hc : columns_storable d (keys sch) = true).
    { unfold columns_storable. apply forallb_forall. intros k _.
      destruct (dict_get k d) as [v |] eqn:Hk; [| reflexivity].
      eapply raw_record_storable; eassumption. }
    eexists. cbn [mapR]. unfold _normalize_record at 1. rewrite normalize_columns, Hc.
    cbn [bind]. rewrite Hrows. cbn [bind].
    split; [reflexivity |]. split; [cbn [length]; rewrite Hlen; reflexivity |].
    intros [| i] d' H.
    + cbn in H. injection H as <-. reflexivity.
    + cbn in H |- *. apply Hat, H.
Qed.

Lemma load_json_schemas (st st' : state) :
  _load_json st = (Ok tt, st') ->
  _extract_schema (org_records (self st')) = Ok (org_schema (self st'))
  /\ _extract_schema (comm_records (self st')) = Ok (comm_schema (self st')).
Proof.
  intros Hrun. destruct (d_results st) as [data |] eqn:Hd.
  - rewrite (load_json_run _ _ Hd) in Hrun.
    destruct (negb (truthy data)); [discriminate |].
    destruct (py_iter data) as [orgs | e]; [| discriminate].
    destruct (split_loop ([], []) orgs) as [lists | e]; [| discriminate].
    destruct (_extract_schema (fst lists)) as [os | e] eqn:Hos; [| discriminate].
    destruct (_extract_schema (snd lists)) as [cs | e] eqn:Hcs; [| discriminate].
    injection Hrun as <-. cbn. split; assumption.
  - rewrite (load_json_unresolved _ Hd) in Hrun. discriminate.
Qed.

Lemma extract_schema_covers (ds : list (dict value)) (sch : schema) (d : dict value)
    (k : pystr) :
  _extract_schema (map VDict ds) = Ok sch ->
  d ∈ ds -> k ∈ keys d -> k <> str "__metadata" -> k ∈ keys sch.
Proof.
  intros Hrun Hd Hk Hm.
  destruct (extract_schema_column_order ds) as (sch' & Hrun' & Hkeys).
  rewrite Hrun in Hrun'. injection Hrun' as <-.
  rewrite Hkeys. apply column_order_elem. split; [exact Hm |]. exists d. split; assumption.
Qed.

Lemma Forall_dicts (records : list value) (P : value -> Prop) :
  Forall (fun r => exists d, r = VDict d /\ P r) records ->
  exists ds, records = map VDict ds.
Proof.
  induction 1 as [| r rest (d & -> & _) _ (ds & ->)].
  - exists []. reflexivity.
  - exists (d :: ds). reflexivity.
Qed.

Lemma keys_lookup {V} (k : pystr) (d : dict V) :
  k ∈ keys d -> exists j, keys d !! j = Some k.
Proof. intros H. apply list_elem_of_lookup_1, H. Qed.

Lemma dict_get_Some_keys {V} (k : pystr) (d : dict V) (v : V) :
  dict_get k d = Some v -> k ∈ keys d.
Proof.
  intros H. apply dict_in_keys. unfold dict_in. rewrite H. reflexivity.
Qed.

Lemma records_reach_rows (records : list value) (sch : schema) :
  Forall (fun r => exists d, r = VDict d /\ raw_record d = true) records ->
  _extract_schema records = Ok sch ->
  exists rows,
    mapR (fun r => _normalize_record r sch) records = Ok rows
    /\ length rows = length records
    /\ forall i d k v,
         records !! i = Some (VDict d) -> dict_get k d = Some v ->
         k <> str "__metadata" ->
         exists row j,
           rows !! i = Some row
           /\ length row = length sch
           /\ keys sch !! j = Some k
           /\ row !! j = Some (normalized v).
Proof.
  intros Hraw Hsch.
  destruct (normalize_all sch records Hraw) as (rows & Hrows & Hlen & Hat).
  exists rows. split; [exact Hrows |]. split; [exact Hlen |].
  intros i d k v Hi Hk Hm.
  destruct (Forall_dicts records (fun r => True)) as (ds & Hds).
  { eapply Forall_impl; [exact Hraw |]. intros r (d' & -> & _). exists d'. split; auto. }
  assert (Hin : k ∈ keys sch).
  { subst records. eapply extract_schema_covers; [exact Hsch | | | exact Hm].
    - apply list_elem_of_lookup_2 in Hi. apply list_elem_of_fmap in Hi.
      destruct Hi as (d' & Heq & Hd'). injection Heq as ->. exact Hd'.
    - eapply dict_get_Some_keys, Hk. }
  destruct (keys_lookup _ _ Hin) as (j & Hj).
  eexists _, j. split; [apply Hat, Hi |].
  split; [unfold keys; rewrite !length_map; reflexivity |].
  split; [exact Hj |].
  rewrite list_lookup_fmap, Hj. cbn. rewrite Hk, normalized_scalar. reflexivity.
Qed.

(** X4. After a load that returns, the records it stored all normalize
    against their schema ([_insert_records] reaches the driver with one
    row per record), and no field is lost: every field of a record other
    than [__metadata] has a column, and the row carries there the value
    itself when it is null, a text, a number or a boolean, and its JSON
    text when it is a list or a dict. *)
Theorem loaded_fields_reach_rows (st st' : state) :
  _load_json st = (Ok tt, st') ->
  forall records sch,
    (records, sch) = (org_records (self st'), org_schema (self st'))
    \/ (records, sch) = (comm_records (self st'), comm_schema (self st')) ->
    exists rows,
      mapR (fun r => _normalize_record r sch) records = Ok rows
      /\ length rows = length records
      /\ forall i d k v,
           records !! i = Some (VDict d) -> dict_get k d = Some v ->
           k <> str "__metadata" ->
           exists row j,
             rows !! i = Some row
             /\ length row = length sch
             /\ keys sch !! j = Some k
             /\ row !! j = Some match v with
                                | VList _ | VDict _ => VStr (encode v)
                                | VNone | VBool _ | VInt _ | VFloat _ | VStr _
                                | VDatetime _ => v
                                end.
Proof.
  intros Hrun records sch Hwhich.
  pose proof (load_json_records _ _ Hrun) as Hrec.
  apply Forall_app in Hrec. destruct Hrec as [Ho Hc].
  destruct (load_json_schemas _ _ Hrun) as [Hos Hcs].
  assert (Hgoal : exists rows,
      mapR (fun r => _normalize_record r sch) records = Ok rows
      /\ length rows = length records
      /\ forall i d k v,
           records !! i = Some (VDict d) -> dict_get k d = Some v ->
           k <> str "__metadata" ->
           exists row j,
             rows !! i = Some row
             /\ length row = length sch
             /\ keys sch !! j = Some k
             /\ row !! j = Some (normalized v)).
  { destruct Hwhich as [Heq | Heq]; injection Heq as -> ->.
    - apply records_reach_rows; [| exact Hos].
      eapply Forall_impl; [exact Ho |]. intros r (d & -> & _ & Hraw). exists d. auto.
    - apply records_reach_rows; [| exact Hcs].
      eapply Forall_impl; [exact Hc |]. intros r (d & -> & _ & Hraw). exists d. auto. }
  destruct Hgoal as (rows & Hrows & Hlen & Hcells).
  exists rows. split; [exact Hrows |]. split; [exact Hlen |].
  intros i d k v Hi Hk Hm. destruct (Hcells i d k v Hi Hk Hm) as (row & j & H1 & H2 & H3 & H4).
  exists row, j. split; [exact H1 |]. split; [exact H2 |]. split; [exact H3 |].
  rewrite H4. destruct v; reflexivity.
Qed.

Lemma loaded_fields_reach_rows_witness :
  let st := run_on (Some scenario_text) (Some "blank.mdb"%string) None in
  let st' := snd (_load_json st) in
  _load_json st = (Ok tt, st')
  /\ exists rows row j,
       mapR (fun r => _normalize_record r (org_schema (self st'))) (org_records (self st'))
       = Ok rows
       /\ length rows = 1%nat
       /\ rows !! 0%nat = Some row
       /\ keys (org_schema (self st')) !! j = Some (str "Name")
       /\ row !! j = Some (VStr (str "Acme")).
Proof.
  assert (H1 : _load_json (run_on (Some scenario_text) (Some "blank.mdb"%string) None)
               = (Ok tt, snd (_load_json (run_on (Some scenario_text)
                                            (Some "blank.mdb"%string) None))))
    by (vm_compute; reflexivity).
  split; [exact H1 |].
  destruct (loaded_fields_reach_rows _ _ H1 _ _ (or_introl eq_refl))
    as (rows & Hrows & Hlen & Hcells).
  destruct (Hcells 0%nat [(str "Id", VInt 1); (str "Name", VStr (str "Acme"))]
              (str "Name") (VStr (str "Acme")))
    as (row & j & Hr & _ & Hj & Hv);
    [vm_compute; reflexivity | reflexivity | discriminate |].
  exists rows, row, j. split; [exact Hrows |].
  split; [rewrite Hlen; vm_compute; reflexivity |].
  split; [exact Hr |]. split; [exact Hj | exact Hv].
Defined.

(** ** The statements of the writer *)

Lemma count_markers (ks : list pystr) :
  count_occ N.eq_dec (join (str ", ") (map (fun _ : pystr => str "?") ks)) 63 = length ks
  /\ forall c, c ∈ join (str ", ") (map (fun _ : pystr => str "?") ks) ->
       c = 63 \/ c = 44 \/ c = 32.
Proof.
  induction ks as [| k ks [IH1 IH2]].
  - split; [reflexivity |]. intros c H. cbn in H. apply elem_of_nil in H. destruct H.
  - destruct ks as [| k' ks'].
    + split; [reflexivity |]. intros c H. cbn in H.
      apply list_elem_of_singleton in H. left. exact H.
    + change (join (str ", ") (map (fun _ : pystr => str "?") (k :: k' :: ks')))
        with (63 :: 44 :: 32 :: join (str ", ") (map (fun _ : pystr => str "?") (k' :: ks'))).
      split.
      * cbn [count_occ]. destruct (N.eq_dec 63 63) as [_ | n]; [| contradiction].
        destruct (N.eq_dec 44 63) as [e | _]; [discriminate |].
        destruct (N.eq_dec 32 63) as [e | _]; [discriminate |].
        rewrite IH1. reflexivity.
      * intros c H. rewrite !elem_of_cons in H.
        destruct H as [-> | [-> | [-> | H]]]; auto.
Qed.

(** X5. [_insert_records]: the statement has one parameter marker per
    column of the schema, after [VALUES], and every row [_normalize_record]
    gives for that schema has as many values: rows and markers agree
    whatever the records are. *)
Theorem insert_sql_markers (table_name : pystr) (sch : schema) :
  exists columns markers,
    insert_sql table_name sch
    = str "INSERT INTO " ++ table_name ++ str " (" ++ columns
      ++ str ") VALUES (" ++ markers ++ str ");"
    /\ count_occ N.eq_dec markers 63 = length sch
    /\ (forall c, c ∈ markers -> c = 63 \/ c = 44 \/ c = 32)
    /\ forall record row, _normalize_record record sch = Ok row -> length row = length sch.
Proof.
  eexists _, _. split; [reflexivity |].
  destruct (count_markers (keys sch)) as [H1 H2].
  split; [rewrite H1; unfold keys; apply length_map |].
  split; [exact H2 |].
  intros record row H. unfold _normalize_record in H.
  apply mapR_ok in H. destruct H as [H _]. rewrite H. unfold keys. apply length_map.
Qed.

(** X6. A load that finds no child record leaves the empty child schema:
    the run then asks for a [Communications] table with no column and
    inserts no row into it. *)
Theorem no_children_empty_table (st st' : state) :
  _load_json st = (Ok tt, st') ->
  comm_records (self st') = [] ->
  comm_schema (self st') = []
  /\ build_table_sql (str "Communications") (comm_schema (self st'))
     = str "CREATE TABLE Communications ();"
  /\ insert_sql (str "Communications") (comm_schema (self st'))
     = str "INSERT INTO Communications () VALUES ();"
  /\ mapR (fun r => _normalize_record r (comm_schema (self st'))) (comm_records (self st'))
     = Ok [].
Proof.
  intros Hrun Hnone.
  destruct (load_json_schemas _ _ Hrun) as [_ Hcs].
  rewrite Hnone in Hcs |- *. cbn in Hcs. injection Hcs as <-.
  repeat split; reflexivity.
Qed.

Lemma no_children_empty_table_witness :
  let st := run_on (Some (qstr "{'d':{'results':[{'Id':1,'Communications':{'results':[]}}]}}"))
              (Some "blank.mdb"%string) None in
  let st' := snd (_load_json st) in
  _load_json st = (Ok tt, st')
  /\ comm_records (self st') = []
  /\ org_schema (self st') = [(str "Id", INTEGER)]
  /\ build_table_sql (str "Communications") (comm_schema (self st'))
     = str "CREATE TABLE Communications ();".
Proof.
  assert (H1 : _load_json (run_on (Some (qstr "{'d':{'results':[{'Id':1,'Communications':{'results':[]}}]}}"))
              (Some "blank.mdb"%string) None)
               = (Ok tt, snd (_load_json (run_on (Some (qstr "{'d':{'results':[{'Id':1,'Communications':{'results':[]}}]}}"))
              (Some "blank.mdb"%string) None))))
    by (vm_compute; reflexivity).
  assert (H2 : comm_records (self (snd (_load_json (run_on (Some (qstr "{'d':{'results':[{'Id':1,'Communications':{'results':[]}}]}}"))
              (Some "blank.mdb"%string) None)))) = [])
    by (vm_compute; reflexivity).
  split; [exact H1 |]. split; [exact H2 |].
  split; [vm_compute; reflexivity |].
  destruct (no_children_empty_table _ _ H1 H2) as (_ & H & _). exact H.
Defined.

(** ** The destination file *)

Lemma create_mdb_run (st : state) :
  _create_mdb st
  = match template_given (template_path (self st)) with
    | None =>
        (Err MissingTemplateError,
         mk_state (self st) (delete (mdb_path (self st)) (files st)))
    | Some t =>
        match delete (mdb_path (self st)) (files st) !! t with
        | Some content =>
            (Ok tt, mk_state (self st) (<[mdb_path (self st) := content]> (files st)))
        | None =>
            (Err FileNotFoundError,
             mk_state (self st) (delete (mdb_path (self st)) (files st)))
        end
    end.
Proof.
  destruct st as [c fs]. unfold _create_mdb, bindM, get_self, get_files. cbn [self files].
  destruct (fs !! mdb_path c) as [old |] eqn:Hold.
  - unfold set_files at 1. cbn [self files].
    destruct (template_given (template_path c)) as [t |]; [| reflexivity].
    cbn [self files].
    destruct (delete (mdb_path c) fs !! t) as [content |]; [| reflexivity].
    unfold set_files. cbn [self files]. rewrite insert_delete_eq. reflexivity.
  - unfold ret at 1. rewrite (delete_id _ _ Hold).
    destruct (template_given (template_path c)) as [t |]; [| reflexivity].
    cbn [self files]. destruct (fs !! t) as [content |]; reflexivity.
Qed.

(** X7. [_create_mdb] with a template that is there, at another path than
    the destination: the destination becomes a copy of the template,
    whatever was there before, and no other file changes. *)
Theorem create_mdb_copies_template (st : state) (t : string) (blank : pystr) :
  template_given (template_path (self st)) = Some t ->
  t <> mdb_path (self st) ->
  files st !! t = Some blank ->
  exists st',
    _create_mdb st = (Ok tt, st')
    /\ self st' = self st
    /\ files st' !! mdb_path (self st) = Some blank
    /\ files st' !! t = Some blank
    /\ forall p, p <> mdb_path (self st) -> files st' !! p = files st !! p.
Proof.
  intros Ht Hne Hblank. rewrite create_mdb_run, Ht.
  rewrite lookup_delete_ne by congruence. rewrite Hblank.
  eexists. split; [reflexivity |]. cbn [self files].
  split; [reflexivity |].
  split; [apply lookup_insert_eq |].
  split; [rewrite lookup_insert_ne by congruence; exact Hblank |].
  intros p Hp. apply lookup_insert_ne. congruence.
Qed.

Lemma create_mdb_copies_template_witness :
  let st := run_on None (Some "blank.mdb"%string) (Some (str "old")) in
  exists st',
    _create_mdb st = (Ok tt, st')
    /\ files st' !! "out.mdb"%string = Some (str "MDB")
    /\ files st' !! "blank.mdb"%string = Some (str "MDB").
Proof.
  destruct (create_mdb_copies_template
              (run_on None (Some "blank.mdb"%string) (Some (str "old")))
              "blank.mdb"%string (str "MDB"))
    as (st' & Hrun & _ & Hd & Ht & _);
    [reflexivity | discriminate | vm_compute; reflexivity |].
  exists st'. split; [exact Hrun |]. split; [exact Hd | exact Ht].
Defined.

(** X8. [_create_mdb] removes the destination before it looks at the
    template: with a template path that names no file, or that is the
    destination itself, it raises [FileNotFoundError] and the destination
    is gone; a template given as its own destination is destroyed. *)
Theorem create_mdb_template_missing (st : state) (t : string) :
  template_given (template_path (self st)) = Some t ->
  t = mdb_path (self st) \/ files st !! t = None ->
  exists st',
    _create_mdb st = (Err FileNotFoundError, st')
    /\ self st' = self st
    /\ files st' = delete (mdb_path (self st)) (files st)
    /\ files st' !! mdb_path (self st) = None
    /\ files st' !! t = None.
Proof.
  intros Ht Hcase. rewrite create_mdb_run, Ht.
  assert (Hgone : delete (mdb_path (self st)) (files st) !! t = None).
  { destruct Hcase as [-> | Hnone].
    - apply lookup_delete_eq.
    - destruct (decide (mdb_path (self st) = t)) as [<- | Hne].
      + apply lookup_delete_eq.
      + rewrite lookup_delete_ne by exact Hne. exact Hnone. }
  rewrite Hgone. eexists. split; [reflexivity |]. cbn [self files].
  split; [reflexivity |]. split; [reflexivity |].
  split; [apply lookup_delete_eq | exact Hgone].
Qed.

Lemma create_mdb_template_missing_witness :
  let st := mk_state (new_converter "in.json" "out.mdb" (Some "out.mdb"%string))
              (<["out.mdb"%string := str "MDB"]> ∅) in
  files st !! "out.mdb"%string = Some (str "MDB")
  /\ exists st',
       _create_mdb st = (Err FileNotFoundError, st')
       /\ files st' !! "out.mdb"%string = None.
Proof.
  split; [vm_compute; reflexivity |].
  destruct (create_mdb_template_missing
              (mk_state (new_converter "in.json" "out.mdb" (Some "out.mdb"%string))
                 (<["out.mdb"%string := str "MDB"]> ∅))
              "out.mdb"%string)
    as (st' & Hrun & _ & _ & Hd & _); [reflexivity | left; reflexivity |].
  exists st'. split; [exact Hrun | exact Hd].
Defined.

(** ** The run *)

Lemma cursor_execute_run (driver : odbc) (conn : string) (sql db : pystr) (st : state) :
  files st !! conn = Some db ->
  cursor_execute driver conn sql st
  = match odbc_execute driver sql db with
    | Some db' => (Ok tt, mk_state (self st) (<[conn := db']> (files st)))
    | None => (Err OdbcError, st)
    end.
Proof.
  intros H. unfold cursor_execute, bindM, get_files. rewrite H.
  destruct (odbc_execute driver sql db); reflexivity.
Qed.

Lemma cursor_executemany_run (driver : odbc) (conn : string) (sql db : pystr)
    (rows : list (list value)) (st : state) :
  files st !! conn = Some db ->
  cursor_executemany driver conn sql rows st
  = match odbc_executemany driver sql rows db with
    | Some db' => (Ok tt, mk_state (self st) (<[conn := db']> (files st)))
    | None => (Err OdbcError, st)
    end.
Proof.
  intros H. unfold cursor_executemany, bindM, get_files. rewrite H.
  destruct (odbc_executemany driver sql rows db); reflexivity.
Qed.

Lemma convert_after_load (driver : odbc) (st st1 : state) :
  _load_json st = (Ok tt, st1) ->
  convert driver st
  = (_create_mdb ;;
     let! conn := _connect_mdb driver in
     _create_tables driver conn ;; _insert_data driver conn) st1.
Proof.
  intros H. unfold convert at 1. unfold bindM at 1. rewrite H. reflexivity.
Qed.

Lemma convert_after_copy (driver : odbc) (st st1 : state) (t : string) (blank : pystr) :
  _load_json st = (Ok tt, st1) ->
  template_given (template_path (self st)) = Some t ->
  t <> mdb_path (self st) ->
  files st !! t = Some blank ->
  convert driver st
  = (let! conn := _connect_mdb driver in
     _create_tables driver conn ;; _insert_data driver conn)
      (mk_state (self st1) (<[mdb_path (self st) := blank]> (files st))).
Proof.
  intros Hload Ht Hne Hblank.
  destruct (load_json_frame _ _ _ Hload) as (Hf & _ & Hm & Htp).
  rewrite (convert_after_load _ _ _ Hload).
  unfold bindM at 1. rewrite create_mdb_run, Htp, Ht, Hm, Hf.
  rewrite lookup_delete_ne by congruence. rewrite Hblank. reflexivity.
Qed.

(** X9. A driver that refuses to open the copy of the template: the run
    raises [RuntimeError] with the driver's message after the destination
    has been replaced by that copy, and no statement is issued. *)
Theorem convert_connect_refused (driver : odbc) (st st1 : state) (t : string)
    (blank : pystr) (e : string) :
  _load_json st = (Ok tt, st1) ->
  template_given (template_path (self st)) = Some t ->
  t <> mdb_path (self st) ->
  files st !! t = Some blank ->
  odbc_connect driver (Some blank) = Some e ->
  convert driver st
  = (Err (RuntimeError ("Failed to connect to MDB: " +:+ e)),
     mk_state (self st1) (<[mdb_path (self st) := blank]> (files st))).
Proof.
  intros Hload Ht Hne Hblank Hconn.
  destruct (load_json_frame _ _ _ Hload) as (_ & _ & Hm & _).
  rewrite (convert_after_copy _ _ _ _ _ Hload Ht Hne Hblank).
  unfold bindM at 1. unfold _connect_mdb, bindM, get_self, get_files. cbn [self files].
  rewrite Hm, lookup_insert_eq, Hconn. reflexivity.
Qed.

Lemma convert_connect_refused_witness :
  let driver := mk_odbc (fun _ => Some "locked"%string) (fun _ db => Some db)
                  (fun _ _ db => Some db) in
  let st := run_on (Some scenario_text) (Some "blank.mdb"%string) (Some (str "old")) in
  fst (convert driver st) = Err (RuntimeError "Failed to connect to MDB: locked")
  /\ files (snd (convert driver st)) !! "out.mdb"%string = Some (str "MDB").
Proof.
  cbv zeta.
  rewrite (convert_connect_refused
             (mk_odbc (fun _ => Some "locked"%string) (fun _ db => Some db)
                (fun _ _ db => Some db))
             (run_on (Some scenario_text) (Some "blank.mdb"%string) (Some (str "old")))
             (snd (_load_json (run_on (Some scenario_text) (Some "blank.mdb"%string)
                                 (Some (str "old")))))
             "blank.mdb"%string (str "MDB") "locked"%string);
    [| vm_compute; reflexivity | reflexivity | discriminate
     | vm_compute; reflexivity | reflexivity].
  split; [reflexivity | vm_compute; reflexivity].
Defined.

(** X10. A run whose load returns, with a template the driver opens: the
    four requests go to the driver in this order, the two tables and then
    the rows of each, on the copy of the template; the destination ends as
    the database after the requests the driver accepted, and the run
    returns when it accepted all four and raises the driver's error at the
    first it rejects, keeping what the earlier ones wrote. *)
Theorem convert_runs_requests (driver : odbc) (st st1 : state) (t : string)
    (blank : pystr) :
  _load_json st = (Ok tt, st1) ->
  template_given (template_path (self st)) = Some t ->
  t <> mdb_path (self st) ->
  files st !! t = Some blank ->
  odbc_connect driver (Some blank) = None ->
  exists rows_o rows_c,
    mapR (fun r => _normalize_record r (org_schema (self st1))) (org_records (self st1))
    = Ok rows_o
    /\ mapR (fun r => _normalize_record r (comm_schema (self st1))) (comm_records (self st1))
       = Ok rows_c
    /\ convert driver st
       = (if snd (run_requests driver (requests (self st1) rows_o rows_c) blank)
          then Ok tt else Err OdbcError,
          mk_state (self st1)
            (<[mdb_path (self st) :=
                 fst (run_requests driver (requests (self st1) rows_o rows_c) blank)]>
               (files st))).
Proof.
  intros Hload Ht Hne Hblank Hconn.
  destruct (load_json_frame _ _ _ Hload) as (_ & _ & Hm & _).
  pose proof (load_json_records _ _ Hload) as Hrec.
  apply Forall_app in Hrec. destruct Hrec as [Ho Hc].
  destruct (normalize_all (org_schema (self st1)) (org_records (self st1)))
    as (rows_o & Hro & _).
  { eapply Forall_impl; [exact Ho |]. intros r (d & -> & _ & Hraw). exists d. auto. }
  destruct (normalize_all (comm_schema (self st1)) (comm_records (self st1)))
    as (rows_c & Hrc & _).
  { eapply Forall_impl; [exact Hc |]. intros r (d & -> & _ & Hraw). exists d. auto. }
  exists rows_o, rows_c. split; [exact Hro |]. split; [exact Hrc |].
  rewrite (convert_after_copy _ _ _ _ _ Hload Ht Hne Hblank).
  set (dest := mdb_path (self st)) in *.
  unfold bindM at 1. unfold _connect_mdb, bindM, get_self, get_files. cbn [self files].
  rewrite Hm. fold dest. rewrite lookup_insert_eq, Hconn. unfold ret at 1.
  unfold requests. cbn [run_requests apply_request].
  unfold _create_tables, _insert_data, _insert_records, bindM, get_self, lift.
  cbn [self files].
  rewrite (cursor_execute_run _ _ _ blank) by apply lookup_insert_eq.
  destruct (odbc_execute driver _ blank) as [db1 |]; [| reflexivity].
  cbn [self files fst snd]. rewrite insert_insert_eq.
  rewrite (cursor_execute_run _ _ _ db1) by apply lookup_insert_eq.
  destruct (odbc_execute driver _ db1) as [db2 |];
    [| cbn [fst snd]; reflexivity].
  cbn [self files fst snd]. rewrite insert_insert_eq. rewrite Hro.
  rewrite (cursor_executemany_run _ _ _ db2) by apply lookup_insert_eq.
  destruct (odbc_executemany driver _ rows_o db2) as [db3 |];
    [| cbn [fst snd]; reflexivity].
  cbn [self files fst snd]. rewrite insert_insert_eq. rewrite Hrc.
  rewrite (cursor_executemany_run _ _ _ db3) by apply lookup_insert_eq.
  destruct (odbc_executemany driver _ rows_c db3) as [db4 |];
    [| cbn [fst snd]; reflexivity].
  cbn [self files fst snd]. rewrite insert_insert_eq. reflexivity.
Qed.

Lemma convert_runs_requests_witness :
  let st := run_on (Some scenario_text) (Some "blank.mdb"%string) (Some (str "old")) in
  (fst (convert sample_driver st) = Ok tt
   /\ files (snd (convert sample_driver st)) !! "out.mdb"%string
      = Some (str "MDBCREATE TABLE Organizations ([Id] INTEGER, [Name] TEXT(255));"
              ++ str "CREATE TABLE Communications ([OrgId] INTEGER, [Type] TEXT(255));"
              ++ str "INSERT INTO Organizations ([Id], [Name]) VALUES (?, ?);"
              ++ str "INSERT INTO Communications ([OrgId], [Type]) VALUES (?, ?);"))
  /\ (fst (convert no_insert_driver st) = Err OdbcError
      /\ files (snd (convert no_insert_driver st)) !! "out.mdb"%string
         = Some (str "MDBCREATE TABLE Organizations ([Id] INTEGER, [Name] TEXT(255));"
                 ++ str "CREATE TABLE Communications ([OrgId] INTEGER, [Type] TEXT(255));")).
Proof.
  cbv zeta.
  assert (H1 : _load_json (run_on (Some scenario_text) (Some "blank.mdb"%string)
                             (Some (str "old")))
               = (Ok tt, snd (_load_json (run_on (Some scenario_text)
                                            (Some "blank.mdb"%string) (Some (str "old"))))))
    by (vm_compute; reflexivity).
  assert (H2 : template_given
                 (template_path (self (run_on (Some scenario_text) (Some "blank.mdb"%string)
                                         (Some (str "old")))))
               = Some "blank.mdb"%string) by reflexivity.
  assert (H3 : "blank.mdb"%string
               <> mdb_path (self (run_on (Some scenario_text) (Some "blank.mdb"%string)
                                    (Some (str "old"))))) by discriminate.
  assert (H4 : files (run_on (Some scenario_text) (Some "blank.mdb"%string)
                        (Some (str "old"))) !! "blank.mdb"%string
               = Some (str "MDB")) by (vm_compute; reflexivity).
  split.
  - destruct (convert_runs_requests sample_driver _ _ _ _ H1 H2 H3 H4 eq_refl)
      as (rows_o & rows_c & _ & _ & Hrun).
    rewrite Hrun. split; [reflexivity |]. cbn [snd files].
    rewrite lookup_insert_eq. vm_compute. reflexivity.
  - destruct (convert_runs_requests no_insert_driver _ _ _ _ H1 H2 H3 H4 eq_refl)
      as (rows_o & rows_c & _ & _ & Hrun).
    rewrite Hrun. split; [reflexivity |]. cbn [snd files].
    rewrite lookup_insert_eq. vm_compute. reflexivity.
Defined.

(** ** A second run *)

Lemma writes_only_bind {A B} (path : string) (m : M A) (k : A -> M B) :
  writes_only path m -> (forall a, writes_only path (k a)) -> writes_only path (bindM m k).
Proof.
  intros Hm Hk st. unfold bindM. destruct (Hm st) as [H1 H2].
  destruct (m st) as [[a | e] st1]; cbn [snd] in *.
  - destruct (Hk a st1) as [H3 H4]. split; [congruence |].
    intros p Hp. rewrite H4, H2 by exact Hp. reflexivity.
  - split; assumption.
Qed.

Lemma writes_only_pure {A} (path : string) (f : state -> result A) :
  writes_only path (fun st => (f st, st)).
Proof. intros st. split; [reflexivity | intros p _; reflexivity]. Qed.

Lemma writes_only_execute (driver : odbc) (conn : string) (sql : pystr) :
  writes_only conn (cursor_execute driver conn sql).
Proof.
  intros st. unfold cursor_execute, bindM, get_files.
  destruct (files st !! conn) as [db |]; [| split; [reflexivity | intros p _; reflexivity]].
  destruct (odbc_execute driver sql db) as [db1 |];
    [| split; [reflexivity | intros p _; reflexivity]].
  split; [reflexivity |]. intros p Hp. cbn. apply lookup_insert_ne. congruence.
Qed.

Lemma writes_only_executemany (driver : odbc) (conn : string) (sql : pystr)
    (rows : list (list value)) :
  writes_only conn (cursor_executemany driver conn sql rows).
Proof.
  intros st. unfold cursor_executemany, bindM, get_files.
  destruct (files st !! conn) as [db |]; [| split; [reflexivity | intros p _; reflexivity]].
  destruct (odbc_executemany driver sql rows db) as [db1 |];
    [| split; [reflexivity | intros p _; reflexivity]].
  split; [reflexivity |]. intros p Hp. cbn. apply lookup_insert_ne. congruence.
Qed.

Lemma writes_only_tables (driver : odbc) (conn : string) :
  writes_only conn (_create_tables driver conn ;; _insert_data driver conn).
Proof.
  apply writes_only_bind.
  - unfold _create_tables. apply writes_only_bind; [apply (writes_only_pure _ (fun st => Ok (self st))) |].
    intros c. apply writes_only_bind; [apply writes_only_execute |].
    intros _. apply writes_only_execute.
  - intros _. unfold _insert_data.
    apply writes_only_bind; [apply (writes_only_pure _ (fun st => Ok (self st))) |].
    intros c. apply writes_only_bind.
    + unfold _insert_records. apply writes_only_bind; [apply writes_only_pure |].
      intros rows. apply writes_only_executemany.
    + intros _. unfold _insert_records. apply writes_only_bind; [apply writes_only_pure |].
      intros rows. apply writes_only_executemany.
Qed.

Lemma writes_only_connected (driver : odbc) (st : state) :
  self (snd ((let! conn := _connect_mdb driver in
              _create_tables driver conn ;; _insert_data driver conn) st)) = self st
  /\ forall p, p <> mdb_path (self st) ->
       files (snd ((let! conn := _connect_mdb driver in
                    _create_tables driver conn ;; _insert_data driver conn) st)) !! p
       = files st !! p.
Proof.
  unfold bindM at 1. unfold _connect_mdb, bindM, get_self, get_files.
  destruct (odbc_connect driver (files st !! mdb_path (self st))) as [e |].
  - split; [reflexivity | intros p _; reflexivity].
  - unfold ret. apply writes_only_tables.
Qed.

Lemma d_results_depends (a b : state) :
  json_path (self a) = json_path (self b) ->
  files a !! json_path (self a) = files b !! json_path (self a) ->
  d_results a = d_results b.
Proof. intros Hp Hf. unfold d_results. rewrite <- Hp, Hf. reflexivity. Qed.

Lemma load_json_depends (a b a' : state) :
  json_path (self a) = json_path (self b) ->
  mdb_path (self a) = mdb_path (self b) ->
  template_path (self a) = template_path (self b) ->
  files a !! json_path (self a) = files b !! json_path (self a) ->
  _load_json a = (Ok tt, a') ->
  _load_json b = (Ok tt, mk_state (self a') (files b)).
Proof.
  intros Hj Hm Ht Hf Hrun. pose proof (d_results_depends a b Hj Hf) as Hd.
  destruct (d_results a) as [data |] eqn:Hda.
  - rewrite (load_json_run _ _ Hda) in Hrun. symmetry in Hd.
    rewrite (load_json_run _ _ Hd).
    destruct (negb (truthy data)); [discriminate |].
    destruct (py_iter data) as [orgs | e]; [| discriminate].
    destruct (split_loop ([], []) orgs) as [lists | e]; [| discriminate].
    destruct (_extract_schema (fst lists)) as [os | e]; [| discriminate].
    destruct (_extract_schema (snd lists)) as [cs | e]; [| discriminate].
    injection Hrun as <-. cbn [self]. unfold loaded. rewrite Hj, Hm, Ht. reflexivity.
  - rewrite (load_json_unresolved _ Hda) in Hrun. discriminate.
Qed.

(** X11. A second run of the same object starts from scratch: with the
    input and the template at other paths than the destination, running
    [convert] again after a run whose load returned gives the result and
    the state of the first run, whatever the driver accepted; nothing of
    the first output is kept or added to. *)
Theorem convert_rerun (driver : odbc) (st st1 : state) (t : string) (blank : pystr) :
  _load_json st = (Ok tt, st1) ->
  template_given (template_path (self st)) = Some t ->
  t <> mdb_path (self st) ->
  json_path (self st) <> mdb_path (self st) ->
  files st !! t = Some blank ->
  convert driver (snd (convert driver st)) = convert driver st.
Proof.
  intros Hload Ht Hne Hjson Hblank.
  destruct (load_json_frame _ _ _ Hload) as (Hf & Hj & Hm & Htp).
  pose proof (convert_after_copy driver _ _ _ _ Hload Ht Hne Hblank) as Hfirst.
  destruct (writes_only_connected driver
              (mk_state (self st1) (<[mdb_path (self st) := blank]> (files st))))
    as [Hself Hfiles].
  rewrite <- Hfirst in Hself, Hfiles. cbn [self files] in Hself, Hfiles.
  rewrite Hm in Hfiles.
  set (st' := snd (convert driver st)) in *.
  assert (Hoff : forall p, p <> mdb_path (self st) -> files st' !! p = files st !! p).
  { intros p Hp. rewrite Hfiles by exact Hp. apply lookup_insert_ne. congruence. }
  assert (Hload' : _load_json st' = (Ok tt, mk_state (self st1) (files st'))).
  { apply (load_json_depends st st' st1); try (rewrite Hself; congruence).
    - symmetry. apply Hoff. exact Hjson.
    - exact Hload. }
  assert (Hm' : mdb_path (self st') = mdb_path (self st)) by (rewrite Hself; exact Hm).
  rewrite (convert_after_copy driver st' _ t blank Hload').
  - rewrite Hfirst. cbn [self]. rewrite Hm'. f_equal. f_equal.
    apply map_eq. intros p. destruct (decide (p = mdb_path (self st))) as [-> | Hp].
    + rewrite !lookup_insert_eq. reflexivity.
    + rewrite !lookup_insert_ne by congruence. apply Hoff, Hp.
  - rewrite Hself, Htp. exact Ht.
  - rewrite Hm'. exact Hne.
  - rewrite Hoff by exact Hne. exact Hblank.
Qed.

Lemma convert_rerun_witness :
  let st := run_on (Some scenario_text) (Some "blank.mdb"%string) (Some (str "old")) in
  convert sample_driver (snd (convert sample_driver st)) = convert sample_driver st
  /\ fst (convert sample_driver st) = Ok tt.
Proof.
  cbv zeta. split; [| vm_compute; reflexivity].
  apply (convert_rerun sample_driver
           (run_on (Some scenario_text) (Some "blank.mdb"%string) (Some (str "old")))
           (snd (_load_json (run_on (Some scenario_text) (Some "blank.mdb"%string)
                               (Some (str "old")))))
           "blank.mdb"%string (str "MDB"));
    [vm_compute; reflexivity | reflexivity | discriminate | discriminate
    | vm_compute; reflexivity].
Defined.

(** ** More inputs the loader does not take *)

Lemma split_step_unreadable (acc : list value * list value) (r : dict value)
    (comms : value) :
  dict_get (str "Communications") r = Some comms ->
  unreadable_children comms = true ->
  split_step acc (VDict r) = Err TypeError.
Proof.
  intros Hc Hu. unfold split_step. cbn [py_items bind]. rewrite Hc.
  destruct comms as [| b | n | f | s | dt | l | c]; try discriminate; try reflexivity.
  cbn [unreadable_children] in Hu. cbn [py_contains bind py_getitem]. unfold dict_in.
  destruct (dict_get (str "results") c) as [res |]; [| discriminate].
  cbn [bind]. destruct res; try discriminate; reflexivity.
Qed.

(** X12. A parent whose [Communications] is null, a boolean or a number,
    or an object whose [results] is one of these, makes the load raise
    [TypeError] and leaves the object as it was; nothing is loaded from
    the parents before it either. *)
Theorem loader_unreadable_children (st : state) (pre post : list (dict value))
    (r : dict value) (comms : value) :
  d_results st = Some (VList (map VDict (pre ++ r :: post))) ->
  forallb nested pre = true ->
  dict_get (str "Communications") r = Some comms ->
  unreadable_children comms = true ->
  _load_json st = (Err TypeError, st).
Proof.
  intros Hd Hpre Hc Hu.
  rewrite (load_json_run st _ Hd).
  replace (negb (truthy (VList (map VDict (pre ++ r :: post))))) with false
    by (destruct pre; reflexivity).
  cbn [py_iter].
  assert (Hloop : forall acc,
            split_loop acc (map VDict (pre ++ r :: post)) = Err TypeError).
  { clear Hd. induction pre as [| r0 pre IH]; intros acc.
    - cbn [app map split_loop]. rewrite (split_step_unreadable acc r comms Hc Hu).
      reflexivity.
    - cbn [forallb] in Hpre. apply andb_prop in Hpre. destruct Hpre as [H0 Hpre].
      cbn [app map split_loop]. rewrite (split_step_nested acc r0 H0). cbn [bind].
      apply IH, Hpre. }
  rewrite Hloop. reflexivity.
Qed.

Lemma loader_unreadable_children_witness :
  let st1 := run_on (Some (qstr "{'d':{'results':[{'Id':1,'Communications':null}]}}"))
               (Some "blank.mdb"%string) None in
  let st2 := run_on (Some (qstr "{'d':{'results':[{'Id':1},{'Communications':{'results':null}}]}}"))
               (Some "blank.mdb"%string) None in
  _load_json st1 = (Err TypeError, st1) /\ _load_json st2 = (Err TypeError, st2).
Proof.
  split.
  - apply (loader_unreadable_children
             (run_on (Some (qstr "{'d':{'results':[{'Id':1,'Communications':null}]}}"))
                (Some "blank.mdb"%string) None)
             [] [] [(str "Id", VInt 1); (str "Communications", VNone)] VNone);
      vm_compute; reflexivity.
  - apply (loader_unreadable_children
             (run_on (Some (qstr "{'d':{'results':[{'Id':1},{'Communications':{'results':null}}]}}"))
                (Some "blank.mdb"%string) None)
             [[(str "Id", VInt 1)]] []
             [(str "Communications", VDict [(str "results", VNone)])]
             (VDict [(str "results", VNone)]));
      vm_compute; reflexivity.
Defined.

(** X13. Parents the loop goes through, with a child that is no object:
    the load raises [AttributeError] when it infers the child schema, and
    by then the object holds the parent schema of this input, while its
    child schema and its records are those it had before. *)
Theorem loader_child_not_object (st : state) (ds : list (dict value)) :
  d_results st = Some (VList (map VDict ds)) ->
  forallb nested ds = true ->
  forallb is_dict (concat (map children ds)) = false ->
  exists os st',
    _load_json st = (Err AttributeError, st')
    /\ _extract_schema (map (fun r => VDict (strip_children r)) ds) = Ok os
    /\ keys os = column_order (map strip_children ds)
    /\ org_schema (self st') = os
    /\ comm_schema (self st') = comm_schema (self st)
    /\ org_records (self st') = org_records (self st)
    /\ comm_records (self st') = comm_records (self st)
    /\ files st' = files st.
Proof.
  intros Hd Hnested Hchild.
  assert (Hne : ds <> []) by (intros ->; discriminate).
  destruct (extract_schema_column_order (map strip_children ds)) as (os & Hos & Hkeys).
  rewrite map_map in Hos.
  exists os, (mk_state (set_org_schema os (self st)) (files st)).
  split; [| repeat split; assumption].
  rewrite (load_json_run st _ Hd).
  replace (negb (truthy (VList (map VDict ds)))) with false
    by (destruct ds; [contradiction | reflexivity]).
  cbn [py_iter]. rewrite (split_loop_nested ds ([], []) Hnested). cbn [fst snd app].
  rewrite Hos.
  unfold _extract_schema at 1. rewrite (schema_loop_not_dict _ [] Hchild). reflexivity.
Qed.

Lemma loader_child_not_object_witness :
  let st := run_on (Some (qstr "{'d':{'results':[{'Id':1,'Communications':{'results':[7]}}]}}"))
              (Some "blank.mdb"%string) None in
  fst (_load_json st) = Err AttributeError
  /\ org_schema (self st) = []
  /\ org_schema (self (snd (_load_json st))) = [(str "Id", INTEGER)]
  /\ org_records (self (snd (_load_json st))) = [].
Proof.
  cbv zeta.
  destruct (loader_child_not_object
              (run_on (Some (qstr "{'d':{'results':[{'Id':1,'Communications':{'results':[7]}}]}}"))
                 (Some "blank.mdb"%string) None)
              [[(str "Id", VInt 1);
                (str "Communications", VDict [(str "results", VList [VInt 7])])]])
    as (os & st' & Hrun & Hos & _ & Ho & _ & Hr & _);
    [vm_compute; reflexivity | reflexivity | reflexivity |].
  rewrite Hrun. cbn [fst snd]. split; [reflexivity |]. split; [reflexivity |].
  split; [| exact Hr].
  rewrite Ho. vm_compute in Hos. injection Hos as <-. reflexivity.
Defined.

Lemma split_loop_not_dict (pre : list (dict value)) (v : value) (post : list value)
    (acc : list value * list value) :
  forallb nested pre = true ->
  is_dict v = false ->
  split_loop acc (map VDict pre ++ v :: post) = Err AttributeError.
Proof.
  intros Hpre Hv. revert acc. induction pre as [| r0 pre IH]; intros acc.
  - cbn [map app split_loop]. unfold split_step.
    destruct v; try discriminate; reflexivity.
  - cbn [forallb] in Hpre. apply andb_prop in Hpre. destruct Hpre as [H0 Hpre].
    cbn [map app split_loop]. rewrite (split_step_nested acc r0 H0). cbn [bind].
    apply IH, Hpre.
Qed.

(** X14. A [d.results] that is there and not empty but is no array of
    objects: a number or [true] raises [TypeError]; an object or a text,
    whose keys or characters the loop takes for records, and an array
    with an element that is no object, raise [AttributeError].  The
    object is left as it was. *)
Theorem loader_results_not_records (st : state) (data : value) :
  d_results st = Some data ->
  truthy data = true ->
  (no_container data = true -> _load_json st = (Err TypeError, st))
  /\ (is_dict data = true \/ isinstance_str data = true ->
      _load_json st = (Err AttributeError, st))
  /\ (forall pre v post,
        data = VList (map VDict pre ++ v :: post) ->
        forallb nested pre = true -> is_dict v = false ->
        _load_json st = (Err AttributeError, st)).
Proof.
  intros Hd Ht. rewrite (load_json_run st _ Hd), Ht. cbn [negb].
  split; [| split].
  - intros Hnc. destruct data; try discriminate; reflexivity.
  - intros [H | H]; destruct data as [| | | | s | | | d]; try discriminate.
    + destruct d as [| [k v] d]; [discriminate |]. reflexivity.
    + destruct s as [| c s]; [discriminate |]. reflexivity.
  - intros pre v post -> Hpre Hv. cbn [py_iter].
    rewrite (split_loop_not_dict pre v post ([], []) Hpre Hv). reflexivity.
Qed.

Lemma loader_results_not_records_witness :
  let st1 := run_on (Some (qstr "{'d':{'results':{'Id':1}}}")) (Some "blank.mdb"%string)
               None in
  let st2 := run_on (Some (qstr "{'d':{'results':[{'Id':1},'x']}}"))
               (Some "blank.mdb"%string) None in
  _load_json st1 = (Err AttributeError, st1) /\ _load_json st2 = (Err AttributeError, st2).
Proof.
  cbv zeta. split.
  - destruct (loader_results_not_records
                (run_on (Some (qstr "{'d':{'results':{'Id':1}}}"))
                   (Some "blank.mdb"%string) None)
                (VDict [(str "Id", VInt 1)]))
      as (_ & H & _); [vm_compute; reflexivity | reflexivity |].
    apply H. left. reflexivity.
  - destruct (loader_results_not_records
                (run_on (Some (qstr "{'d':{'results':[{'Id':1},'x']}}"))
                   (Some "blank.mdb"%string) None)
                (VList [VDict [(str "Id", VInt 1)]; VStr (str "x")]))
      as (_ & _ & H); [vm_compute; reflexivity | reflexivity |].
    apply (H [[(str "Id", VInt 1)]] (VStr (str "x")) []); reflexivity.
Defined.

(** ** The script of [backend/main.py]: the tuples *)

Lemma mapR_get (d : dict value) (fields : list pystr) :
  mapR (fun field => py_get (VDict d) field VNone) fields
  = Ok (map (fun field => match dict_get field d with Some v => v | None => VNone end)
          fields).
Proof.
  induction fields as [| f fields IH]; [reflexivity |].
  cbn [mapR map]. rewrite IH. reflexivity.
Qed.

Lemma organization_row_dict (d : dict value) :
  organization_row (VDict d) = Ok (organization_tuple d).
Proof. apply mapR_get. Qed.

Lemma organization_row_not_dict (v : value) :
  is_dict v = false -> organization_row v = Err AttributeError.
Proof. destruct v; try discriminate; reflexivity. Qed.

Lemma communication_row_dict (d : dict value) :
  communication_row (VDict d) = Ok (communication_tuple d).
Proof. unfold communication_row. rewrite mapR_get. reflexivity. Qed.

Lemma communication_row_not_dict (v : value) :
  is_dict v = false -> communication_row v = Err AttributeError.
Proof. destruct v; try discriminate; reflexivity. Qed.

Lemma communication_rows (children : list value) (rows : list (list value)) :
  mapR communication_row children = Ok rows ->
  exists cs, children = map VDict cs /\ rows = map communication_tuple cs.
Proof.
  revert rows. induction children as [| c children IH]; intros rows H.
  - injection H as <-. exists []. split; reflexivity.
  - cbn [mapR] in H. destruct c as [| | | | | | | d];
      try (rewrite communication_row_not_dict in H by reflexivity; discriminate).
    rewrite communication_row_dict in H. cbn [bind] in H.
    destruct (mapR communication_row children) as [rows' | e]; [| discriminate].
    injection H as <-. destruct (IH _ eq_refl) as (cs & -> & ->).
    exists (d :: cs). split; reflexivity.
Qed.

Lemma communication_rows_error (children : list value) (e : exn) :
  mapR communication_row children = Err e -> e = AttributeError.
Proof.
  induction children as [| c children IH]; intros H; [discriminate |].
  cbn [mapR] in H. destruct c as [| | | | | | | d];
    try (rewrite communication_row_not_dict in H by reflexivity;
         injection H as <-; reflexivity).
  rewrite communication_row_dict in H. cbn [bind] in H.
  destruct (mapR communication_row children) as [rows' | e']; [discriminate |].
  injection H as <-. apply IH. reflexivity.
Qed.

(** What the step does to a dict, by its children field. *)
Lemma extract_step_dict (acc : list (list value) * list (list value)) (d : dict value) :
  extract_step acc (VDict d)
  = match dict_get (str "Communications") d with
    | None => Ok (fst acc ++ [organization_tuple d], snd acc)
    | Some comms =>
        let* has := py_contains (str "results") comms in
        if has then
          let* res := py_getitem comms (str "results") in
          let* children := py_iter res in
          let* rows := mapR communication_row children in
          Ok (fst acc ++ [organization_tuple d], snd acc ++ rows)
        else Ok (fst acc ++ [organization_tuple d], snd acc)
    end.
Proof.
  unfold extract_step. rewrite organization_row_dict.
  cbn [bind py_contains py_getitem]. unfold dict_in.
  destruct (dict_get (str "Communications") d) as [comms |]; [| reflexivity].
  cbn [bind]. destruct (py_contains (str "results") comms) as [[|] | e]; reflexivity.
Qed.

Lemma extract_step_ok (acc tables : list (list value) * list (list value)) (org : value) :
  extract_step acc org = Ok tables ->
  exists d cs,
    org = VDict d
    /\ fst tables = fst acc ++ [organization_tuple d]
    /\ snd tables = snd acc ++ map communication_tuple cs.
Proof.
  intros H. destruct org as [| | | | | | | d];
    try (unfold extract_step in H;
         rewrite organization_row_not_dict in H by reflexivity; discriminate).
  rewrite extract_step_dict in H. exists d.
  destruct (dict_get (str "Communications") d) as [comms |].
  - destruct (py_contains (str "results") comms) as [[|] | e]; cbn [bind] in H.
    + destruct (py_getitem comms (str "results")) as [res | e]; [| discriminate].
      cbn [bind] in H. destruct (py_iter res) as [children | e]; [| discriminate].
      cbn [bind] in H.
      destruct (mapR communication_row children) as [rows | e] eqn:Hrows; [| discriminate].
      injection H as <-. destruct (communication_rows _ _ Hrows) as (cs & _ & ->).
      exists cs. split; [reflexivity |]. split; reflexivity.
    + injection H as <-. exists []. cbn [map]. rewrite app_nil_r.
      split; [reflexivity |]. split; reflexivity.
    + discriminate.
  - injection H as <-. exists []. cbn [map]. rewrite app_nil_r.
    split; [reflexivity |]. split; reflexivity.
Qed.

Lemma extract_step_error (acc : list (list value) * list (list value)) (org : value)
    (e : exn) :
  extract_step acc org = Err e -> e = TypeError \/ e = AttributeError.
Proof.
  intros H. destruct org as [| | | | | | | d];
    try (unfold extract_step in H;
         rewrite organization_row_not_dict in H by reflexivity;
         injection H as <-; right; reflexivity).
  rewrite extract_step_dict in H.
  destruct (dict_get (str "Communications") d) as [comms |]; [| discriminate].
  destruct comms as [| b | n | f | s | dt | l | c]; cbn [py_contains bind] in H;
    try (injection H as <-; left; reflexivity).
  - destruct (is_substring (str "results") s); [| discriminate].
    cbn [py_getitem bind] in H. injection H as <-. left. reflexivity.
  - destruct (existsb _ l); [| discriminate].
    cbn [py_getitem bind] in H. injection H as <-. left. reflexivity.
  - unfold dict_in in H. cbn [py_getitem] in H.
    destruct (dict_get (str "results") c) as [res |]; [| discriminate].
    cbn [bind] in H. destruct (py_iter res) as [children |] eqn:Hit.
    + cbn [bind] in H.
      destruct (mapR communication_row children) as [rows | e'] eqn:Hrows; [discriminate |].
      injection H as <-. right. eapply communication_rows_error, Hrows.
    + cbn [bind] in H. injection H as <-.
      destruct res; try discriminate; injection Hit as <-; left; reflexivity.
Qed.

Lemma extract_loop_ok (data : list value) (acc tables : list (list value) * list (list value)) :
  extract_loop acc data = Ok tables ->
  exists ds cs,
    data = map VDict ds
    /\ fst tables = fst acc ++ map organization_tuple ds
    /\ snd tables = snd acc ++ map communication_tuple cs.
Proof.
  revert acc. induction data as [| org data IH]; intros acc H.
  - injection H as <-. exists [], []. cbn [map]. rewrite !app_nil_r.
    split; [reflexivity |]. split; reflexivity.
  - cbn [extract_loop] in H.
    destruct (extract_step acc org) as [acc' | e] eqn:Hstep; [| discriminate].
    cbn [bind] in H.
    destruct (extract_step_ok _ _ _ Hstep) as (d & cs1 & -> & Ho & Hc).
    destruct (IH _ H) as (ds & cs2 & -> & Ho' & Hc').
    exists (d :: ds), (cs1 ++ cs2).
    split; [reflexivity |].
    rewrite Ho', Ho, Hc', Hc, map_app, <- !app_assoc. split; reflexivity.
Qed.

Lemma extract_loop_error (data : list value) (acc : list (list value) * list (list value))
    (e : exn) :
  extract_loop acc data = Err e -> e = TypeError \/ e = AttributeError.
Proof.
  revert acc. induction data as [| org data IH]; intros acc H; [discriminate |].
  cbn [extract_loop] in H.
  destruct (extract_step acc org) as [acc' | e'] eqn:Hstep.
  - cbn [bind] in H. eapply IH, H.
  - cbn [bind] in H. injection H as <-. eapply extract_step_error, Hstep.
Qed.

(** X15. The tuples of the script: a row of [Organizations] is the
    thirteen fixed fields of the record, [None] for a field it lacks, and
    its statement has thirteen parameter markers; a row of
    [Communications] is nine fields and four [None] placeholders, thirteen
    values, for a statement with nine markers. *)
Theorem script_tuples (data : list value) (tables : list (list value) * list (list value)) :
  extract_loop ([], []) data = Ok tables ->
  exists ds cs,
    data = map VDict ds
    /\ fst tables = map organization_tuple ds
    /\ snd tables = map communication_tuple cs
    /\ Forall (fun row => length row = 13%nat) (fst tables)
    /\ Forall (fun row => length row = 13%nat
                          /\ drop 9 row = [VNone; VNone; VNone; VNone]) (snd tables)
    /\ markers insert_organizations_query = 13%nat
    /\ markers insert_communications_query = 9%nat.
Proof.
  intros H. destruct (extract_loop_ok _ _ _ H) as (ds & cs & Hd & Ho & Hc).
  cbn [fst snd app] in Ho, Hc. exists ds, cs.
  split; [exact Hd |]. split; [exact Ho |]. split; [exact Hc |].
  split; [| split; [| split; vm_compute; reflexivity]].
  - rewrite Ho. apply Forall_forall. intros row Hrow.
    apply list_elem_of_fmap in Hrow. destruct Hrow as (d & -> & _).
    unfold organization_tuple. rewrite length_map. reflexivity.
  - rewrite Hc. apply Forall_forall. intros row Hrow.
    apply list_elem_of_fmap in Hrow. destruct Hrow as (d & -> & _).
    unfold communication_tuple. split.
    + rewrite length_app, length_map. reflexivity.
    + reflexivity.
Qed.

Lemma script_tuples_witness :
  exists tables,
    extract_loop ([], []) (map VDict scenario_parents) = Ok tables
    /\ Forall (fun row => length row = 13%nat) (snd tables)
    /\ snd tables <> []
    /\ markers insert_communications_query = 9%nat.
Proof.
  exists ([organization_tuple
             [(str "Id", VInt 1); (str "Name", VStr (str "Acme"));
              (str "Communications",
               VDict [(str "results",
                       VList [VDict [(str "OrgId", VInt 1);
                                     (str "Type", VStr (str "email"))]])])]],
          [communication_tuple [(str "OrgId", VInt 1); (str "Type", VStr (str "email"))]]).
  assert (H : extract_loop ([], []) (map VDict scenario_parents)
              = Ok ([organization_tuple
             [(str "Id", VInt 1); (str "Name", VStr (str "Acme"));
              (str "Communications",
               VDict [(str "results",
                       VList [VDict [(str "OrgId", VInt 1);
                                     (str "Type", VStr (str "email"))]])])]],
          [communication_tuple [(str "OrgId", VInt 1); (str "Type", VStr (str "email"))]]))
    by (vm_compute; reflexivity).
  split; [exact H |].
  destruct (script_tuples _ _ H) as (ds & cs & _ & _ & _ & _ & Hc & _ & Hm).
  split; [eapply Forall_impl; [exact Hc |]; intros row [Hl _]; exact Hl |].
  split; [discriminate | exact Hm].
Defined.

(** ** The script of [backend/main.py]: the run *)

Lemma write_mdb_frame (driver : access) (mdb_filename : string)
    (orgs comms : list (list value)) (w : world) (p : string) :
  p <> mdb_filename ->
  disk (write_mdb driver mdb_filename orgs comms w) !! p = disk w !! p.
Proof.
  intros Hp. unfold write_mdb.
  set (w0 := match disk w !! mdb_filename with
             | Some _ => _
             | None => w
             end).
  assert (H0 : disk w0 !! p = disk w !! p).
  { subst w0. destruct (disk w !! mdb_filename); [| reflexivity].
    cbn [print disk]. apply lookup_delete_ne. congruence. }
  destruct (access_connect driver _); [| exact H0].
  destruct (access_execute driver create_organizations db);
    [| cbn [report print set_db disk]; rewrite lookup_insert_ne by congruence; exact H0].
  destruct (access_execute driver create_communications db0);
    [| cbn [report print set_db disk]; rewrite !lookup_insert_ne by congruence; exact H0].
  destruct (access_executemany driver insert_organizations_query orgs db1);
    [| cbn [report print set_db disk]; rewrite !lookup_insert_ne by congruence; exact H0].
  destruct (access_executemany driver insert_communications_query comms db2);
    cbn [report print set_db disk]; rewrite !lookup_insert_ne by congruence; exact H0.
Qed.

(** X16. The reading step of the script: it returns without raising, and
    tells so on the console, when the input file is missing, when
    [json.load] raises [JSONDecodeError] on it, or when [d.results] is
    empty, and it touches no file then: an earlier output stays where it
    is.  What else the reading raises, the [UnicodeDecodeError] of a file
    that is not UTF-8 or the [ValueError] of an integer literal too long,
    it does not catch. *)
Theorem script_quiet_returns (driver : access) (json_filename mdb_filename : string)
    (w : world) :
  (disk w !! json_filename = None ->
   create_mdb_from_json driver json_filename mdb_filename w
   = (Ok tt,
      mk_world (disk w)
        (stdout w ++ [str "Error: The file '" ++ str json_filename
                      ++ str "' was not found."])))
  /\ (forall bytes, disk w !! json_filename = Some bytes ->
      read_document bytes = Err JSONDecodeError ->
      create_mdb_from_json driver json_filename mdb_filename w
      = (Ok tt,
         mk_world (disk w)
           (stdout w ++ [str "Error: Could not decode JSON from '" ++ str json_filename
                         ++ str "'. Please check the file's format."])))
  /\ (forall bytes e, disk w !! json_filename = Some bytes ->
      read_document bytes = Err e -> e <> JSONDecodeError ->
      create_mdb_from_json driver json_filename mdb_filename w = (Err e, w))
  /\ (forall bytes full d data,
        disk w !! json_filename = Some bytes -> read_document bytes = Ok full ->
        py_get full (str "d") (VDict []) = Ok d ->
        py_get d (str "results") (VList []) = Ok data ->
        data = VList [] \/ data = VDict [] \/ data = VStr [] ->
        create_mdb_from_json driver json_filename mdb_filename w
        = (Ok tt,
           mk_world (disk w)
             (stdout w
              ++ [str "Successfully loaded JSON data from '" ++ str json_filename
                  ++ str "'. Found 0 organizations.";
                  str "Warning: The 'results' array in the JSON file is empty. No data will be inserted."])))
  /\ read_document [239; 187; 191; 123; 125] = Err JSONDecodeError
  /\ read_document [91; 49; 44; 93] = Err JSONDecodeError
  /\ read_document [91; 255; 93] = Err UnicodeDecodeError
  /\ read_document (repeat 49 4301) = Err ValueError
  /\ read_document (45 :: repeat 49 4300) <> Err ValueError
  /\ read_document (repeat 49 4301 ++ [46; 48]) <> Err ValueError.
Proof.
  split; [| split; [| split; [| split]]].
  - intros H. unfold create_mdb_from_json. rewrite H. reflexivity.
  - intros bytes H1 H2. unfold create_mdb_from_json. rewrite H1, H2. reflexivity.
  - intros bytes e H1 H2 Hne. unfold create_mdb_from_json. rewrite H1, H2.
    destruct e; try reflexivity. contradiction.
  - intros bytes full d data H1 H2 H3 H4 Hdata.
    unfold create_mdb_from_json. rewrite H1, H2, H3. cbn [bind]. rewrite H4. cbn [bind].
    destruct Hdata as [-> | [-> | ->]]; cbn [py_len bind truthy negb length];
      unfold print; cbn [disk stdout]; rewrite <- app_assoc; reflexivity.
  - split; [vm_compute; reflexivity |]. split; [vm_compute; reflexivity |].
    split; [vm_compute; reflexivity |]. split; [vm_compute; reflexivity |].
    split; vm_compute; discriminate.
Qed.

(** X17. What the script does not catch once the document is read: a
    [d.results] that is null, a boolean or a number raises [TypeError]
    (from [len]), and a document, or a member [d], that is no object
    raises [AttributeError]; nothing is printed or written before. *)
Theorem script_uncaught (driver : access) (json_filename mdb_filename : string)
    (w : world) (bytes : pystr) (full : value) :
  disk w !! json_filename = Some bytes ->
  read_document bytes = Ok full ->
  (is_dict full = false ->
   create_mdb_from_json driver json_filename mdb_filename w = (Err AttributeError, w))
  /\ (forall d, py_get full (str "d") (VDict []) = Ok d -> is_dict d = false ->
      create_mdb_from_json driver json_filename mdb_filename w = (Err AttributeError, w))
  /\ (forall d data,
        py_get full (str "d") (VDict []) = Ok d ->
        py_get d (str "results") (VList []) = Ok data ->
        no_container data = true ->
        create_mdb_from_json driver json_filename mdb_filename w = (Err TypeError, w)).
Proof.
  intros H1 H2. unfold create_mdb_from_json. rewrite H1, H2.
  split; [| split].
  - intros Hf. destruct full; try discriminate; reflexivity.
  - intros d Hd Hnd. rewrite Hd. cbn [bind].
    destruct d; try discriminate; reflexivity.
  - intros d data Hd Hdata Hnc. rewrite Hd. cbn [bind]. rewrite Hdata. cbn [bind].
    destruct data; try discriminate; reflexivity.
Qed.

Lemma script_uncaught_witness :
  let w := mk_world (<["in.json"%string := qstr "{'d':{'results':null}}"]> ∅) [] in
  create_mdb_from_json (mk_access (fun _ => Done []) (fun _ db => Done db)
                          (fun _ _ db => Done db)) "in.json" "out.mdb" w
  = (Err TypeError, w).
Proof.
  cbv zeta.
  destruct (script_uncaught
              (mk_access (fun _ => Done []) (fun _ db => Done db) (fun _ _ db => Done db))
              "in.json" "out.mdb"
              (mk_world (<["in.json"%string := qstr "{'d':{'results':null}}"]> ∅) [])
              (qstr "{'d':{'results':null}}")
              (VDict [(str "d", VDict [(str "results", VNone)])]))
    as (_ & _ & H); [vm_compute; reflexivity | vm_compute; reflexivity |].
  apply (H (VDict [(str "results", VNone)]) VNone); reflexivity.
Defined.

(** X18. Once [json.load] has read the document, the script returns or
    raises [TypeError] or [AttributeError]: what the driver refuses it
    catches.  And whatever the input and the driver, it changes no file
    but the destination. *)
Theorem script_outcomes (driver : access) (json_filename mdb_filename : string)
    (w : world) :
  (forall bytes full,
     disk w !! json_filename = Some bytes -> read_document bytes = Ok full ->
     fst (create_mdb_from_json driver json_filename mdb_filename w) = Ok tt
     \/ fst (create_mdb_from_json driver json_filename mdb_filename w) = Err TypeError
     \/ fst (create_mdb_from_json driver json_filename mdb_filename w) = Err AttributeError)
  /\ forall p, p <> mdb_filename ->
       disk (snd (create_mdb_from_json driver json_filename mdb_filename w)) !! p
       = disk w !! p.
Proof.
  split.
  - intros bytes full Hf Hr. unfold create_mdb_from_json. rewrite Hf, Hr.
    destruct (py_get full (str "d") (VDict [])) as [d | e] eqn:Hd.
    2:{ cbn [bind fst].
        destruct full; try discriminate; injection Hd as <-; right; right; reflexivity. }
    cbn [bind].
    destruct (py_get d (str "results") (VList [])) as [data | e] eqn:Hdata.
    2:{ cbn [bind fst].
        destruct d; try discriminate; injection Hdata as <-; right; right; reflexivity. }
    cbn [bind].
    destruct (py_len data) as [n | e] eqn:Hlen.
    2:{ cbn [bind fst].
        destruct data; try discriminate; injection Hlen as <-; right; left; reflexivity. }
    cbn [bind].
    destruct (negb (truthy data)); [left; reflexivity |].
    destruct (py_iter data) as [orgs | e] eqn:Hit.
    2:{ destruct data; discriminate. }
    cbn [bind].
    destruct (extract_loop ([], []) orgs) as [tables | e] eqn:Hloop.
    + left. reflexivity.
    + cbn [fst]. destruct (extract_loop_error _ _ _ Hloop) as [-> | ->]; auto.
  - intros p Hp. unfold create_mdb_from_json.
    destruct (disk w !! json_filename) as [bytes |]; [| reflexivity].
    destruct (read_document bytes) as [full | e]; [| destruct e; reflexivity].
    destruct (let* d := py_get full (str "d") (VDict []) in
              let* data := py_get d (str "results") (VList []) in
              let* n := py_len data in Ok (data, n)) as [[data n] | e]; [| reflexivity].
    destruct (negb (truthy data)); [reflexivity |].
    destruct (let* orgs := py_iter data in extract_loop ([], []) orgs) as [tables | e];
      [| reflexivity].
    cbn [snd]. rewrite write_mdb_frame by exact Hp. reflexivity.
Qed.

Lemma write_mdb_removes (driver : access) (mdb_filename : string) (w : world) :
  disk (match disk w !! mdb_filename with
        | Some _ =>
            print (str "Existing file '" ++ str mdb_filename ++ str "' deleted.")
              (mk_world (delete mdb_filename (disk w)) (stdout w))
        | None => w
        end) = delete mdb_filename (disk w).
Proof.
  destruct (disk w !! mdb_filename) eqn:H; [reflexivity |].
  symmetry. apply delete_id, H.
Qed.

(** X19. The script removes the destination and only then connects: the
    driver is always asked to open a path with no file.  With a driver
    that refuses such a path, no database is ever made: whatever the
    rows, the destination is gone afterwards, an earlier output too, and
    the last lines on the console are the report of the error. *)
Theorem script_connects_to_no_file (driver : access) (mdb_filename : string)
    (orgs comms : list (list value)) (w : world) (s t : pystr) :
  access_connect driver None = Refused s t ->
  disk (write_mdb driver mdb_filename orgs comms w) = delete mdb_filename (disk w)
  /\ disk (write_mdb driver mdb_filename orgs comms w) !! mdb_filename = None
  /\ exists lines,
       stdout (write_mdb driver mdb_filename orgs comms w)
       = stdout w ++ lines ++ [str "An ODBC error occurred: " ++ s; t].
Proof.
  intros Hconn. unfold write_mdb.
  set (w0 := match disk w !! mdb_filename with
             | Some _ => _
             | None => w
             end).
  assert (H0 : disk w0 = delete mdb_filename (disk w)) by apply (write_mdb_removes driver).
  assert (Hnone : disk w0 !! mdb_filename = None) by (rewrite H0; apply lookup_delete_eq).
  rewrite Hnone, Hconn. cbn [report print disk stdout].
  split; [exact H0 |]. split; [exact Hnone |].
  subst w0. destruct (disk w !! mdb_filename).
  - eexists [_]. cbn [print stdout]. rewrite <- !app_assoc. reflexivity.
  - exists []. rewrite <- !app_assoc. reflexivity.
Qed.

Lemma script_connects_to_no_file_witness :
  let driver := mk_access
                  (fun f => match f with
                            | Some db => Done db
                            | None => Refused (str "HY000") (str "Could not find file")
                            end)
                  (fun _ db => Done db) (fun _ _ db => Done db) in
  let w := mk_world (<["in.json"%string := scenario_text]>
                       (<["out.mdb"%string := str "old"]> ∅)) [] in
  fst (create_mdb_from_json driver "in.json" "out.mdb" w) = Ok tt
  /\ disk (snd (create_mdb_from_json driver "in.json" "out.mdb" w)) !! "out.mdb"%string
     = None
  /\ disk (write_mdb driver "out.mdb" [] [] w) !! "out.mdb"%string = None.
Proof.
  cbv zeta. split; [vm_compute; reflexivity |]. split; [vm_compute; reflexivity |].
  apply (script_connects_to_no_file _ "out.mdb" [] [] _ (str "HY000")
           (str "Could not find file")).
  reflexivity.
Defined.

(** X20. With a driver that makes a database at the path and accepts the
    four statements, the script issues them in the order of the source,
    the two tables and then the rows of each, and leaves the last
    database at the destination; its last line says the file is ready. *)
Theorem script_writes_tables (driver : access) (mdb_filename : string)
    (orgs comms : list (list value)) (w : world) (db0 db1 db2 db3 db4 : pystr) :
  access_connect driver None = Done db0 ->
  access_execute driver create_organizations db0 = Done db1 ->
  access_execute driver create_communications db1 = Done db2 ->
  access_executemany driver insert_organizations_query orgs db2 = Done db3 ->
  access_executemany driver insert_communications_query comms db3 = Done db4 ->
  disk (write_mdb driver mdb_filename orgs comms w) = <[mdb_filename := db4]> (disk w)
  /\ last (stdout (write_mdb driver mdb_filename orgs comms w))
     = Some (str "Data successfully inserted. File '" ++ str mdb_filename
             ++ str "' is ready.").
Proof.
  intros Hc H1 H2 H3 H4. unfold write_mdb.
  set (w0 := match disk w !! mdb_filename with
             | Some _ => _
             | None => w
             end).
  assert (H0 : disk w0 = delete mdb_filename (disk w)) by apply (write_mdb_removes driver).
  assert (Hnone : disk w0 !! mdb_filename = None) by (rewrite H0; apply lookup_delete_eq).
  rewrite Hnone, Hc, H1, H2, H3, H4. cbn [print set_db disk stdout].
  split.
  - rewrite !insert_insert_eq, H0. apply insert_delete_eq.
  - apply last_snoc.
Qed.

Lemma script_writes_tables_witness :
  let driver := mk_access (fun _ => Done (str "MDB")) (fun sql db => Done (db ++ [59]))
                  (fun sql rows db => Done (db ++ [33])) in
  let w := mk_world (<["out.mdb"%string := str "old"]> ∅) [] in
  disk (write_mdb driver "out.mdb" [] [] w) !! "out.mdb"%string = Some (str "MDB;;!!").
Proof.
  cbv zeta.
  destruct (script_writes_tables
              (mk_access (fun _ => Done (str "MDB")) (fun sql db => Done (db ++ [59]))
                 (fun sql rows db => Done (db ++ [33])))
              "out.mdb" [] [] (mk_world (<["out.mdb"%string := str "old"]> ∅) [])
              (str "MDB") (str "MDB;") (str "MDB;;") (str "MDB;;!") (str "MDB;;!!")
              eq_refl eq_refl eq_refl eq_refl eq_refl) as [H _].
  rewrite H. apply lookup_insert_eq.
Defined.
